(** * Tyroo ETL pipeline: a shallow embedding and its properties

    The development follows the Python sources:
    - [src/config.py]                 -> [Module Config]
    - [src/utils/data_processor.py]   -> [Section DataProcessor] (the pure
                                         cleaning steps) and
                                         [Section DataProcessorMethods]
    - [src/utils/logger.py]           -> [log_execution_time]
    - [src/utils/database.py]         -> [Section DatabaseManager]
    - [src/data_processor.py]         -> [Section DataProcessingPipeline]

    A pandas DataFrame is a row count together with a list of named, typed
    columns.  Python exceptions are an explicit [Raise] outcome of a state
    monad whose state is the pipeline object together with the outside
    world (clock, file system, network, database). *)

From Stdlib Require Import String Ascii.
From Stdlib Require Import List ZArith QArith Qabs Bool Lia Arith.
Import ListNotations.
Local Open Scope string_scope.
Local Open Scope Z_scope.

(* ================================================================== *)
(** ** Configuration (src/config.py) *)

Module Config.

Definition CSV_URL : string :=
  "https://tyroo-engineering-assesments.s3.us-west-2.amazonaws.com/Tyroo-dummy-data.csv.gz".

Definition DOWNLOAD_PATH : string := "data/downloaded_data.csv.gz".

Definition CHUNK_SIZE : Z := 10000.

Definition BATCH_SIZE : Z := 1000.

(** [os.path.basename(Config.DOWNLOAD_PATH)] *)
Definition DOWNLOAD_BASENAME : string := "downloaded_data.csv.gz".

End Config.

(* ================================================================== *)
(** ** Data model: cells, columns, frames *)

(** A cell of a table.  [CNull] stands for every pandas missing-value
    marker (NaN, None, NaT).  Floating-point payloads are kept as exact
    rationals. *)
Inductive cell : Type :=
| CNull
| CInt (z : Z)
| CFloat (q : Q)
| CStr (s : string)
| CTime (t : Z).

(** Column dtypes that the pipeline tests for or produces. *)
Inductive dtype : Type :=
| DObject | DInt64 | DInt32 | DInt16 | DInt8 | DFloat64 | DFloat32 | DDatetime.

Definition dtype_eqb (a b : dtype) : bool :=
  match a, b with
  | DObject, DObject | DInt64, DInt64 | DInt32, DInt32 | DInt16, DInt16
  | DInt8, DInt8 | DFloat64, DFloat64 | DFloat32, DFloat32
  | DDatetime, DDatetime => true
  | _, _ => false
  end.

Record Series : Type := mkSeries {
  name : string;
  dt : dtype;
  values : list cell
}.

Record DataFrame : Type := mkDF {
  nrows : nat;               (* len(df), the length of the index *)
  columns : list Series
}.

(** Every column holds exactly one cell per row. *)
Definition wf_frame (df : DataFrame) : Prop :=
  Forall (fun s => length (values s) = nrows df) (columns df).

(** [pd.DataFrame()] *)
Definition empty_frame : DataFrame := mkDF 0 [].

(** [df.empty]: some axis has length zero. *)
Definition df_empty (df : DataFrame) : bool :=
  (nrows df =? 0)%nat || (length (columns df) =? 0)%nat.

Definition isnull (c : cell) : bool :=
  match c with CNull => true | _ => false end.

(** Numeric reading of a cell, for Python's [==] across int and float. *)
Definition cell_number (c : cell) : option Q :=
  match c with
  | CInt z => Some (inject_Z z)
  | CFloat q => Some q
  | _ => None
  end.

(** Equality of cells as [DataFrame.duplicated] sees it: missing values
    compare equal to each other, numbers by value, text by content. *)
Definition cell_eqb (a b : cell) : bool :=
  match a, b with
  | CNull, CNull => true
  | CStr s, CStr t => String.eqb s t
  | CTime s, CTime t => Z.eqb s t
  | _, _ =>
      match cell_number a, cell_number b with
      | Some p, Some q => Qeq_bool p q
      | _, _ => false
      end
  end.

Fixpoint row_eqb (r1 r2 : list cell) : bool :=
  match r1, r2 with
  | [], [] => true
  | a :: r1', b :: r2' => cell_eqb a b && row_eqb r1' r2'
  | _, _ => false
  end.

(** Row [i] of a frame, read across its columns. *)
Definition row_at (df : DataFrame) (i : nat) : list cell :=
  map (fun s => nth i (values s) CNull) (columns df).

Definition rows_of (df : DataFrame) : list (list cell) :=
  map (row_at df) (seq 0 (nrows df)).

(** [df.duplicated(keep='first')] over a list of rows: a row is marked
    when an earlier row equals it. *)
Fixpoint duplicated_from (seen : list (list cell)) (rows : list (list cell))
  : list bool :=
  match rows with
  | [] => []
  | r :: rest => existsb (row_eqb r) seen :: duplicated_from (r :: seen) rest
  end.

Definition duplicated (df : DataFrame) : list bool :=
  duplicated_from [] (rows_of df).

(** Keep the entries whose mask bit is [false]. *)
Fixpoint drop_masked {A : Type} (mask : list bool) (xs : list A) : list A :=
  match mask, xs with
  | m :: mask', x :: xs' =>
      if m then drop_masked mask' xs' else x :: drop_masked mask' xs'
  | _, _ => []
  end.

(** [df.drop_duplicates()] *)
Definition drop_duplicates (df : DataFrame) : DataFrame :=
  let mask := duplicated df in
  mkDF (length (filter negb mask))
       (map (fun s => mkSeries (name s) (dt s) (drop_masked mask (values s)))
            (columns df)).

(** [df.isnull().sum().sum()] *)
Definition null_cells (df : DataFrame) : nat :=
  list_sum (map (fun s => length (filter isnull (values s))) (columns df)).

(** [len(df.dropna())]: rows without any missing cell. *)
Definition complete_rows (df : DataFrame) : nat :=
  length (filter (fun r => negb (existsb isnull r)) (rows_of df)).

(* ================================================================== *)
(** ** The pandas operations used by the cleaning stage *)

Inductive number : Type := NInt (z : Z) | NFloat (q : Q).

Definition cell_of_number (n : number) : cell :=
  match n with NInt z => CInt z | NFloat q => CFloat q end.

(** What the sources leave to the installed pandas/numpy: how text is read
    as a number, how a 64-bit float is narrowed to 32 bits and within which
    absolute tolerance that narrowing is accepted, and whether
    [df.loc[:, c] = s] writes into the existing array (keeping its dtype
    when the values fit) or replaces the column by [s]. *)
Class PandasLib : Type := {
  parse_number : string -> option number;
  to_float32 : Q -> Q;
  float32_tolerance : Q;
  loc_setitem_inplace : bool
}.

Definition is_int_dtype (d : dtype) : bool :=
  match d with DInt64 | DInt32 | DInt16 | DInt8 => true | _ => false end.

Definition is_float_dtype (d : dtype) : bool :=
  match d with DFloat64 | DFloat32 => true | _ => false end.

(** Can an array of dtype [d] store the cell [c] as it is?  (The pipeline
    never writes integers into a float column, so no conversion on write
    is modelled.) *)
Definition can_hold (d : dtype) (c : cell) : bool :=
  match d, c with
  | DObject, _ => true
  | (DInt64 | DInt32 | DInt16 | DInt8), CInt _ => true
  | (DFloat64 | DFloat32), (CFloat _ | CNull) => true
  | DDatetime, (CTime _ | CNull) => true
  | _, _ => false
  end.

(** [series.fillna(v)]: only missing cells are replaced; the dtype widens
    to object when a replacement was made that the array cannot store. *)
Definition fillna (v : cell) (s : Series) : Series :=
  mkSeries (name s)
           (if existsb isnull (values s) && negb (can_hold (dt s) v)
            then DObject else dt s)
           (map (fun c => if isnull c then v else c) (values s)).

Fixpoint insert_sorted (q : Q) (l : list Q) : list Q :=
  match l with
  | [] => [q]
  | h :: t => if Qle_bool q h then q :: l else h :: insert_sorted q t
  end.

Definition sort_numbers (l : list Q) : list Q := fold_right insert_sorted [] l.

Fixpoint numbers_of (l : list cell) : list Q :=
  match l with
  | [] => []
  | c :: t =>
      match cell_number c with
      | Some q => q :: numbers_of t
      | None => numbers_of t
      end
  end.

(** [series.median()]: missing values are skipped; NaN when nothing is
    left. *)
Definition median (s : Series) : cell :=
  let xs := sort_numbers (numbers_of (values s)) in
  let n := length xs in
  match n with
  | O => CNull
  | _ =>
      if Nat.even n
      then CFloat (Qred ((nth (n / 2 - 1) xs 0%Q + nth (n / 2) xs 0%Q) / 2))
      else CFloat (nth (n / 2) xs 0%Q)
  end.

Definition count_occ_cell (c : cell) (l : list cell) : nat :=
  length (filter (cell_eqb c) l).

(** Distinct values in order of first appearance. *)
Fixpoint unique_cells (seen : list cell) (l : list cell) : list cell :=
  match l with
  | [] => []
  | c :: t =>
      if existsb (cell_eqb c) seen then unique_cells seen t
      else c :: unique_cells (c :: seen) t
  end.

(** Python's [<] where it is defined: numbers with numbers, text with text,
    timestamps with timestamps. *)
Definition cell_ltb (a b : cell) : option bool :=
  match a, b with
  | CStr s, CStr t => Some (String.ltb s t)
  | CTime s, CTime t => Some (Z.ltb s t)
  | _, _ =>
      match cell_number a, cell_number b with
      | Some p, Some q => Some (negb (Qle_bool q p))
      | _, _ => None
      end
  end.

(** The least element, or [None] when two elements cannot be compared. *)
Fixpoint least_cell (m : cell) (l : list cell) : option cell :=
  match l with
  | [] => Some m
  | c :: t =>
      match cell_ltb c m with
      | Some true => least_cell c t
      | Some false => least_cell m t
      | None => None
      end
  end.

(** [series.mode()]: the most frequent non-missing values; [mode_first] is
    its [.iloc[0]] ([None] when the mode is empty).  The modes are sorted
    when they can be compared and left in order of appearance otherwise. *)
Definition mode (s : Series) : list cell :=
  let present := filter (fun c => negb (isnull c)) (values s) in
  let best := fold_right Nat.max O (map (fun c => count_occ_cell c present) present) in
  filter (fun c => (count_occ_cell c present =? best)%nat) (unique_cells [] present).

Definition mode_first (s : Series) : option cell :=
  match mode s with
  | [] => None
  | c :: t =>
      match least_cell c t with
      | Some m => Some m
      | None => Some c
      end
  end.

Section DataProcessor.
Context {pandas : PandasLib}.

(** [df.loc[:, column] = new] for one column. *)
Definition loc_setitem (old new : Series) : Series :=
  if loc_setitem_inplace && forallb (can_hold (dt old)) (values new)
  then mkSeries (name old) (dt old) (values new)
  else mkSeries (name old) (dt new) (values new).

(** Body of the loop of [_handle_missing_values] for one column. *)
Definition impute_column (s : Series) : Series :=
  match dt s with
  | DInt64 | DFloat64 => loc_setitem s (fillna (median s) s)
  | _ =>
      match mode_first s with
      | Some m => loc_setitem s (fillna m s)
      | None => loc_setitem s (fillna (CStr "Unknown") s)
      end
  end.

(** [DataProcessor._handle_missing_values] *)
Definition _handle_missing_values (df : DataFrame) : DataFrame :=
  mkDF (nrows df) (map impute_column (columns df)).

(** [DataProcessor._remove_duplicates] *)
Definition _remove_duplicates (df : DataFrame) : DataFrame :=
  drop_duplicates df.

(** [pd.to_numeric(series, errors='coerce')] on one cell: numbers stay,
    text is parsed, whatever does not parse becomes missing. *)
Definition to_numeric_cell (c : cell) : cell :=
  match c with
  | CInt _ | CFloat _ => c
  | CStr s =>
      match parse_number s with
      | Some n => cell_of_number n
      | None => CNull
      end
  | CNull | CTime _ => CNull
  end.

Definition is_int_cell (c : cell) : bool :=
  match c with CInt _ => true | _ => false end.

Definition float_of_cell (c : cell) : cell :=
  match c with CInt z => CFloat (inject_Z z) | _ => c end.

(** [pd.to_numeric(series, errors='coerce')]: int64 when every cell became
    an integer, float64 otherwise. *)
Definition to_numeric_coerce (s : Series) : Series :=
  let vals := map to_numeric_cell (values s) in
  if forallb is_int_cell vals
  then mkSeries (name s) DInt64 vals
  else mkSeries (name s) DFloat64 (map float_of_cell vals).

Definition fits_int (bits : Z) (c : cell) : bool :=
  match c with
  | CInt z => (- 2 ^ (bits - 1) <=? z) && (z <? 2 ^ (bits - 1))
  | _ => false
  end.

(** [pd.to_numeric(series, downcast='integer')] on an int64 column. *)
Definition to_numeric_downcast_integer (s : Series) : Series :=
  let d :=
    if forallb (fits_int 8) (values s) then DInt8
    else if forallb (fits_int 16) (values s) then DInt16
    else if forallb (fits_int 32) (values s) then DInt32
    else dt s in
  mkSeries (name s) d (values s).

Definition narrow_cell (c : cell) : cell :=
  match c with CFloat q => CFloat (to_float32 q) | _ => c end.

Definition narrow_close (c : cell) : bool :=
  match c with
  | CFloat q => Qle_bool (Qabs (to_float32 q - q)) float32_tolerance
  | _ => true
  end.

(** [pd.to_numeric(series, downcast='float')] on a float64 column. *)
Definition to_numeric_downcast_float (s : Series) : Series :=
  if forallb narrow_close (values s)
  then mkSeries (name s) DFloat32 (map narrow_cell (values s))
  else s.

Definition provenance_columns : list string :=
  ["source_file"; "processing_batch"; "created_at"; "updated_at"].

Definition is_provenance (n : string) : bool :=
  existsb (String.eqb n) provenance_columns.

(** The three successive [if] tests of the loop body of
    [_convert_data_types]; each one looks at the column as the previous
    one left it. *)
Definition coerce_object (s : Series) : Series :=
  match dt s with
  | DObject =>
      let numeric_converted := to_numeric_coerce s in
      if negb (forallb isnull (values numeric_converted))
      then loc_setitem s numeric_converted
      else s
  | _ => s
  end.

Definition downcast_int64 (s : Series) : Series :=
  match dt s with
  | DInt64 => loc_setitem s (to_numeric_downcast_integer s)
  | _ => s
  end.

Definition downcast_float64 (s : Series) : Series :=
  match dt s with
  | DFloat64 => loc_setitem s (to_numeric_downcast_float s)
  | _ => s
  end.

Definition convert_column (s : Series) : Series :=
  if is_provenance (name s) then s
  else downcast_float64 (downcast_int64 (coerce_object s)).

(** [DataProcessor._convert_data_types] *)
Definition _convert_data_types (df : DataFrame) : DataFrame :=
  mkDF (nrows df) (map convert_column (columns df)).

(** [df[name] = v]: overwrite the column of that name with the scalar [v]
    on every row, or append it as the last column. *)
Fixpoint set_scalar (n : string) (d : dtype) (v : cell) (len : nat)
         (cols : list Series) : list Series :=
  match cols with
  | [] => [mkSeries n d (repeat v len)]
  | s :: rest =>
      if String.eqb (name s) n
      then mkSeries n d (repeat v len) :: rest
      else s :: set_scalar n d v len rest
  end.

Definition setitem_scalar (n : string) (d : dtype) (v : cell) (df : DataFrame)
  : DataFrame :=
  mkDF (nrows df) (set_scalar n d v (nrows df) (columns df)).

(** [DataProcessor.validate_data]'s result dictionary. *)
Record Metrics : Type := mkMetrics {
  total_records : Z;
  valid_records : Z;
  null_records : Z;
  duplicate_records : Z
}.

(** [DataProcessor.validate_data] *)
Definition validate_data (df : DataFrame) : Metrics :=
  mkMetrics (Z.of_nat (nrows df))
            (Z.of_nat (complete_rows df))
            (Z.of_nat (null_cells df))
            (Z.of_nat (nrows df) - Z.of_nat (nrows (drop_duplicates df))).

End DataProcessor.

(* ================================================================== *)
(** ** Exceptions, the outside world and the pipeline object *)

Inductive exn : Type :=
| Exception (msg : string)
| ValueError (msg : string)
| FileNotFoundError (msg : string)
| TypeError (msg : string)
| LibraryError (msg : string)    (* raised inside pandas, requests, SQLAlchemy *)
| OSError (msg : string).        (* FileExistsError, NotADirectoryError,
                                    IsADirectoryError *)

(** [str(e)] *)
Definition exn_message (e : exn) : string :=
  match e with
  | Exception m | ValueError m | FileNotFoundError m | TypeError m
  | LibraryError m | OSError m => m
  end.

(** What [pd.read_csv(path, chunksize=n)] yields for a stored file: the
    chunks in order, or the exception its iteration stops with. *)
Inductive read_outcome : Type :=
| Chunks (cs : list DataFrame)
| ParseFailure (msg : string).

Definition file_content : Type := Z -> read_outcome.

(** What a path names: a regular file, given by its content, or a
    directory.  A path names what is stored under its exact spelling. *)
Inductive node : Type :=
| File (content : file_content)
| Directory.

(** What the remote end does with [requests.get] and the streamed body. *)
Inductive http_response : Type :=
| TransportError (msg : string)                 (* get / raise_for_status raises *)
| Body (content : file_content)                 (* the whole payload arrives *)
| BrokenStream (partial : file_content) (msg : string).

(** One row of [processing_log]. *)
Record LogEntry : Type := mkLogEntry {
  le_file_name : string;
  le_total_rows : Z;
  le_processed_rows : Z;
  le_status : string;
  le_error_message : option string;
  le_processing_time : option Z
}.

(** One row of [data_quality_metrics]. *)
Record MetricsEntry : Type := mkMetricsEntry {
  me_batch_id : string;
  me_metrics : Metrics
}.

(** The relational store: the tables written by [to_sql], by name, and the
    two audit tables ([None] while the table has not been created). *)
Record Database : Type := mkDB {
  data_tables : list (string * list (list cell));
  processing_log : option (list LogEntry);
  data_quality_metrics : option (list MetricsEntry)
}.

(** Observable actions, oldest first. *)
Inductive event : Type :=
| NetGet (url : string)
| ToSql (table : string) (rows : nat)
| CreateTables
| WriteStatus (e : LogEntry)
| WriteMetrics (e : MetricsEntry)
| LoggerWarning (msg : string)
| LoggerError (msg : string).

Record World : Type := mkWorld {
  clock : nat -> Z;            (* the n-th call of datetime.now() *)
  ticks : nat;
  fs : string -> option node;
  remote : http_response;
  db : Database;
  store_fails : nat -> bool;   (* does the n-th statement sent to the store raise? *)
  store_ops : nat;
  audit_fails : nat -> bool;   (* does the n-th write to an audit table raise? *)
  audit_ops : nat;
  trace : list event
}.

(** [DataProcessingPipeline] with its [DataProcessor] fields inlined. *)
Record Pipeline : Type := mkPipeline {
  processed_rows : Z;
  total_rows : Z;
  batch_id : string;
  start_time : option Z;
  end_time : option Z;
  world : World
}.

Definition set_world (w : World) (p : Pipeline) : Pipeline :=
  mkPipeline (processed_rows p) (total_rows p) (batch_id p)
             (start_time p) (end_time p) w.
Definition set_processed_rows (n : Z) (p : Pipeline) : Pipeline :=
  mkPipeline n (total_rows p) (batch_id p) (start_time p) (end_time p) (world p).
Definition set_total_rows (n : Z) (p : Pipeline) : Pipeline :=
  mkPipeline (processed_rows p) n (batch_id p) (start_time p) (end_time p) (world p).
Definition set_start_time (t : option Z) (p : Pipeline) : Pipeline :=
  mkPipeline (processed_rows p) (total_rows p) (batch_id p) t (end_time p) (world p).
Definition set_end_time (t : option Z) (p : Pipeline) : Pipeline :=
  mkPipeline (processed_rows p) (total_rows p) (batch_id p) (start_time p) t (world p).

Definition set_ticks (n : nat) (w : World) : World :=
  mkWorld (clock w) n (fs w) (remote w) (db w) (store_fails w) (store_ops w)
          (audit_fails w) (audit_ops w) (trace w).
Definition set_fs (f : string -> option node) (w : World) : World :=
  mkWorld (clock w) (ticks w) f (remote w) (db w) (store_fails w) (store_ops w)
          (audit_fails w) (audit_ops w) (trace w).
Definition set_db (d : Database) (w : World) : World :=
  mkWorld (clock w) (ticks w) (fs w) (remote w) d (store_fails w) (store_ops w)
          (audit_fails w) (audit_ops w) (trace w).
Definition set_store_ops (n : nat) (w : World) : World :=
  mkWorld (clock w) (ticks w) (fs w) (remote w) (db w) (store_fails w) n
          (audit_fails w) (audit_ops w) (trace w).
Definition set_audit_ops (n : nat) (w : World) : World :=
  mkWorld (clock w) (ticks w) (fs w) (remote w) (db w) (store_fails w) (store_ops w)
          (audit_fails w) n (trace w).
Definition set_audit_fails (f : nat -> bool) (w : World) : World :=
  mkWorld (clock w) (ticks w) (fs w) (remote w) (db w) (store_fails w) (store_ops w)
          f (audit_ops w) (trace w).
Definition set_trace (t : list event) (w : World) : World :=
  mkWorld (clock w) (ticks w) (fs w) (remote w) (db w) (store_fails w) (store_ops w)
          (audit_fails w) (audit_ops w) t.

(** [DataProcessingPipeline.__init__]: fresh counters, a fresh uuid4 token
    as batch identifier, no start or end time yet. *)
Definition new_pipeline (uuid : string) (w : World) : Pipeline :=
  mkPipeline 0 0 uuid None None w.

(** *** A state-and-exception monad over the pipeline object *)

Inductive outcome (A : Type) : Type :=
| Return (a : A)
| Raise (e : exn).
Arguments Return {A} a.
Arguments Raise {A} e.

Definition M (A : Type) : Type := Pipeline -> outcome A * Pipeline.

Definition ret {A} (a : A) : M A := fun p => (Return a, p).
Definition raise {A} (e : exn) : M A := fun p => (Raise e, p).
Definition bind {A B} (m : M A) (k : A -> M B) : M B :=
  fun p =>
    match m p with
    | (Return a, p') => k a p'
    | (Raise e, p') => (Raise e, p')
    end.
(** [try: m except Exception as e: h e] *)
Definition try_except {A} (m : M A) (h : exn -> M A) : M A :=
  fun p =>
    match m p with
    | (Return a, p') => (Return a, p')
    | (Raise e, p') => h e p'
    end.
Definition get : M Pipeline := fun p => (Return p, p).
Definition modify (f : Pipeline -> Pipeline) : M unit := fun p => (Return tt, f p).
Definition modify_world (f : World -> World) : M unit :=
  modify (fun p => set_world (f (world p)) p).

Notation "x <- m ;; k" := (bind m (fun x => k))
  (at level 61, m at next level, right associativity).
Notation "m ;;; k" := (bind m (fun _ => k))
  (at level 61, right associativity).

Definition emit (e : event) : M unit :=
  modify_world (fun w => set_trace (trace w ++ [e]) w).

(** [datetime.now()] *)
Definition now : M Z :=
  p <- get ;;
  modify_world (fun w => set_ticks (S (ticks w)) w) ;;;
  ret (clock (world p) (ticks (world p))).

(** The [@log_execution_time] decorator (src/utils/logger.py): it reads the
    clock before and after the call and re-raises what the call raises. *)
Definition log_execution_time {A} (fname : string) (f : M A) : M A :=
  _ <- now ;;
  try_except
    (r <- f ;; _ <- now ;; ret r)
    (fun e => _ <- now ;;
              emit (LoggerError ("Failed " ++ fname)) ;;;
              raise e).

(** Python's [x or default] on an optional integer. *)
Definition py_or (x : option Z) (default : Z) : Z :=
  match x with
  | None | Some 0 => default
  | Some v => v
  end.

(** Python's [range(start, stop, step)] for a non-zero step. *)
Fixpoint range_loop (fuel : nat) (i stop step : Z) : list Z :=
  match fuel with
  | O => []
  | S fuel' =>
      if ((0 <? step) && (i <? stop)) || ((step <? 0) && (stop <? i))
      then i :: range_loop fuel' (i + step) stop step
      else []
  end.

Definition py_range (start stop step : Z) : list Z :=
  range_loop (Z.to_nat (Z.abs (stop - start))) start stop step.

(** *** Concatenating the chunks of one file *)

Definition join_dtype (a b : dtype) : dtype :=
  if dtype_eqb a b then a
  else if is_int_dtype a && is_int_dtype b then DInt64
  else if (is_int_dtype a || is_float_dtype a) && (is_int_dtype b || is_float_dtype b)
       then DFloat64
  else DObject.

Definition concat_series (a b : Series) : Series :=
  let d := join_dtype (dt a) (dt b) in
  let store := if is_float_dtype d then float_of_cell else (fun c => c) in
  mkSeries (name a) d (map store (values a) ++ map store (values b)).

Fixpoint concat_columns (xs ys : list Series) : list Series :=
  match xs, ys with
  | x :: xs', y :: ys' => concat_series x y :: concat_columns xs' ys'
  | _, _ => []
  end.

(** [pd.concat([a, b], ignore_index=True)] for two chunks of one file
    (same header, columns in the same order). *)
Definition concat_frames (a b : DataFrame) : DataFrame :=
  mkDF (nrows a + nrows b) (concat_columns (columns a) (columns b)).

(** [pd.concat(chunks, ignore_index=True)] for a non-empty list. *)
Definition concat (first : DataFrame) (rest : list DataFrame) : DataFrame :=
  fold_left concat_frames rest first.

(** *** Paths, directories and files *)

Definition fs_write (path : string) (c : file_content)
           (f : string -> option node) : string -> option node :=
  fun q => if String.eqb q path then Some (File c) else f q.

Definition fs_mkdir (path : string) (f : string -> option node)
  : string -> option node :=
  fun q => if String.eqb q path then Some Directory else f q.

(** [os.path.exists(path)] *)
Definition path_exists (path : string) : M bool :=
  p <- get ;;
  ret (match fs (world p) path with Some _ => true | None => false end).

Definition is_sep (c : ascii) : bool := Ascii.eqb c "/".

Fixpoint all_sep (s : string) : bool :=
  match s with
  | EmptyString => true
  | String c rest => is_sep c && all_sep rest
  end.

Fixpoint has_sep (s : string) : bool :=
  match s with
  | EmptyString => false
  | String c rest => is_sep c || has_sep rest
  end.

(** [p[:p.rfind('/') + 1]]: the path up to and including its last
    separator. *)
Fixpoint head_of (p : string) : string :=
  match p with
  | EmptyString => EmptyString
  | String c rest => if has_sep p then String c (head_of rest) else EmptyString
  end.

(** [head.rstrip('/')] *)
Fixpoint rstrip_sep (head : string) : string :=
  match head with
  | EmptyString => EmptyString
  | String c rest => if all_sep head then EmptyString else String c (rstrip_sep rest)
  end.

(** [os.path.dirname(p)] *)
Definition dirname (p : string) : string :=
  let head := head_of p in
  if all_sep head then head else rstrip_sep head.

Fixpoint last_is_sep (s : string) : bool :=
  match s with
  | EmptyString => false
  | String c rest =>
      match rest with
      | EmptyString => is_sep c
      | String _ _ => last_is_sep rest
      end
  end.

(** The prefixes of [seen ++ rest] that stop right before a separator of
    [rest] and end in a name. *)
Fixpoint prefixes_before_sep (seen rest : string) : list string :=
  match rest with
  | EmptyString => []
  | String c rest' =>
      ((if is_sep c && negb (all_sep seen) && negb (last_is_sep seen)
        then [seen] else [])
       ++ prefixes_before_sep (seen ++ String c EmptyString) rest')%list
  end.

(** The directories on the way to [name], outermost first, and [name]
    itself: "a/b/c" gives "a", "a/b" and "a/b/c". *)
Definition directory_chain (name : string) : list string :=
  (prefixes_before_sep "" name ++ [name])%list.

(** The walk of [os.makedirs] down a chain of directories: one that exists
    is passed, one that is missing is created, and a regular file in the
    way stops the walk ([NotADirectoryError] on the way,
    [FileExistsError] at the end), leaving what was created before. *)
Fixpoint make_each (chain : list string) : M unit :=
  match chain with
  | [] => ret tt
  | d :: rest =>
      p <- get ;;
      match fs (world p) d with
      | Some (File _) =>
          raise (OSError (match rest with
                          | [] => "[Errno 17] File exists"
                          | _ :: _ => "[Errno 20] Not a directory"
                          end))
      | Some Directory => make_each rest
      | None =>
          modify_world (fun w => set_fs (fs_mkdir d (fs w)) w) ;;;
          make_each rest
      end
  end.

(** [os.makedirs(name, exist_ok=True)]; the empty name is no directory. *)
Definition makedirs (name : string) : M unit :=
  if String.eqb name ""
  then raise (FileNotFoundError "[Errno 2] No such file or directory: ''")
  else make_each (directory_chain name).

(** [p[p.rfind('/') + 1:]], the [os.path.basename] of a path. *)
Fixpoint basename (p : string) : string :=
  match p with
  | EmptyString => EmptyString
  | String c rest => if has_sep p then basename rest else p
  end.

(** A path spelled so that it can only name a directory: it ends in a
    separator, in "." or in "..". *)
Definition names_directory (path : string) : bool :=
  String.eqb (basename path) "" || String.eqb (basename path) "."
  || String.eqb (basename path) "..".

(** [open(file_path, 'wb')] where the directory of the path exists: only a
    directory at the path itself refuses it. *)
Definition open_wb (file_path : string) : M unit :=
  p <- get ;;
  if names_directory file_path
  then raise (OSError "[Errno 21] Is a directory")
  else match fs (world p) file_path with
       | Some Directory => raise (OSError "[Errno 21] Is a directory")
       | _ => ret tt
       end.

(* ================================================================== *)
(** ** DataProcessor, stateful methods (src/utils/data_processor.py) *)

Section DataProcessorMethods.
Context {pandas : PandasLib}.

(** The body of [DataProcessor.download_file], under its decorator. *)
Definition download_file_body (url file_path : string) : M bool :=
  try_except
    (makedirs (dirname file_path) ;;;
     emit (NetGet url) ;;;
     p <- get ;;
     match remote (world p) with
     | TransportError msg => raise (LibraryError msg)
     | Body c =>
         open_wb file_path ;;;
         modify_world (fun w => set_fs (fs_write file_path c (fs w)) w) ;;;
         ret true
     | BrokenStream c msg =>
         open_wb file_path ;;;
         modify_world (fun w => set_fs (fs_write file_path c (fs w)) w) ;;;
         raise (LibraryError msg)
     end)
    (fun e => emit (LoggerError "Failed to download file") ;;; ret false).

(** [DataProcessor.download_file] *)
Definition download_file (url file_path : string) : M bool :=
  log_execution_time "download_file" (download_file_body url file_path).

(** [DataProcessor.read_csv_in_chunks] *)
Definition read_csv_in_chunks (file_path : string) (chunk_size : option Z)
  : M DataFrame :=
  let chunk_size := py_or chunk_size Config.CHUNK_SIZE in
  try_except
    (p <- get ;;
     chunks <- match fs (world p) file_path with
               | None => raise (FileNotFoundError file_path)
               | Some Directory => raise (OSError "[Errno 21] Is a directory")
               | Some (File content) =>
                   match content chunk_size with
                   | ParseFailure msg => raise (LibraryError msg)
                   | Chunks cs => ret cs
                   end
               end ;;
     match chunks with
     | first :: rest =>
         let combined_df := concat first rest in
         modify (set_total_rows (Z.of_nat (nrows combined_df))) ;;;
         ret combined_df
     | [] =>
         emit (LoggerWarning "No data found in CSV file") ;;;
         ret empty_frame
     end)
    (fun e => emit (LoggerError "Failed to read CSV file") ;;; raise e).

(** [DataProcessor.clean_data] *)
Definition clean_data (df : DataFrame) : M DataFrame :=
  if df_empty df then ret df
  else
    let df := _remove_duplicates df in
    let df := _handle_missing_values df in
    let df := _convert_data_types df in
    let df := setitem_scalar "source_file" DObject
                (CStr Config.DOWNLOAD_BASENAME) df in
    p <- get ;;
    let df := setitem_scalar "processing_batch" DObject (CStr (batch_id p)) df in
    t1 <- now ;;
    let df := setitem_scalar "created_at" DDatetime (CTime t1) df in
    t2 <- now ;;
    let df := setitem_scalar "updated_at" DDatetime (CTime t2) df in
    modify (set_processed_rows (Z.of_nat (nrows df))) ;;;
    ret df.

End DataProcessorMethods.

(* ================================================================== *)
(** ** DatabaseManager (src/utils/database.py) *)

Section DatabaseManager.

Fixpoint table_append (t : string) (rows : list (list cell))
         (data : list (string * list (list cell)))
  : list (string * list (list cell)) :=
  match data with
  | [] => [(t, rows)]
  | (n, old) :: rest =>
      if String.eqb n t then (n, (old ++ rows)%list) :: rest
      else (n, old) :: table_append t rows rest
  end.

Fixpoint table_rows (t : string) (data : list (string * list (list cell)))
  : option (list (list cell)) :=
  match data with
  | [] => None
  | (n, rows) :: rest => if String.eqb n t then Some rows else table_rows t rest
  end.

(** One statement sent to the store (an insert, an inspection, a DDL
    statement or a commit); the world decides whether it raises. *)
Definition store_statement : M unit :=
  p <- get ;;
  modify_world (fun w => set_store_ops (S (store_ops w)) w) ;;;
  if store_fails (world p) (store_ops (world p))
  then raise (LibraryError "SQLAlchemyError")
  else ret tt.

(** One INSERT into an audit table: it raises when the world says so or
    when the table does not exist. *)
Definition audit_statement (table_present : bool) : M unit :=
  p <- get ;;
  modify_world (fun w => set_audit_ops (S (audit_ops w)) w) ;;;
  if audit_fails (world p) (audit_ops (world p)) || negb table_present
  then raise (LibraryError "SQLAlchemyError")
  else ret tt.

Definition is_some {A} (o : option A) : bool :=
  match o with Some _ => true | None => false end.

Definition table_names (d : Database) : list string :=
  (map fst (data_tables d)
   ++ (if is_some (processing_log d) then ["processing_log"] else [])
   ++ (if is_some (data_quality_metrics d) then ["data_quality_metrics"] else []))%list.

(** [DatabaseManager.table_exists] *)
Definition table_exists (table_name : string) : M bool :=
  try_except
    (store_statement ;;;
     p <- get ;;
     ret (existsb (String.eqb table_name) (table_names (db (world p)))))
    (fun e => emit (LoggerError "Failed to check table existence") ;;; ret false).

(** The three [CREATE TABLE IF NOT EXISTS] statements together. *)
Definition create_if_absent (d : Database) : Database :=
  mkDB (match table_rows "processed_data" (data_tables d) with
        | Some _ => data_tables d
        | None => (data_tables d ++ [("processed_data", [])])%list
        end)
       (match processing_log d with Some l => Some l | None => Some [] end)
       (match data_quality_metrics d with Some l => Some l | None => Some [] end).

(** The statements of [create_tables]. *)
Inductive ddl : Type :=
| CreateTable (t : string)
| CreateIndex (i : string).

(** [CREATE TABLE IF NOT EXISTS t] *)
Definition create_table (t : string) (d : Database) : Database :=
  if String.eqb t "processing_log"
  then mkDB (data_tables d)
            (match processing_log d with Some l => Some l | None => Some [] end)
            (data_quality_metrics d)
  else if String.eqb t "data_quality_metrics"
  then mkDB (data_tables d) (processing_log d)
            (match data_quality_metrics d with Some l => Some l | None => Some [] end)
  else mkDB (match table_rows t (data_tables d) with
             | Some _ => data_tables d
             | None => (data_tables d ++ [(t, [])])%list
             end)
            (processing_log d) (data_quality_metrics d).

(** [connection.execute(text(sql))] for a DDL statement.  SQLite commits
    such a statement at once, so what it creates stays when a later
    statement of the same connection raises; an index changes nothing that
    the model keeps track of. *)
Definition execute (sql : ddl) : M unit :=
  store_statement ;;;
  match sql with
  | CreateTable t => modify_world (fun w => set_db (create_table t (db w)) w)
  | CreateIndex _ => ret tt
  end.

Definition indexes : list ddl :=
  [CreateIndex "idx_processed_data_created_at";
   CreateIndex "idx_processed_data_source_file";
   CreateIndex "idx_processing_log_status";
   CreateIndex "idx_processing_log_started_at";
   CreateIndex "idx_data_quality_batch_id";
   CreateIndex "idx_data_quality_date"].

(** [for index_sql in indexes: connection.execute(text(index_sql))] *)
Fixpoint execute_each (statements : list ddl) : M unit :=
  match statements with
  | [] => ret tt
  | sql :: rest => execute sql ;;; execute_each rest
  end.

(** [DatabaseManager.create_tables]: three tables, six indexes and the
    commit, ten statements in all (opening the connection is part of the
    first). *)
Definition create_tables : M unit :=
  try_except
    (emit CreateTables ;;;
     execute (CreateTable "processed_data") ;;;
     execute (CreateTable "processing_log") ;;;
     execute (CreateTable "data_quality_metrics") ;;;
     execute_each indexes ;;;
     store_statement)
    (fun e => emit (LoggerError "Failed to create tables") ;;; raise e).

(** [df.iloc[i:j]] for [0 <= i <= j]. *)
Definition iloc (df : DataFrame) (i j : Z) : DataFrame :=
  let lo := Z.to_nat i in
  let hi := Z.to_nat j in
  mkDF (Nat.min hi (nrows df) - Nat.min lo (nrows df))
       (map (fun s => mkSeries (name s) (dt s)
                        (firstn (hi - lo) (skipn lo (values s))))
            (columns df)).

(** [batch_df.to_sql(table, engine, if_exists='append', index=False)] *)
Definition to_sql (batch_df : DataFrame) (table_name : string) : M unit :=
  emit (ToSql table_name (nrows batch_df)) ;;;
  store_statement ;;;
  modify_world (fun w =>
    set_db (mkDB (table_append table_name (rows_of batch_df) (data_tables (db w)))
                 (processing_log (db w))
                 (data_quality_metrics (db w))) w).

(** The [for i in range(0, len(df), batch_size)] loop of
    [insert_dataframe], with the running total. *)
Fixpoint insert_batches (df : DataFrame) (table_name : string) (batch_size : Z)
         (starts : list Z) (total_inserted : Z) : M Z :=
  match starts with
  | [] => ret total_inserted
  | i :: rest =>
      let batch_df := iloc df i (i + batch_size) in
      to_sql batch_df table_name ;;;
      insert_batches df table_name batch_size rest
                     (total_inserted + Z.of_nat (nrows batch_df))
  end.

(** [DatabaseManager.insert_dataframe] *)
Definition insert_dataframe (df : DataFrame) (table_name : string)
           (batch_size : option Z) : M Z :=
  let batch_size := py_or batch_size Config.BATCH_SIZE in
  try_except
    (insert_batches df table_name batch_size
                    (py_range 0 (Z.of_nat (nrows df)) batch_size) 0)
    (fun e => emit (LoggerError "Failed to insert data") ;;; raise e).

(** [DatabaseManager.log_processing_status] *)
Definition log_processing_status (entry : LogEntry) : M unit :=
  try_except
    (emit (WriteStatus entry) ;;;
     p <- get ;;
     audit_statement (is_some (processing_log (db (world p)))) ;;;
     modify_world (fun w =>
       set_db (mkDB (data_tables (db w))
                    (option_map (fun l => (l ++ [entry])%list) (processing_log (db w)))
                    (data_quality_metrics (db w))) w))
    (fun e => emit (LoggerError "Failed to log processing status") ;;; ret tt).

(** [DatabaseManager.log_data_quality_metrics] *)
Definition log_data_quality_metrics (entry : MetricsEntry) : M unit :=
  try_except
    (emit (WriteMetrics entry) ;;;
     p <- get ;;
     audit_statement (is_some (data_quality_metrics (db (world p)))) ;;;
     modify_world (fun w =>
       set_db (mkDB (data_tables (db w))
                    (processing_log (db w))
                    (option_map (fun l => (l ++ [entry])%list)
                                (data_quality_metrics (db w)))) w))
    (fun e => emit (LoggerError "Failed to log data quality metrics") ;;; ret tt).

End DatabaseManager.

(* ================================================================== *)
(** ** DataProcessingPipeline (src/data_processor.py) *)

(** The dictionary returned by a completed run. *)
Record Summary : Type := mkSummary {
  sm_batch_id : string;
  sm_total_rows : Z;
  sm_processed_rows : Z;
  sm_processing_time_seconds : Z;
  sm_success_rate : Q;
  sm_quality_metrics : Metrics;
  sm_status : string;
  sm_start_time : option Z;
  sm_end_time : option Z
}.

(** [(a - b).total_seconds()] on two fields that are [None] until set. *)
Definition elapsed (a b : option Z) : M Z :=
  match a, b with
  | Some x, Some y => ret (x - y)
  | None, Some _ =>
      raise (TypeError
        "unsupported operand type(s) for -: 'NoneType' and 'datetime.datetime'")
  | Some _, None =>
      raise (TypeError
        "unsupported operand type(s) for -: 'datetime.datetime' and 'NoneType'")
  | None, None =>
      raise (TypeError
        "unsupported operand type(s) for -: 'NoneType' and 'NoneType'")
  end.

Section DataProcessingPipeline.
Context {pandas : PandasLib}.

(** [DataProcessingPipeline._download_file] *)
Definition _download_file : M bool :=
  present <- path_exists Config.DOWNLOAD_PATH ;;
  if present then ret true
  else
    success <- download_file Config.CSV_URL Config.DOWNLOAD_PATH ;;
    (if success then ret tt
     else emit (LoggerError "Failed to download CSV file")) ;;;
    ret success.

(** [DataProcessingPipeline._read_and_process_data] *)
Definition _read_and_process_data : M DataFrame :=
  present <- path_exists Config.DOWNLOAD_PATH ;;
  if negb present
  then raise (FileNotFoundError "Downloaded file not found: data/downloaded_data.csv.gz")
  else
    df <- read_csv_in_chunks Config.DOWNLOAD_PATH None ;;
    if df_empty df then raise (ValueError "No data found in CSV file")
    else ret df.

(** [DataProcessingPipeline._clean_and_transform_data] *)
Definition _clean_and_transform_data (df : DataFrame) : M DataFrame :=
  clean_data df.

(** [DataProcessingPipeline._validate_data_quality] *)
Definition _validate_data_quality (df : DataFrame) : M Metrics :=
  let quality_metrics := validate_data df in
  p <- get ;;
  log_data_quality_metrics (mkMetricsEntry (batch_id p) quality_metrics) ;;;
  ret quality_metrics.

(** [DataProcessingPipeline._store_data_in_database] *)
Definition _store_data_in_database (df : DataFrame) : M Z :=
  present <- table_exists "processed_data" ;;
  (if negb present then create_tables else ret tt) ;;;
  insert_dataframe df "processed_data" (Some Config.BATCH_SIZE).

(** [DataProcessingPipeline._log_processing_results] *)
Definition _log_processing_results (inserted_rows : Z) (quality_metrics : Metrics)
  : M unit :=
  p <- get ;;
  processing_time <- elapsed (end_time p) (start_time p) ;;
  log_processing_status
    (mkLogEntry Config.DOWNLOAD_BASENAME (total_rows p) inserted_rows
                "completed" None (Some processing_time)).

(** [DataProcessingPipeline._log_error] *)
Definition _log_error (error_message : string) (processing_time : Z) : M unit :=
  try_except
    (p <- get ;;
     log_processing_status
       (mkLogEntry Config.DOWNLOAD_BASENAME (total_rows p) (processed_rows p)
                   "failed" (Some error_message) (Some processing_time)))
    (fun e => emit (LoggerError "Failed to log error to database") ;;; ret tt).

(** [DataProcessingPipeline._generate_summary] *)
Definition _generate_summary (inserted_rows : Z) (quality_metrics : Metrics)
           (processing_time : Z) : M Summary :=
  p <- get ;;
  ret (mkSummary (batch_id p) (total_rows p) inserted_rows processing_time
                 (if 0 <? total_rows p
                  then (inject_Z inserted_rows / inject_Z (total_rows p) * 100)%Q
                  else 0%Q)
                 quality_metrics "completed" (start_time p) (end_time p)).

(** The [try] block of [run_pipeline]. *)
Definition run_pipeline_try : M Summary :=
  t <- now ;;
  modify (set_start_time (Some t)) ;;;
  ok <- _download_file ;;
  (if negb ok then raise (Exception "Failed to download CSV file") else ret tt) ;;;
  df <- _read_and_process_data ;;
  (if df_empty df then raise (Exception "No data found in CSV file") else ret tt) ;;;
  cleaned_df <- _clean_and_transform_data df ;;
  quality_metrics <- _validate_data_quality cleaned_df ;;
  inserted_rows <- _store_data_in_database cleaned_df ;;
  _log_processing_results inserted_rows quality_metrics ;;;
  t' <- now ;;
  modify (set_end_time (Some t')) ;;;
  p <- get ;;
  processing_time <- elapsed (end_time p) (start_time p) ;;
  _generate_summary inserted_rows quality_metrics processing_time.

(** The [except Exception as e] block of [run_pipeline]. *)
Definition run_pipeline_except (e : exn) : M Summary :=
  t <- now ;;
  modify (set_end_time (Some t)) ;;;
  p <- get ;;
  processing_time <- match start_time p with
                     | Some _ => elapsed (end_time p) (start_time p)
                     | None => ret 0
                     end ;;
  emit (LoggerError "Pipeline failed") ;;;
  _log_error (exn_message e) processing_time ;;;
  raise e.

(** [DataProcessingPipeline.run_pipeline] *)
Definition run_pipeline : M Summary :=
  log_execution_time "run_pipeline"
    (try_except run_pipeline_try run_pipeline_except).

End DataProcessingPipeline.

(* ================================================================== *)
(** ** The remaining entry points *)

(** [DataProcessor.get_processing_summary]'s dictionary. *)
Record ProcessingSummary : Type := mkProcessingSummary {
  ps_batch_id : string;
  ps_total_rows : Z;
  ps_processed_rows : Z;
  ps_processing_time : Z;
  ps_success_rate : Q
}.

(** [DataProcessor.get_processing_summary] *)
Definition get_processing_summary : M ProcessingSummary :=
  p <- get ;;
  t <- now ;;
  ret (mkProcessingSummary (batch_id p) (total_rows p) (processed_rows p) t
         (if 0 <? total_rows p
          then (inject_Z (processed_rows p) / inject_Z (total_rows p) * 100)%Q
          else 0%Q)).

(** [DatabaseManager.close]: disposing of the engine changes nothing that
    the model keeps track of. *)
Definition close : M unit := ret tt.

(** [DataProcessingPipeline.cleanup] *)
Definition cleanup : M unit :=
  try_except close
    (fun e => emit (LoggerError "Cleanup failed") ;;; ret tt).

(** The keys of the dictionary built by [_generate_summary]. *)
Definition summary_keys : list string :=
  ["batch_id"; "total_rows"; "processed_rows"; "processing_time_seconds";
   "success_rate"; "quality_metrics"; "status"; "start_time"; "end_time"].

(** [summary[key]], read for printing: a missing key raises [KeyError],
    a subclass of [Exception] whose text is the quoted key. *)
Definition summary_getitem (key : string) (summary : Summary) : M unit :=
  if existsb (String.eqb key) summary_keys then ret tt
  else raise (Exception ("'" ++ key ++ "'")).

Section EntryPoints.
Context {pandas : PandasLib}.

(** [main] of src/data_processor.py on a newly built pipeline object; the
    result is the exit code of the process ([sys.exit(1)] in the handler,
    0 otherwise), and [cleanup] runs in the [finally] block. *)
Definition main (uuid : string) (w : World) : Z * Pipeline :=
  let pipeline := new_pipeline uuid w in
  let (r, p1) :=
    try_except
      (summary <- run_pipeline ;;
       summary_getitem "batch_id" summary ;;;
       summary_getitem "total_rows" summary ;;;
       summary_getitem "processed_rows" summary ;;;
       summary_getitem "processing_time_seconds" summary ;;;
       summary_getitem "success_rate" summary ;;;
       ret 0)
      (fun e => ret 1)
      pipeline in
  let (_, p2) := cleanup p1 in
  (match r with Return code => code | Raise _ => 1 end, p2).

(** [run_simple_pipeline] of src/simple_demo.py, started on the pipeline
    object it has just built. *)
Definition run_simple_pipeline : M bool :=
  try_except
    (summary <- run_pipeline ;;
     summary_getitem "inserted_rows" summary ;;;
     summary_getitem "processing_time" summary ;;;
     summary_getitem "success_rate" summary ;;;
     ret true)
    (fun e => emit (LoggerError "Pipeline failed") ;;; ret false).

End EntryPoints.

(* ================================================================== *)
(** ** Concrete library instances and sample data *)

Definition digit_value (a : ascii) : option Z :=
  let n := Z.of_nat (nat_of_ascii a) in
  if (48 <=? n) && (n <=? 57) then Some (n - 48) else None.

Fixpoint parse_digits (acc : Z) (s : string) : option Z :=
  match s with
  | EmptyString => Some acc
  | String a rest =>
      match digit_value a with
      | Some d => parse_digits (10 * acc + d) rest
      | None => None
      end
  end.

(** A reader of plain decimal integers: what every parser of numbers
    agrees on for digit strings, and enough for the sample tables. *)
Definition parse_decimal (s : string) : option number :=
  match s with
  | EmptyString => None
  | _ => option_map NInt (parse_digits 0 s)
  end.

(** Column assignment replaces the column (pandas before 2.0). *)
Definition pandas_replacing : PandasLib :=
  Build_PandasLib parse_decimal (fun q => q) 0%Q false.

(** Column assignment writes in place where the values fit (pandas 2). *)
Definition pandas_inplace : PandasLib :=
  Build_PandasLib parse_decimal (fun q => q) 0%Q true.

(* ================================================================== *)
(** ** Notions used to state the properties *)

Definition is_numeric_cell (c : cell) : bool :=
  match c with CInt _ | CFloat _ => true | _ => false end.

(** A rewriting of cells that keeps missing cells missing and numbers
    numbers. *)
Definition keeps_shape (g : cell -> cell) : Prop :=
  forall c, isnull (g c) = isnull c /\ is_numeric_cell (g c) = is_numeric_cell c.

(** Does row [i] exactly repeat some earlier row of the same table? *)
Definition repeats_earlier (df : DataFrame) (i : nat) : bool :=
  existsb (fun j => row_eqb (row_at df i) (row_at df j)) (seq 0 i).

(** The number of exact-duplicate rows of a table. *)
Definition count_repeated_rows (df : DataFrame) : nat :=
  length (filter (repeats_earlier df) (seq 0 (nrows df))).

(** [df[name]] *)
Definition get_column (n : string) (df : DataFrame) : option Series :=
  find (fun s => String.eqb (name s) n) (columns df).

(** Whole batches of [b] rows followed by one remainder batch, if any. *)
Definition expected_batches (n b : Z) : list nat :=
  (repeat (Z.to_nat b) (Z.to_nat (n / b))
   ++ (if n mod b =? 0 then [] else [Z.to_nat (n mod b)]))%list.

Definition ceil_div (n b : Z) : Z := (n + b - 1) / b.

(** Size of the slice [df.iloc[i:i + b]]. *)
Definition batch_rows (df : DataFrame) (b i : Z) : nat :=
  nrows (iloc df i (i + b)).


(** Two pipeline states that differ at most in what concerns the audit
    tables: their contents, the failures of writes to them, and the trace. *)
Definition audit_equiv (p q : Pipeline) : Prop :=
  processed_rows p = processed_rows q /\
  total_rows p = total_rows q /\
  batch_id p = batch_id q /\
  start_time p = start_time q /\
  end_time p = end_time q /\
  clock (world p) = clock (world q) /\
  ticks (world p) = ticks (world q) /\
  fs (world p) = fs (world q) /\
  remote (world p) = remote (world q) /\
  data_tables (db (world p)) = data_tables (db (world q)) /\
  store_fails (world p) = store_fails (world q) /\
  store_ops (world p) = store_ops (world q).

(** Two computations that, started in states equal up to the audit side,
    end the same way (the same exception, or related results) in states
    that are again equal up to the audit side. *)
Definition related {A} (R : A -> A -> Prop) (m1 m2 : M A) : Prop :=
  forall p q, audit_equiv p q ->
    match m1 p, m2 q with
    | (Return a, p'), (Return b, q') => R a b /\ audit_equiv p' q'
    | (Raise e, p'), (Raise f, q') => e = f /\ audit_equiv p' q'
    | _, _ => False
    end.

(** The state after the decorator's first clock reading. *)
Definition ticked (p : Pipeline) : Pipeline :=
  set_world (set_ticks (S (ticks (world p))) (world p)) p.

(** The four provenance assignments of [clean_data], for a batch
    identifier and two clock readings. *)
Definition stamp_provenance (bid : string) (t1 t2 : Z) (df : DataFrame)
  : DataFrame :=
  setitem_scalar "updated_at" DDatetime (CTime t2)
    (setitem_scalar "created_at" DDatetime (CTime t1)
       (setitem_scalar "processing_batch" DObject (CStr bid)
          (setitem_scalar "source_file" DObject
             (CStr Config.DOWNLOAD_BASENAME) df))).

(** The [processing_log] row that [run_pipeline] writes for an exception
    [e] caught in state [p]. *)
Definition failure_entry (e : exn) (p : Pipeline) : LogEntry :=
  mkLogEntry Config.DOWNLOAD_BASENAME (total_rows p) (processed_rows p)
             "failed" (Some (exn_message e))
             (Some (match start_time p with
                    | Some s => clock (world p) (ticks (world p)) - s
                    | None => 0
                    end)).

(** Will the next write to [processing_log] be accepted? *)
Definition status_write_accepted (p : Pipeline) : bool :=
  negb (audit_fails (world p) (audit_ops (world p)))
  && is_some (processing_log (db (world p))).

(** *** Sample data *)

(** The table [[{a:1,b:""}, {a:1,b:""}, {a:2,b:"x"}]] as the reader
    delivers it. *)
Definition sample : DataFrame :=
  mkDF 3 [mkSeries "a" DInt64 [CInt 1; CInt 1; CInt 2];
          mkSeries "b" DObject [CNull; CNull; CStr "x"]].

(** A text column of which only the first cell reads as a number. *)
Definition mixed_column : Series :=
  mkSeries "price" DObject [CStr "1"; CStr "x"].

Definition header_only : DataFrame :=
  mkDF 0 [mkSeries "a" DObject []; mkSeries "b" DObject []].

(** A fresh installation: no file, no tables, a clock that advances at every
    reading, a database that accepts every statement. *)
Definition fresh_world (r : http_response) : World :=
  mkWorld (fun n => 100 + Z.of_nat n) 0 (fun _ => None) r
          (mkDB [] None None) (fun _ => false) 0 (fun _ => false) 0 [].

Definition unreachable : http_response := TransportError "connection refused".

(** The same with the three tables already created. *)
Definition prepared_world (r : http_response) : World :=
  set_db (create_if_absent (mkDB [] None None)) (fresh_world r).

(** A world whose download path already holds a file. *)
Definition cached_world (content : file_content) : World :=
  set_fs (fs_write Config.DOWNLOAD_PATH content
            (fs_mkdir (dirname Config.DOWNLOAD_PATH) (fun _ => None)))
         (prepared_world unreachable).

(** A run that cannot download its source, with the audit tables in place;
    and the same run against audit tables that refuse every write. *)
Definition failing_run : Pipeline :=
  new_pipeline "run-1" (prepared_world unreachable).

Definition failing_run_audit_down : Pipeline :=
  set_world (set_audit_fails (fun _ => true) (world failing_run)) failing_run.

(** A fresh installation whose remote end serves the sample table. *)
Definition serving_world : World :=
  fresh_world (Body (fun _ => Chunks [sample])).

Definition frame_of_rows (n : nat) : DataFrame :=
  mkDF n [mkSeries "a" DInt64 (repeat (CInt 7) n)].

(** *** Further notions *)

(** The rows read across a list of columns given by their cells. *)
Definition rows_vals (n : nat) (vals : list (list cell)) : list (list cell) :=
  map (fun i => map (fun v => nth i v CNull) vals) (seq 0 n).

(** Is the column one that [_handle_missing_values] fills by its median? *)
Definition median_filled (d : dtype) : bool :=
  match d with DInt64 | DFloat64 => true | _ => false end.

(** An int64 array holds no missing value. *)
Definition int64_complete (df : DataFrame) : Prop :=
  Forall (fun s => dt s = DInt64 -> existsb isnull (values s) = false)
         (columns df).

(** The provenance columns that a list of column names lacks. *)
Definition missing_provenance (names : list string) : list string :=
  filter (fun n => negb (existsb (String.eqb n) names)) provenance_columns.




(** A world whose store refuses its second statement. *)
Definition flaky_store_world : World :=
  mkWorld (fun n => Z.of_nat n) 0 (fun _ => None) unreachable
          (mkDB [] None None) (fun n => Nat.eqb n 1) 0 (fun _ => false) 0 [].

(** The state once [e] has been added to the trace. *)
Definition logged (e : event) (p : Pipeline) : Pipeline :=
  set_world (set_trace (trace (world p) ++ [e]) (world p)) p.

(** The state once a file has been written at [path]. *)
Definition with_file (path : string) (c : file_content) (p : Pipeline)
  : Pipeline :=
  set_world (set_fs (fs_write path c (fs (world p))) (world p)) p.

(** Would [open(path, 'wb')] be refused for a directory? *)
Definition refuses_write (path : string) (p : Pipeline) : bool :=
  names_directory path
  || match fs (world p) path with Some Directory => true | _ => false end.

(** A world whose remote end serves the sample table, but where a regular
    file sits where the download directory should be. *)
Definition blocked_world : World :=
  set_fs (fs_write (dirname Config.DOWNLOAD_PATH) (fun _ => Chunks [])
                   (fun _ => None))
         (fresh_world (Body (fun _ => Chunks [sample]))).

(** What [pd.read_csv] makes of a file of zero bytes: it raises
    [EmptyDataError] with this message. *)
Definition zero_byte_file : file_content :=
  fun _ => ParseFailure "No columns to parse from file".

(** A fresh installation whose store refuses its fourth statement, which
    in [create_tables] is the first index. *)
Definition index_refusing_world : World :=
  mkWorld (fun n => 100 + Z.of_nat n) 0 (fun _ => None) unreachable
          (mkDB [] None None) (fun n => Nat.eqb n 3) 0 (fun _ => false) 0 [].

(** The database once the first [k] statements of [create_tables] have
    been carried out: the first three make the tables. *)
Definition tables_after (k : nat) (d : Database) : Database :=
  fold_left (fun d t => create_table t d)
            (firstn k ["processed_data"; "processing_log";
                       "data_quality_metrics"])
            d.

(** The rows a data table holds; none while the table does not exist. *)
Definition stored_rows (t : string) (p : Pipeline) : list (list cell) :=
  match table_rows t (data_tables (db (world p))) with
  | Some rows => rows
  | None => []
  end.

(** A computation that leaves a component of the pipeline object as it
    finds it, whatever the outcome. *)
Definition keeps_field {A B} (f : Pipeline -> B) (m : M A) : Prop :=
  forall p, f (snd (m p)) = f p.

(** A computation that cannot end normally from a state satisfying [I]. *)
Definition raises_from {A} (I : Pipeline -> Prop) (m : M A) : Prop :=
  forall p, I p -> exists e p', m p = (Raise e, p').

(** A world in which the download path holds nothing and the remote end
    breaks the stream after [partial]. *)
Definition broken_world (partial : file_content) : World :=
  fresh_world (BrokenStream partial "connection reset").

(* ================================================================== *)
(** ** Properties *)

(** *** Lists and masks *)

Lemma filter_negb_length {A} (f : A -> bool) (l : list A) :
  (length (filter (fun x => negb (f x)) l) + length (filter f l) = length l)%nat.
Proof.
  induction l as [|x l IH]; simpl; [reflexivity|].
  destruct (f x); simpl; lia.
Qed.

Lemma filter_map_length {A B} (g : A -> B) (f : B -> bool) (l : list A) :
  length (filter f (map g l)) = length (filter (fun x => f (g x)) l).
Proof.
  induction l as [|x l IH]; simpl; [reflexivity|].
  destruct (f (g x)); simpl; congruence.
Qed.

Lemma duplicated_from_length seen rows :
  length (duplicated_from seen rows) = length rows.
Proof.
  revert seen; induction rows as [|r rows IH]; intros seen; simpl; congruence.
Qed.

Lemma duplicated_from_spec (f : nat -> list cell) n :
  forall k seen,
    (forall r, existsb (row_eqb r) seen
               = existsb (fun j => row_eqb r (f j)) (seq 0 k)) ->
    duplicated_from seen (map f (seq k n))
    = map (fun i => existsb (fun j => row_eqb (f i) (f j)) (seq 0 i)) (seq k n).
Proof.
  induction n as [|n IH]; intros k seen Hseen; simpl; [reflexivity|].
  f_equal; [apply Hseen|].
  apply IH. intros r. rewrite seq_S, existsb_app. simpl.
  rewrite Hseen. rewrite orb_false_r. apply orb_comm.
Qed.

Lemma duplicated_spec df :
  duplicated df = map (repeats_earlier df) (seq 0 (nrows df)).
Proof.
  unfold duplicated, rows_of, repeats_earlier.
  apply duplicated_from_spec. reflexivity.
Qed.

Lemma drop_duplicates_count df :
  (nrows (drop_duplicates df) + count_repeated_rows df = nrows df)%nat.
Proof.
  unfold drop_duplicates, count_repeated_rows; simpl.
  rewrite duplicated_spec.
  rewrite (filter_map_length (repeats_earlier df) negb).
  rewrite filter_negb_length. apply length_seq.
Qed.

Lemma drop_masked_length {A} (mask : list bool) (xs : list A) :
  length xs = length mask ->
  length (drop_masked mask xs) = length (filter negb mask).
Proof.
  revert xs; induction mask as [|m mask IH]; intros [|x xs] H;
    simpl in *; try discriminate; try reflexivity.
  destruct m; simpl; rewrite IH by lia; reflexivity.
Qed.

Lemma drop_duplicates_wf df : wf_frame df -> wf_frame (drop_duplicates df).
Proof.
  unfold wf_frame, drop_duplicates; simpl. intros H.
  apply Forall_map. eapply Forall_impl; [|exact H].
  intros s Hs; simpl. apply drop_masked_length.
  rewrite Hs. unfold duplicated.
  rewrite duplicated_from_length. unfold rows_of.
  now rewrite length_map, length_seq.
Qed.

(** *** Columns keep their length through imputation and coercion *)

Section ColumnLemmas.
Context {pandas : PandasLib}.

Lemma loc_setitem_values old new : values (loc_setitem old new) = values new.
Proof. unfold loc_setitem. now destruct (_ && _). Qed.

Lemma fillna_length v s : length (values (fillna v s)) = length (values s).
Proof. unfold fillna; simpl. apply length_map. Qed.

Lemma impute_column_length s :
  length (values (impute_column s)) = length (values s).
Proof.
  unfold impute_column.
  destruct (dt s); try destruct (mode_first s);
    rewrite loc_setitem_values; apply fillna_length.
Qed.

Lemma to_numeric_coerce_length s :
  length (values (to_numeric_coerce s)) = length (values s).
Proof.
  unfold to_numeric_coerce. destruct (forallb _ _); simpl;
    now rewrite ?length_map.
Qed.

Lemma coerce_object_length s :
  length (values (coerce_object s)) = length (values s).
Proof.
  unfold coerce_object. destruct (dt s); try reflexivity.
  destruct (negb _); [|reflexivity].
  rewrite loc_setitem_values. apply to_numeric_coerce_length.
Qed.

Lemma downcast_int64_values s : values (downcast_int64 s) = values s.
Proof.
  unfold downcast_int64. destruct (dt s); try reflexivity.
  now rewrite loc_setitem_values.
Qed.

Lemma downcast_float64_length s :
  length (values (downcast_float64 s)) = length (values s).
Proof.
  unfold downcast_float64. destruct (dt s); try reflexivity.
  rewrite loc_setitem_values. unfold to_numeric_downcast_float.
  destruct (forallb _ _); simpl; now rewrite ?length_map.
Qed.

Lemma convert_column_length s :
  length (values (convert_column s)) = length (values s).
Proof.
  unfold convert_column. destruct (is_provenance _); [reflexivity|].
  rewrite downcast_float64_length, downcast_int64_values.
  apply coerce_object_length.
Qed.

Lemma handle_missing_values_wf df :
  wf_frame df -> wf_frame (_handle_missing_values df).
Proof.
  unfold wf_frame, _handle_missing_values; simpl. intros H.
  apply Forall_map. eapply Forall_impl; [|exact H].
  intros s Hs; simpl. now rewrite impute_column_length.
Qed.

Lemma convert_data_types_wf df :
  wf_frame df -> wf_frame (_convert_data_types df).
Proof.
  unfold wf_frame, _convert_data_types; simpl. intros H.
  apply Forall_map. eapply Forall_impl; [|exact H].
  intros s Hs; simpl. now rewrite convert_column_length.
Qed.

Lemma set_scalar_wf n d v len cols :
  Forall (fun s => length (values s) = len) cols ->
  Forall (fun s => length (values s) = len) (set_scalar n d v len cols).
Proof.
  induction cols as [|s cols IH]; intros H; simpl.
  - constructor; [apply repeat_length | constructor].
  - apply Forall_cons_iff in H as [Hs Hrest].
    destruct (String.eqb (name s) n).
    + constructor; [apply repeat_length | assumption].
    + constructor; [assumption | now apply IH].
Qed.

Lemma setitem_scalar_wf n d v df :
  wf_frame df -> wf_frame (setitem_scalar n d v df).
Proof. unfold wf_frame, setitem_scalar; simpl. apply set_scalar_wf. Qed.

(** A column without missing cells is left as it is by [fillna]. *)
Lemma fillna_no_null v s :
  existsb isnull (values s) = false -> fillna v s = s.
Proof.
  intros H. unfold fillna. rewrite H. simpl.
  destruct s as [n d vals]; simpl in *. f_equal.
  induction vals as [|c vals IH]; simpl in *; [reflexivity|].
  apply orb_false_iff in H as [Hc Hv].
  rewrite Hc. f_equal. now apply IH.
Qed.

Lemma loc_setitem_same s : loc_setitem s s = s.
Proof. unfold loc_setitem. destruct s; simpl. now destruct (_ && _). Qed.

Lemma impute_column_no_null s :
  existsb isnull (values s) = false -> impute_column s = s.
Proof.
  intros H. unfold impute_column.
  destruct (dt s); try destruct (mode_first s);
    rewrite fillna_no_null by assumption; apply loc_setitem_same.
Qed.

End ColumnLemmas.

Lemma filter_isnull_nil l :
  length (filter isnull l) = 0%nat -> existsb isnull l = false.
Proof.
  induction l as [|c l IH]; simpl; [reflexivity|].
  destruct (isnull c); simpl; [discriminate | exact IH].
Qed.

Lemma list_sum_zero l : list_sum l = 0%nat -> Forall (fun n => n = 0%nat) l.
Proof.
  induction l as [|n l IH]; simpl; intros H; constructor; [lia|].
  apply IH; lia.
Qed.

(** *** Imputation *)

(** C9: on a table without any null cell, the missing-value imputation step
    returns the table unchanged. *)
Theorem handle_missing_values_no_null_noop
        {pandas : PandasLib} (df : DataFrame) :
  null_cells df = 0%nat -> _handle_missing_values df = df.
Proof.
  intros H. unfold _handle_missing_values.
  destruct df as [n cols]; simpl in *. f_equal.
  unfold null_cells in H; simpl in H.
  apply list_sum_zero in H. rewrite Forall_map in H.
  induction cols as [|s cols IH]; simpl; [reflexivity|].
  apply Forall_cons_iff in H as [Hs Hrest]. f_equal.
  - apply impute_column_no_null. now apply filter_isnull_nil.
  - now apply IH.
Qed.

Lemma handle_missing_values_no_null_noop_witness :
  null_cells (frame_of_rows 3) = 0%nat /\
  @_handle_missing_values pandas_inplace (frame_of_rows 3) = frame_of_rows 3.
Proof.
  split; [reflexivity|].
  apply (@handle_missing_values_no_null_noop pandas_inplace (frame_of_rows 3)).
  reflexivity.
Defined.

(** *** The cleaning stage *)

Ltac run_monad :=
  unfold bind, ret, raise, get, modify, modify_world, emit, now, try_except;
  simpl.

Section CleaningStage.
Context {pandas : PandasLib}.

Lemma clean_data_nonempty df p :
  df_empty df = false ->
  clean_data df p =
  (Return (stamp_provenance (batch_id p)
             (clock (world p) (ticks (world p)))
             (clock (world p) (S (ticks (world p))))
             (_convert_data_types (_handle_missing_values (_remove_duplicates df)))),
   set_processed_rows (Z.of_nat (nrows (drop_duplicates df)))
     (set_world (set_ticks (S (S (ticks (world p)))) (world p)) p)).
Proof.
  intros H. unfold clean_data. rewrite H. reflexivity.
Qed.

Lemma stamp_provenance_nrows bid t1 t2 df :
  nrows (stamp_provenance bid t1 t2 df) = nrows df.
Proof. reflexivity. Qed.

Lemma stamp_provenance_wf bid t1 t2 df :
  wf_frame df -> wf_frame (stamp_provenance bid t1 t2 df).
Proof.
  intros H. unfold stamp_provenance. now repeat apply setitem_scalar_wf.
Qed.

End CleaningStage.

(** C10: given a table with zero rows, the cleaning stage returns its input
    as it is and touches nothing else: no step runs, no provenance column
    is added, no clock is read. *)
Theorem clean_data_empty_unchanged
        {pandas : PandasLib} (df : DataFrame) (p : Pipeline) :
  nrows df = 0%nat -> clean_data df p = (Return df, p).
Proof.
  intros H. unfold clean_data, df_empty. rewrite H. reflexivity.
Qed.

Lemma clean_data_empty_unchanged_witness :
  nrows header_only = 0%nat /\
  @clean_data pandas_inplace header_only
     (new_pipeline "run-1" (fresh_world unreachable))
  = (Return header_only, new_pipeline "run-1" (fresh_world unreachable)).
Proof.
  split; [reflexivity|].
  apply (@clean_data_empty_unchanged pandas_inplace); reflexivity.
Defined.

(** C4: for a non-empty table the cleaning stage returns a batch whose row
    count is the original count minus the number of exact-duplicate rows,
    which is the count after deduplication; imputation and type coercion
    leave the row count, and the length of every column, as they find it. *)
Theorem clean_data_row_count
        {pandas : PandasLib} (df : DataFrame) (p : Pipeline) :
  df_empty df = false ->
  exists cleaned p',
    clean_data df p = (Return cleaned, p') /\
    Z.of_nat (nrows cleaned)
      = Z.of_nat (nrows df) - Z.of_nat (count_repeated_rows df) /\
    nrows cleaned = nrows (_remove_duplicates df) /\
    (wf_frame df -> wf_frame cleaned) /\
    (forall d, nrows (_handle_missing_values d) = nrows d /\
               (wf_frame d -> wf_frame (_handle_missing_values d))) /\
    (forall d, nrows (_convert_data_types d) = nrows d /\
               (wf_frame d -> wf_frame (_convert_data_types d))).
Proof.
  intros Hne. eexists; eexists.
  split; [apply clean_data_nonempty; exact Hne|].
  rewrite stamp_provenance_nrows.
  change (nrows (_convert_data_types
                   (_handle_missing_values (_remove_duplicates df))))
    with (nrows (drop_duplicates df)).
  pose proof (drop_duplicates_count df) as Hc.
  repeat split.
  - lia.
  - intros Hwf. apply stamp_provenance_wf, convert_data_types_wf,
      handle_missing_values_wf, drop_duplicates_wf, Hwf.
  - apply handle_missing_values_wf.
  - apply convert_data_types_wf.
Qed.

Lemma clean_data_row_count_witness :
  df_empty sample = false /\
  exists cleaned p',
    @clean_data pandas_inplace sample
       (new_pipeline "run-1" (fresh_world unreachable)) = (Return cleaned, p') /\
    Z.of_nat (nrows cleaned)
      = Z.of_nat (nrows sample) - Z.of_nat (count_repeated_rows sample) /\
    nrows cleaned = nrows (_remove_duplicates sample) /\
    (wf_frame sample -> wf_frame cleaned) /\
    (forall d, nrows (@_handle_missing_values pandas_inplace d) = nrows d /\
               (wf_frame d -> wf_frame (@_handle_missing_values pandas_inplace d))) /\
    (forall d, nrows (@_convert_data_types pandas_inplace d) = nrows d /\
               (wf_frame d -> wf_frame (@_convert_data_types pandas_inplace d))).
Proof.
  split; [reflexivity|].
  apply (@clean_data_row_count pandas_inplace sample).
  reflexivity.
Defined.

(** *** Provenance stamping *)

Lemma find_set_scalar_same n d v len cols :
  find (fun s => String.eqb (name s) n) (set_scalar n d v len cols)
  = Some (mkSeries n d (repeat v len)).
Proof.
  induction cols as [|s cols IH]; simpl.
  - now rewrite String.eqb_refl.
  - destruct (String.eqb (name s) n) eqn:E; simpl.
    + now rewrite String.eqb_refl.
    + now rewrite E.
Qed.

Lemma find_set_scalar_other n m d v len cols :
  String.eqb m n = false ->
  find (fun s => String.eqb (name s) n) (set_scalar m d v len cols)
  = find (fun s => String.eqb (name s) n) cols.
Proof.
  intros Hmn. induction cols as [|s cols IH]; simpl.
  - now rewrite Hmn.
  - destruct (String.eqb (name s) m) eqn:E; simpl.
    + apply String.eqb_eq in E. rewrite E, Hmn. reflexivity.
    + now rewrite IH.
Qed.

Lemma get_column_setitem_same n d v df :
  get_column n (setitem_scalar n d v df)
  = Some (mkSeries n d (repeat v (nrows df))).
Proof. apply find_set_scalar_same. Qed.

Lemma get_column_setitem_other n m d v df :
  String.eqb m n = false ->
  get_column n (setitem_scalar m d v df) = get_column n df.
Proof. apply find_set_scalar_other. Qed.

(** C5 (as the code has it): in the batch returned by one call of the
    cleaning stage every row carries the run's batch identifier, one and
    the same creation timestamp and one and the same update timestamp; the
    creation timestamp is the clock reading taken first and the update
    timestamp the reading taken next. *)
Theorem clean_data_provenance_uniform
        {pandas : PandasLib} (df : DataFrame) (p : Pipeline) :
  df_empty df = false ->
  exists cleaned p',
    clean_data df p = (Return cleaned, p') /\
    get_column "processing_batch" cleaned
      = Some (mkSeries "processing_batch" DObject
                (repeat (CStr (batch_id p)) (nrows cleaned))) /\
    get_column "created_at" cleaned
      = Some (mkSeries "created_at" DDatetime
                (repeat (CTime (clock (world p) (ticks (world p))))
                        (nrows cleaned))) /\
    get_column "updated_at" cleaned
      = Some (mkSeries "updated_at" DDatetime
                (repeat (CTime (clock (world p) (S (ticks (world p)))))
                        (nrows cleaned))) /\
    batch_id p' = batch_id p.
Proof.
  intros Hne. eexists; eexists.
  split; [apply clean_data_nonempty; exact Hne|].
  unfold stamp_provenance.
  repeat split.
  - rewrite !get_column_setitem_other by reflexivity.
    rewrite get_column_setitem_same. reflexivity.
  - rewrite get_column_setitem_other by reflexivity.
    rewrite get_column_setitem_same. reflexivity.
  - rewrite get_column_setitem_same. reflexivity.
Qed.

Lemma clean_data_provenance_uniform_witness :
  df_empty sample = false /\
  exists cleaned p',
    @clean_data pandas_inplace sample
       (new_pipeline "run-1" (fresh_world unreachable)) = (Return cleaned, p') /\
    get_column "processing_batch" cleaned
      = Some (mkSeries "processing_batch" DObject
                (repeat (CStr "run-1") (nrows cleaned))) /\
    get_column "created_at" cleaned
      = Some (mkSeries "created_at" DDatetime
                (repeat (CTime 100) (nrows cleaned))) /\
    get_column "updated_at" cleaned
      = Some (mkSeries "updated_at" DDatetime
                (repeat (CTime 101) (nrows cleaned))) /\
    batch_id p' = "run-1".
Proof.
  split; [reflexivity|].
  apply (@clean_data_provenance_uniform pandas_inplace sample
           (new_pipeline "run-1" (fresh_world unreachable))).
  reflexivity.
Defined.

(** C5 as stated fails: with a clock that advances between two readings the
    created and updated columns of one batch hold different timestamps. *)
Lemma created_and_updated_differ :
  exists cleaned p',
    @clean_data pandas_inplace sample
       (new_pipeline "run-1" (fresh_world unreachable)) = (Return cleaned, p') /\
    option_map values (get_column "created_at" cleaned)
      = Some [CTime 100; CTime 100] /\
    option_map values (get_column "updated_at" cleaned)
      = Some [CTime 101; CTime 101] /\
    option_map values (get_column "created_at" cleaned)
      <> option_map values (get_column "updated_at" cleaned).
Proof.
  eexists; eexists.
  split; [apply (@clean_data_nonempty pandas_inplace); reflexivity|].
  repeat split; vm_compute; discriminate.
Qed.

(** *** The run recorder never raises *)

Lemma log_processing_status_returns entry p :
  exists p', log_processing_status entry p = (Return tt, p').
Proof.
  unfold log_processing_status, audit_statement. run_monad.
  destruct (audit_fails (world p) (audit_ops (world p)) || _);
    simpl; eexists; reflexivity.
Qed.

Lemma log_data_quality_metrics_returns entry p :
  exists p', log_data_quality_metrics entry p = (Return tt, p').
Proof.
  unfold log_data_quality_metrics, audit_statement. run_monad.
  destruct (audit_fails (world p) (audit_ops (world p)) || _);
    simpl; eexists; reflexivity.
Qed.

(** *** Quality metrics *)

Lemma validate_data_duplicates df :
  duplicate_records (validate_data df) = Z.of_nat (count_repeated_rows df).
Proof.
  unfold validate_data; cbn [duplicate_records].
  pose proof (drop_duplicates_count df). lia.
Qed.

Section SampleRun.
Context {pandas : PandasLib}.

Lemma sample_converted :
  parse_number "x" = None ->
  exists d,
    _convert_data_types (_handle_missing_values (_remove_duplicates sample))
    = mkDF 2 [mkSeries "a" d [CInt 1; CInt 2];
              mkSeries "b" DObject [CStr "x"; CStr "x"]].
Proof.
  intros Hx.
  unfold _convert_data_types, _handle_missing_values, _remove_duplicates.
  change (drop_duplicates sample)
    with (mkDF 2 [mkSeries "a" DInt64 [CInt 1; CInt 2];
                  mkSeries "b" DObject [CNull; CStr "x"]]).
  cbn [columns nrows map].
  unfold impute_column at 2. cbn [dt].
  change (mode_first (mkSeries "b" DObject [CNull; CStr "x"]))
    with (Some (CStr "x")).
  unfold impute_column. cbn [dt].
  unfold loc_setitem, fillna. cbn [values dt name map isnull existsb can_hold
    forallb andb orb negb].
  unfold convert_column. cbn [name].
  destruct loc_setitem_inplace; cbn [andb name dt values].
  - change (is_provenance "a") with false.
    change (is_provenance "b") with false. cbv iota.
    unfold coerce_object at 2. cbn [dt].
    unfold to_numeric_coerce. cbn [values map to_numeric_cell].
    rewrite Hx. cbn [forallb is_int_cell andb map float_of_cell values negb isnull].
    unfold downcast_int64 at 2, downcast_float64 at 2. cbn [dt].
    unfold coerce_object. cbn [dt].
    unfold downcast_int64. cbn [dt].
    unfold loc_setitem, to_numeric_downcast_integer.
    cbn [values dt name forallb can_hold andb].
    destruct loc_setitem_inplace; cbn [andb dt name values downcast_float64];
      eexists; reflexivity.
  - change (is_provenance "a") with false.
    change (is_provenance "b") with false. cbv iota.
    unfold coerce_object at 2. cbn [dt].
    unfold to_numeric_coerce. cbn [values map to_numeric_cell].
    rewrite Hx. cbn [forallb is_int_cell andb map float_of_cell values negb isnull].
    unfold downcast_int64 at 2, downcast_float64 at 2. cbn [dt].
    unfold coerce_object. cbn [dt].
    unfold downcast_int64. cbn [dt].
    unfold loc_setitem, to_numeric_downcast_integer.
    cbn [values dt name forallb can_hold andb].
    destruct loc_setitem_inplace; cbn [andb dt name values downcast_float64];
      eexists; reflexivity.
Qed.

End SampleRun.

(** C1 (as the code has it): the validator's [duplicate_records] is the
    number of rows of the table it is handed that exactly repeat an earlier
    row of that same table.  The pipeline hands it the cleaned batch, which
    has been deduplicated already, so for the source
    [[{a:1,b:""}, {a:1,b:""}, {a:2,b:"x"}]] (where "x" is no number) the
    metrics are total 2, valid 2, null cells 0 and duplicates 0. *)
Theorem validator_counts_repeats_of_its_input
        {pandas : PandasLib} (df : DataFrame) (p q : Pipeline) :
  parse_number "x" = None ->
  (exists p', _validate_data_quality df p = (Return (validate_data df), p')) /\
  duplicate_records (validate_data df) = Z.of_nat (count_repeated_rows df) /\
  (exists cleaned q',
      clean_data sample q = (Return cleaned, q') /\
      validate_data cleaned = mkMetrics 2 2 0 0).
Proof.
  intros Hx. split; [|split].
  - unfold _validate_data_quality.
    destruct (log_data_quality_metrics_returns
                (mkMetricsEntry (batch_id p) (validate_data df)) p) as [p' Hp'].
    exists p'. unfold bind, get, ret. now rewrite Hp'.
  - apply validate_data_duplicates.
  - destruct (sample_converted Hx) as [d Hd].
    eexists; eexists.
    split; [apply clean_data_nonempty; reflexivity|].
    rewrite Hd. vm_compute. reflexivity.
Qed.

Lemma validator_counts_repeats_of_its_input_witness :
  @parse_number pandas_inplace "x" = None /\
  duplicate_records (validate_data sample)
    = Z.of_nat (count_repeated_rows sample) /\
  (exists cleaned q',
      @clean_data pandas_inplace sample
         (new_pipeline "run-1" (fresh_world unreachable))
        = (Return cleaned, q') /\
      validate_data cleaned = mkMetrics 2 2 0 0).
Proof.
  split; [reflexivity|].
  apply (@validator_counts_repeats_of_its_input pandas_inplace sample
           (new_pipeline "run-1" (fresh_world unreachable))
           (new_pipeline "run-1" (fresh_world unreachable))).
  reflexivity.
Defined.

(** C1 as stated fails: cleaning removes one duplicate row from the sample
    table, yet the validator, run on the cleaned batch, reports no
    duplicate. *)
Lemma duplicate_records_is_not_the_removed_count :
  exists cleaned p',
    @clean_data pandas_inplace sample
       (new_pipeline "run-1" (fresh_world unreachable)) = (Return cleaned, p') /\
    validate_data cleaned = mkMetrics 2 2 0 0 /\
    Z.of_nat (nrows sample) - Z.of_nat (nrows (_remove_duplicates sample)) = 1 /\
    duplicate_records (validate_data cleaned)
      <> Z.of_nat (nrows sample) - Z.of_nat (nrows (_remove_duplicates sample)).
Proof.
  eexists; eexists.
  split; [apply (@clean_data_nonempty pandas_inplace); reflexivity|].
  repeat split; vm_compute; discriminate.
Qed.

(** *** Type coercion *)

Section Coercion.
Context {pandas : PandasLib}.

Lemma keeps_shape_id : keeps_shape (fun c => c).
Proof. intros c; split; reflexivity. Qed.

Lemma keeps_shape_float : keeps_shape float_of_cell.
Proof. intros [| | | |]; split; reflexivity. Qed.

Lemma keeps_shape_narrow : keeps_shape narrow_cell.
Proof. intros [| | | |]; split; reflexivity. Qed.

Lemma keeps_shape_compose g h :
  keeps_shape g -> keeps_shape h -> keeps_shape (fun c => g (h c)).
Proof.
  intros Hg Hh c. destruct (Hg (h c)) as [A B], (Hh c) as [C D].
  split; congruence.
Qed.

Lemma to_numeric_cell_shape c :
  isnull (to_numeric_cell c) = false ->
  is_numeric_cell (to_numeric_cell c) = true.
Proof.
  destruct c; simpl; try discriminate; try reflexivity.
  destruct (parse_number s) as [[z|q]|]; simpl; congruence.
Qed.

Lemma forallb_isnull_map g l :
  keeps_shape g ->
  forallb isnull (map g l) = forallb isnull l.
Proof.
  intros Hg. induction l as [|c l IH]; simpl; [reflexivity|].
  destruct (Hg c) as [-> _]. now rewrite IH.
Qed.

Lemma forallb_isnull_parsed l :
  forallb isnull (map to_numeric_cell l)
  = negb (existsb (fun c => negb (isnull (to_numeric_cell c))) l).
Proof.
  induction l as [|c l IH]; simpl; [reflexivity|].
  rewrite IH. destruct (isnull (to_numeric_cell c)); reflexivity.
Qed.

Lemma to_numeric_coerce_values s :
  exists g, keeps_shape g /\
            values (to_numeric_coerce s) = map g (map to_numeric_cell (values s)).
Proof.
  unfold to_numeric_coerce. destruct (forallb _ _); simpl.
  - exists (fun c => c). split; [apply keeps_shape_id|]. now rewrite map_id.
  - exists float_of_cell. split; [apply keeps_shape_float | reflexivity].
Qed.

Lemma downcast_float64_values s :
  exists g, keeps_shape g /\ values (downcast_float64 s) = map g (values s).
Proof.
  unfold downcast_float64.
  assert (Hid : exists g, keeps_shape g /\ values s = map g (values s)).
  { exists (fun c => c). split; [apply keeps_shape_id | now rewrite map_id]. }
  destruct (dt s); try exact Hid.
  rewrite loc_setitem_values. unfold to_numeric_downcast_float.
  destruct (forallb _ _); [|exact Hid]. simpl.
  exists narrow_cell. split; [apply keeps_shape_narrow | reflexivity].
Qed.

Lemma coerce_object_adopts s :
  dt s = DObject ->
  existsb (fun c => negb (isnull (to_numeric_cell c))) (values s) = true ->
  coerce_object s = loc_setitem s (to_numeric_coerce s).
Proof.
  intros Hd Hex. unfold coerce_object. rewrite Hd.
  destruct (to_numeric_coerce_values s) as (g & Hg & ->).
  now rewrite forallb_isnull_map, forallb_isnull_parsed, Hex.
Qed.

Lemma coerce_object_declines s :
  dt s = DObject ->
  existsb (fun c => negb (isnull (to_numeric_cell c))) (values s) = false ->
  coerce_object s = s.
Proof.
  intros Hd Hex. unfold coerce_object. rewrite Hd.
  destruct (to_numeric_coerce_values s) as (g & Hg & ->).
  now rewrite forallb_isnull_map, forallb_isnull_parsed, Hex.
Qed.

Lemma parsed_cells_shape g l :
  keeps_shape g ->
  Forall2 (fun c c' => if isnull (to_numeric_cell c) then c' = CNull
                       else is_numeric_cell c' = true)
          l (map g (map to_numeric_cell l)).
Proof.
  intros Hg. induction l as [|c l IH]; simpl; constructor; [|exact IH].
  destruct (Hg (to_numeric_cell c)) as [Hn Hm].
  destruct (isnull (to_numeric_cell c)) eqn:E.
  - destruct (g (to_numeric_cell c)); simpl in Hn; congruence.
  - rewrite Hm. now apply to_numeric_cell_shape.
Qed.

End Coercion.

Lemma coerce_object_other_dtype {pandas : PandasLib} s :
  dt s <> DObject -> coerce_object s = s.
Proof.
  intros H. unfold coerce_object. destruct (dt s); congruence.
Qed.

Lemma keeps_shape_pointwise g l :
  keeps_shape g ->
  Forall2 (fun c c' => isnull c' = isnull c /\
                       is_numeric_cell c' = is_numeric_cell c)
          l (map g l).
Proof.
  intros Hg. induction l as [|c l IH]; simpl; constructor; [apply Hg | exact IH].
Qed.

(** C2 (as the code has it): a text column outside the provenance columns
    takes over its numeric conversion as soon as one of its cells reads as
    a number; then every cell that reads as a number holds a number and
    every other cell is null.  A text column of which no cell reads as a
    number is left as it is.  In a column of any other dtype coercion makes
    no cell null and no null cell a number. *)
Theorem coercion_adopts_when_one_cell_parses
        {pandas : PandasLib} (s : Series) :
  is_provenance (name s) = false ->
  (dt s = DObject ->
   existsb (fun c => negb (isnull (to_numeric_cell c))) (values s) = true ->
   Forall2 (fun c c' => if isnull (to_numeric_cell c) then c' = CNull
                        else is_numeric_cell c' = true)
           (values s) (values (convert_column s))) /\
  (dt s = DObject ->
   existsb (fun c => negb (isnull (to_numeric_cell c))) (values s) = false ->
   convert_column s = s) /\
  (dt s <> DObject ->
   Forall2 (fun c c' => isnull c' = isnull c /\
                        is_numeric_cell c' = is_numeric_cell c)
           (values s) (values (convert_column s))).
Proof.
  intros Hp. unfold convert_column. rewrite Hp.
  split; [|split].
  - intros Hd Hex.
    rewrite (coerce_object_adopts s Hd Hex).
    destruct (downcast_float64_values
                (downcast_int64 (loc_setitem s (to_numeric_coerce s))))
      as (g & Hg & ->).
    rewrite downcast_int64_values, loc_setitem_values.
    destruct (to_numeric_coerce_values s) as (h & Hh & ->).
    rewrite map_map.
    apply parsed_cells_shape. now apply keeps_shape_compose.
  - intros Hd Hex.
    rewrite (coerce_object_declines s Hd Hex).
    unfold downcast_int64. rewrite Hd.
    unfold downcast_float64. now rewrite Hd.
  - intros Hd.
    rewrite (coerce_object_other_dtype s Hd).
    destruct (downcast_float64_values (downcast_int64 s)) as (g & Hg & ->).
    rewrite downcast_int64_values.
    now apply keeps_shape_pointwise.
Qed.

Lemma coercion_adopts_when_one_cell_parses_witness :
  is_provenance (name mixed_column) = false /\
  dt mixed_column = DObject /\
  existsb (fun c => negb (isnull (@to_numeric_cell pandas_replacing c)))
          (values mixed_column) = true /\
  Forall2 (fun c c' => if isnull (@to_numeric_cell pandas_replacing c)
                       then c' = CNull else is_numeric_cell c' = true)
          (values mixed_column)
          (values (@convert_column pandas_replacing mixed_column)).
Proof.
  split; [reflexivity|]. split; [reflexivity|]. split; [reflexivity|].
  apply (proj1 (@coercion_adopts_when_one_cell_parses pandas_replacing
                  mixed_column eq_refl)); reflexivity.
Defined.

(** C2 as stated fails: the column ["1", "x"] has no missing cell, only its
    first cell reads as a number, and yet the coercion step takes over the
    conversion and leaves a null where "x" stood, whichever way the column
    assignment works. *)
Lemma coercion_introduces_null :
  is_provenance (name mixed_column) = false /\
  existsb isnull (values mixed_column) = false /\
  @convert_column pandas_replacing mixed_column
    = mkSeries "price" DFloat32 [CFloat 1; CNull] /\
  @convert_column pandas_inplace mixed_column
    = mkSeries "price" DObject [CFloat 1; CNull] /\
  null_cells (mkDF 2 [mixed_column]) = 0%nat /\
  null_cells (@_convert_data_types pandas_replacing (mkDF 2 [mixed_column])) = 1%nat /\
  null_cells (@_convert_data_types pandas_inplace (mkDF 2 [mixed_column])) = 1%nat.
Proof. repeat split. Qed.

(** *** The fetch step *)

Lemma bind_return {A B} (m : M A) (k : A -> M B) p a p' :
  m p = (Return a, p') -> bind m k p = k a p'.
Proof. intros H. unfold bind. now rewrite H. Qed.

Lemma bind_raise {A B} (m : M A) (k : A -> M B) p e p' :
  m p = (Raise e, p') -> bind m k p = (Raise e, p').
Proof. intros H. unfold bind. now rewrite H. Qed.

Lemma try_except_return {A} (m : M A) (h : exn -> M A) p a p' :
  m p = (Return a, p') -> try_except m h p = (Return a, p').
Proof. intros H. unfold try_except. now rewrite H. Qed.

(** *** Directories *)



Lemma fs_mkdir_other d f q :
  String.eqb q d = false -> fs_mkdir d f q = f q.
Proof. intros H. unfold fs_mkdir. now rewrite H. Qed.


Lemma download_file_cached (p : Pipeline) (content : file_content) :
  fs (world p) Config.DOWNLOAD_PATH = Some (File content) ->
  _download_file p = (Return true, p).
Proof.
  intros H. unfold _download_file, path_exists. run_monad.
  now rewrite H.
Qed.

(** C7: when the download path already exists, whatever it holds (a file
    of any content, or a directory), the fetch step returns success at
    once and leaves the whole state as it was; in particular no request is
    sent and no directory is made. *)
Theorem download_skipped_when_file_exists
        (p : Pipeline) (existing : node) :
  fs (world p) Config.DOWNLOAD_PATH = Some existing ->
  _download_file p = (Return true, p).
Proof.
  intros Hfile.
  unfold _download_file.
  assert (Hexists : path_exists Config.DOWNLOAD_PATH p = (Return true, p)).
  { unfold path_exists. run_monad. now rewrite Hfile. }
  rewrite (bind_return _ _ _ _ _ Hexists).
  reflexivity.
Qed.

Lemma download_skipped_when_file_exists_witness :
  fs (cached_world (fun _ => ParseFailure "truncated")) Config.DOWNLOAD_PATH
    = Some (File (fun _ => ParseFailure "truncated")) /\
  _download_file
     (new_pipeline "run-1" (cached_world (fun _ => ParseFailure "truncated")))
  = (Return true,
     new_pipeline "run-1" (cached_world (fun _ => ParseFailure "truncated"))).
Proof.
  split; [reflexivity|].
  apply (download_skipped_when_file_exists
           (new_pipeline "run-1" (cached_world (fun _ => ParseFailure "truncated")))
           (File (fun _ => ParseFailure "truncated"))).
  reflexivity.
Defined.

(** Without a file at the download path, and with no regular file where
    its directory goes, the request is sent. *)
Lemma download_attempted_when_file_missing (p : Pipeline) :
  fs (world p) Config.DOWNLOAD_PATH = None ->
  (forall c, fs (world p) (dirname Config.DOWNLOAD_PATH) <> Some (File c)) ->
  exists rest,
    trace (world (snd (_download_file p)))
    = (trace (world p) ++ NetGet Config.CSV_URL :: rest)%list.
Proof.
  intros H Hdir.
  unfold _download_file, path_exists, download_file, download_file_body,
    log_execution_time.
  change (makedirs (dirname Config.DOWNLOAD_PATH)) with (make_each ["data"]).
  change (dirname Config.DOWNLOAD_PATH) with "data" in Hdir.
  cbn [make_each]. unfold open_wb.
  change (names_directory Config.DOWNLOAD_PATH) with false. cbv iota.
  run_monad. rewrite H. simpl.
  destruct (fs (world p) "data") as [[c|]|] eqn:E;
    [exfalso; now apply (Hdir c) | |]; simpl;
    destruct (remote (world p)); simpl;
    rewrite ?(fs_mkdir_other "data") by reflexivity; rewrite ?H; simpl;
    eexists; rewrite <- ?app_assoc; simpl; reflexivity.
Qed.

(** *** The loader *)

Lemma expected_batches_zero b : expected_batches 0 b = [].
Proof.
  unfold expected_batches. rewrite Zdiv_0_l, Zmod_0_l. reflexivity.
Qed.

Lemma expected_batches_small r b :
  0 < r < b -> expected_batches r b = [Z.to_nat r].
Proof.
  intros H. unfold expected_batches.
  rewrite Z.div_small, Z.mod_small by lia.
  destruct (r =? 0) eqn:E; [lia | reflexivity].
Qed.

Lemma expected_batches_step r b :
  0 < b -> b <= r ->
  expected_batches r b = Z.to_nat b :: expected_batches (r - b) b.
Proof.
  intros Hb Hr. unfold expected_batches.
  assert (Hq : r / b = (r - b) / b + 1).
  { replace r with ((r - b) + 1 * b) at 1 by lia.
    apply Z_div_plus_full; lia. }
  assert (Hm : r mod b = (r - b) mod b).
  { replace r with ((r - b) + 1 * b) at 1 by lia.
    apply Z_mod_plus_full. }
  rewrite Hq, Hm.
  assert (0 <= (r - b) / b) by (apply Z.div_pos; lia).
  replace (Z.to_nat ((r - b) / b + 1)) with (S (Z.to_nat ((r - b) / b))) by lia.
  reflexivity.
Qed.

Lemma expected_batches_length n b :
  0 <= n -> 0 < b ->
  Z.of_nat (length (expected_batches n b)) = ceil_div n b.
Proof.
  intros Hn Hb. unfold expected_batches, ceil_div.
  rewrite length_app, repeat_length.
  pose proof (Z.div_mod n b ltac:(lia)) as Hdm.
  pose proof (Z.mod_pos_bound n b Hb) as Hm.
  assert (0 <= n / b) by (apply Z.div_pos; lia).
  destruct (n mod b =? 0) eqn:E; simpl length.
  - apply Z.eqb_eq in E.
    apply (Z.div_unique _ _ _ (b - 1)); lia.
  - apply Z.eqb_neq in E.
    apply (Z.div_unique _ _ _ (n mod b - 1)); lia.
Qed.

Lemma range_loop_stop fuel i stop b :
  0 < b -> stop <= i -> range_loop fuel i stop b = [].
Proof.
  intros Hb Hi. destruct fuel; simpl; [reflexivity|].
  replace (i <? stop) with false by lia.
  replace (b <? 0) with false by lia.
  now rewrite andb_false_r.
Qed.

Lemma range_loop_batches df b :
  0 < b ->
  forall fuel i,
    0 <= i <= Z.of_nat (nrows df) ->
    (Z.to_nat (Z.of_nat (nrows df) - i) <= fuel)%nat ->
    map (batch_rows df b) (range_loop fuel i (Z.of_nat (nrows df)) b)
    = expected_batches (Z.of_nat (nrows df) - i) b.
Proof.
  intros Hb. induction fuel as [|fuel IH]; intros i Hi Hf.
  - simpl. replace (Z.of_nat (nrows df) - i) with 0 by lia.
    now rewrite expected_batches_zero.
  - simpl. destruct (0 <? b) eqn:Eb; [|lia]. simpl.
    replace (b <? 0) with false by lia. rewrite orb_false_r.
    destruct (i <? Z.of_nat (nrows df)) eqn:E.
    + simpl.
      destruct (Z_le_gt_dec (i + b) (Z.of_nat (nrows df))) as [Hle|Hgt].
      * rewrite IH by lia.
        rewrite (expected_batches_step (Z.of_nat (nrows df) - i) b) by lia.
        f_equal.
        -- unfold batch_rows, iloc; simpl. lia.
        -- f_equal. lia.
      * rewrite (expected_batches_small (Z.of_nat (nrows df) - i) b) by lia.
        f_equal.
        -- unfold batch_rows, iloc; simpl. lia.
        -- rewrite range_loop_stop by lia. reflexivity.
    + replace (Z.of_nat (nrows df) - i) with 0 by lia.
      now rewrite expected_batches_zero.
Qed.

Lemma expected_batches_sum n b :
  0 <= n -> 0 < b -> list_sum (expected_batches n b) = Z.to_nat n.
Proof.
  intros Hn Hb. unfold expected_batches.
  rewrite list_sum_app.
  assert (Hrep : forall k m, list_sum (repeat m k) = (k * m)%nat).
  { induction k; intros m; simpl; [reflexivity | now rewrite IHk]. }
  rewrite Hrep.
  pose proof (Z.div_mod n b ltac:(lia)) as Hdm.
  pose proof (Z.mod_pos_bound n b Hb) as Hm.
  assert (0 <= n / b) by (apply Z.div_pos; lia).
  destruct (n mod b =? 0) eqn:E; simpl list_sum.
  - apply Z.eqb_eq in E. nia.
  - nia.
Qed.

Lemma to_sql_accepted batch t p :
  store_fails (world p) (store_ops (world p)) = false ->
  exists p',
    to_sql batch t p = (Return tt, p') /\
    trace (world p') = (trace (world p) ++ [ToSql t (nrows batch)])%list /\
    store_fails (world p') = store_fails (world p).
Proof.
  intros H. unfold to_sql, store_statement. run_monad. rewrite H. simpl.
  eexists. split; [reflexivity|]. split; reflexivity.
Qed.

Lemma insert_batches_accepted df t b starts :
  forall total p,
    (forall k, store_fails (world p) k = false) ->
    exists p',
      insert_batches df t b starts total p
      = (Return (total + Z.of_nat (list_sum (map (batch_rows df b) starts))), p') /\
      trace (world p')
      = (trace (world p) ++ map (ToSql t) (map (batch_rows df b) starts))%list /\
      store_fails (world p') = store_fails (world p).
Proof.
  induction starts as [|i starts IH]; intros total p Hok.
  - exists p. simpl. unfold ret. rewrite Z.add_0_r, app_nil_r. auto.
  - destruct (to_sql_accepted (iloc df i (i + b)) t p (Hok _))
      as (p1 & Hrun & Htr & Hsf).
    destruct (IH (total + Z.of_nat (nrows (iloc df i (i + b)))) p1)
      as (p2 & Hrun2 & Htr2 & Hsf2).
    { intros k. rewrite Hsf. apply Hok. }
    exists p2. split; [|split].
    + cbn [insert_batches]. unfold bind at 1. rewrite Hrun. cbv beta iota.
      rewrite Hrun2. cbn [map list_sum].
      f_equal. f_equal.
      change (list_sum (batch_rows df b i :: map (batch_rows df b) starts))
        with (nrows (iloc df i (i + b))
              + list_sum (map (batch_rows df b) starts))%nat.
      lia.
    + rewrite Htr2, Htr. simpl. now rewrite <- app_assoc.
    + congruence.
Qed.

(** *** Reading the source file *)

Lemma concat_no_rows rest :
  forall first,
    nrows first = 0%nat ->
    Forall (fun c => nrows c = 0%nat) rest ->
    nrows (concat first rest) = 0%nat.
Proof.
  unfold concat. induction rest as [|c rest IH]; intros first Hf Hr; simpl.
  - exact Hf.
  - apply Forall_cons_iff in Hr as [Hc Hr].
    apply IH; [|exact Hr]. simpl. lia.
Qed.

Lemma df_empty_no_rows df : nrows df = 0%nat -> df_empty df = true.
Proof. intros H. unfold df_empty. now rewrite H. Qed.

Lemma read_csv_in_chunks_no_rows p content cs :
  fs (world p) Config.DOWNLOAD_PATH = Some (File content) ->
  content Config.CHUNK_SIZE = Chunks cs ->
  Forall (fun c => nrows c = 0%nat) cs ->
  exists df p',
    read_csv_in_chunks Config.DOWNLOAD_PATH None p = (Return df, p') /\
    nrows df = 0%nat /\
    fs (world p') = fs (world p).
Proof.
  intros Hfs Hc Hz. unfold read_csv_in_chunks. run_monad.
  rewrite Hfs. change (py_or None Config.CHUNK_SIZE) with Config.CHUNK_SIZE.
  rewrite Hc. destruct cs as [|first rest]; simpl.
  - eexists; eexists. split; [reflexivity|]. split; reflexivity.
  - apply Forall_cons_iff in Hz as [Hf Hr].
    eexists; eexists. split; [reflexivity|].
    split; [now apply concat_no_rows | reflexivity].
Qed.

Lemma read_and_process_data_no_rows p content cs :
  fs (world p) Config.DOWNLOAD_PATH = Some (File content) ->
  content Config.CHUNK_SIZE = Chunks cs ->
  Forall (fun c => nrows c = 0%nat) cs ->
  exists p',
    _read_and_process_data p
    = (Raise (ValueError "No data found in CSV file"), p').
Proof.
  intros Hfs Hc Hz.
  destruct (read_csv_in_chunks_no_rows p content cs Hfs Hc Hz)
    as (df & p' & Hrun & Hn & _).
  exists p'. unfold _read_and_process_data.
  erewrite bind_return
    by (unfold path_exists; run_monad; rewrite Hfs; reflexivity).
  cbn [negb]. erewrite bind_return by exact Hrun.
  now rewrite (df_empty_no_rows df Hn).
Qed.

Lemma read_csv_in_chunks_parse_failure p content msg :
  fs (world p) Config.DOWNLOAD_PATH = Some (File content) ->
  content Config.CHUNK_SIZE = ParseFailure msg ->
  exists p',
    read_csv_in_chunks Config.DOWNLOAD_PATH None p
    = (Raise (LibraryError msg), p').
Proof.
  intros Hfs Hc. unfold read_csv_in_chunks. run_monad.
  rewrite Hfs. change (py_or None Config.CHUNK_SIZE) with Config.CHUNK_SIZE.
  rewrite Hc. simpl. eexists; reflexivity.
Qed.

(** *** The orchestrator's failure path *)

Section FailurePath.
Context {pandas : PandasLib}.

Lemma run_pipeline_except_spec e p1 :
  exists p2 rest,
    run_pipeline_except e p1 = (Raise e, p2) /\
    trace (world p2)
    = (trace (world p1)
       ++ LoggerError "Pipeline failed" :: WriteStatus (failure_entry e p1) :: rest)%list /\
    processing_log (db (world p2))
    = (if status_write_accepted p1
       then option_map (fun l => (l ++ [failure_entry e p1])%list)
                       (processing_log (db (world p1)))
       else processing_log (db (world p1))).
Proof.
  unfold run_pipeline_except, _log_error, log_processing_status,
    audit_statement, status_write_accepted, failure_entry, elapsed.
  run_monad.
  destruct (start_time p1); simpl;
    destruct (audit_fails (world p1) (audit_ops (world p1))) eqn:Ea; simpl;
    destruct (processing_log (db (world p1))) eqn:El; simpl;
    rewrite ?Ea, ?El; simpl;
    eexists; eexists; (split; [reflexivity|]); simpl;
    rewrite <- ?app_assoc, ?El; simpl; split; reflexivity.
Qed.

Lemma run_pipeline_reraises p e p1 :
  run_pipeline_try (ticked p) = (Raise e, p1) ->
  exists p3 rest,
    run_pipeline p = (Raise e, p3) /\
    trace (world p3)
    = (trace (world p1)
       ++ LoggerError "Pipeline failed" :: WriteStatus (failure_entry e p1) :: rest)%list /\
    processing_log (db (world p3))
    = (if status_write_accepted p1
       then option_map (fun l => (l ++ [failure_entry e p1])%list)
                       (processing_log (db (world p1)))
       else processing_log (db (world p1))).
Proof.
  intros Htry.
  destruct (run_pipeline_except_spec e p1) as (p2 & rest & Hex & Htr & Hlog).
  unfold run_pipeline, log_execution_time.
  erewrite bind_return by (unfold now; run_monad; reflexivity).
  fold (ticked p).
  unfold try_except at 1. unfold bind at 1.
  unfold try_except at 1. rewrite Htry, Hex.
  run_monad.
  eexists; eexists. split; [reflexivity|]. simpl.
  rewrite Htr, Hlog. rewrite <- app_assoc. simpl. split; reflexivity.
Qed.

Lemma run_pipeline_try_no_rows p content cs :
  fs (world p) Config.DOWNLOAD_PATH = Some (File content) ->
  content Config.CHUNK_SIZE = Chunks cs ->
  Forall (fun c => nrows c = 0%nat) cs ->
  exists p1,
    run_pipeline_try (ticked p)
    = (Raise (ValueError "No data found in CSV file"), p1).
Proof.
  intros Hfs Hc Hz. unfold run_pipeline_try.
  erewrite bind_return by (unfold now; run_monad; reflexivity).
  erewrite bind_return by (unfold modify; reflexivity).
  erewrite bind_return
    by (apply (download_file_cached _ content); exact Hfs).
  cbn [negb]. erewrite bind_return by reflexivity.
  match goal with
  | |- exists _, bind _read_and_process_data _ ?s = _ =>
      destruct (read_and_process_data_no_rows s content cs Hfs Hc Hz)
        as (p1 & Hread)
  end.
  exists p1. now apply bind_raise.
Qed.

End FailurePath.

Lemma run_pipeline_parse_failure
      {pandas : PandasLib} (p : Pipeline) (content : file_content)
      (msg : string) :
  fs (world p) Config.DOWNLOAD_PATH = Some (File content) ->
  content Config.CHUNK_SIZE = ParseFailure msg ->
  exists p', run_pipeline p = (Raise (LibraryError msg), p').
Proof.
  intros Hfs Hc.
  assert (Htry : exists p1, run_pipeline_try (ticked p)
                            = (Raise (LibraryError msg), p1)).
  { unfold run_pipeline_try.
    erewrite bind_return by (unfold now; run_monad; reflexivity).
    erewrite bind_return by (unfold modify; reflexivity).
    erewrite bind_return
      by (apply (download_file_cached _ content); exact Hfs).
    cbn [negb]. erewrite bind_return by reflexivity.
    match goal with
    | |- exists _, bind _read_and_process_data _ ?s = _ =>
        destruct (read_csv_in_chunks_parse_failure s content msg Hfs Hc)
          as (p1 & Hread)
    end.
    exists p1. apply bind_raise. unfold _read_and_process_data.
    erewrite bind_return
      by (unfold path_exists; run_monad; rewrite Hfs; reflexivity).
    cbn [negb]. now apply bind_raise. }
  destruct Htry as (p1 & Htry).
  destruct (run_pipeline_reraises p _ p1 Htry) as (p3 & rest & Hrun & _).
  exists p3. exact Hrun.
Qed.

(** C3 (as the code has it): a source file that parses but holds no data
    row makes the reader return an empty table instead of raising; the
    orchestrator's read step turns the empty table into the error
    "No data found in CSV file", and the run fails with that error.  A
    source that the parser rejects makes the reader log and raise the
    parser's error again, and the run fails with that error; a file of
    zero bytes is such a source, although it holds no data row either. *)
Theorem empty_source_is_a_no_data_outcome
        {pandas : PandasLib} (p : Pipeline) (content : file_content)
        (cs : list DataFrame) :
  fs (world p) Config.DOWNLOAD_PATH = Some (File content) ->
  content Config.CHUNK_SIZE = Chunks cs ->
  Forall (fun c => nrows c = 0%nat) cs ->
  (exists df p',
      read_csv_in_chunks Config.DOWNLOAD_PATH None p = (Return df, p') /\
      df_empty df = true) /\
  (exists p',
      _read_and_process_data p
      = (Raise (ValueError "No data found in CSV file"), p')) /\
  (exists p',
      run_pipeline p = (Raise (ValueError "No data found in CSV file"), p')) /\
  (forall q bad msg,
      fs (world q) Config.DOWNLOAD_PATH = Some (File bad) ->
      bad Config.CHUNK_SIZE = ParseFailure msg ->
      (exists q',
          read_csv_in_chunks Config.DOWNLOAD_PATH None q
          = (Raise (LibraryError msg), q')) /\
      (exists q', run_pipeline q = (Raise (LibraryError msg), q'))) /\
  (forall q,
      fs (world q) Config.DOWNLOAD_PATH = Some (File zero_byte_file) ->
      (exists q',
          read_csv_in_chunks Config.DOWNLOAD_PATH None q
          = (Raise (LibraryError "No columns to parse from file"), q')) /\
      (exists q',
          run_pipeline q
          = (Raise (LibraryError "No columns to parse from file"), q'))).
Proof.
  intros Hfs Hc Hz. split; [|split; [|split; [|split]]].
  - destruct (read_csv_in_chunks_no_rows p content cs Hfs Hc Hz)
      as (df & p' & Hrun & Hn & _).
    exists df, p'. split; [exact Hrun | now apply df_empty_no_rows].
  - exact (read_and_process_data_no_rows p content cs Hfs Hc Hz).
  - destruct (run_pipeline_try_no_rows p content cs Hfs Hc Hz) as (p1 & Htry).
    destruct (run_pipeline_reraises p _ p1 Htry) as (p3 & rest & Hrun & _).
    exists p3. exact Hrun.
  - intros q bad msg Hq Hbad. split.
    + now apply (read_csv_in_chunks_parse_failure q bad msg).
    + now apply (run_pipeline_parse_failure q bad msg).
  - intros q Hq. split.
    + now apply (read_csv_in_chunks_parse_failure q zero_byte_file).
    + now apply (run_pipeline_parse_failure q zero_byte_file).
Qed.

Lemma empty_source_is_a_no_data_outcome_witness :
  fs (cached_world (fun _ => Chunks [header_only])) Config.DOWNLOAD_PATH
    = Some (File (fun _ => Chunks [header_only])) /\
  Forall (fun c => nrows c = 0%nat) [header_only] /\
  (exists df p',
      read_csv_in_chunks Config.DOWNLOAD_PATH None
        (new_pipeline "run-1" (cached_world (fun _ => Chunks [header_only])))
      = (Return df, p') /\
      df_empty df = true) /\
  (exists p',
      @run_pipeline pandas_inplace
        (new_pipeline "run-1" (cached_world (fun _ => Chunks [header_only])))
      = (Raise (ValueError "No data found in CSV file"), p')).
Proof.
  split; [reflexivity|].
  split; [repeat constructor|].
  destruct (@empty_source_is_a_no_data_outcome pandas_inplace
              (new_pipeline "run-1" (cached_world (fun _ => Chunks [header_only])))
              (fun _ => Chunks [header_only]) [header_only]
              eq_refl eq_refl ltac:(repeat constructor))
    as (Hread & _ & Hrun & _).
  split; assumption.
Defined.

(** C3 as stated fails: a file of zero bytes holds no data row, yet the
    reader does not return for it: the parser's error is raised again, and
    the run ends with that error instead of the no-data error. *)
Lemma zero_byte_source_is_a_parse_failure :
  (forall df p',
      read_csv_in_chunks Config.DOWNLOAD_PATH None
        (new_pipeline "run-1" (cached_world zero_byte_file))
      <> (Return df, p')) /\
  (exists p',
      read_csv_in_chunks Config.DOWNLOAD_PATH None
        (new_pipeline "run-1" (cached_world zero_byte_file))
      = (Raise (LibraryError "No columns to parse from file"), p')) /\
  (exists p',
      @run_pipeline pandas_inplace
        (new_pipeline "run-1" (cached_world zero_byte_file))
      = (Raise (LibraryError "No columns to parse from file"), p')).
Proof.
  split; [|split].
  - intros df p'. vm_compute. discriminate.
  - eexists. vm_compute. reflexivity.
  - exists (snd (@run_pipeline pandas_inplace
               (new_pipeline "run-1" (cached_world zero_byte_file)))).
    vm_compute. reflexivity.
Qed.

(** *** Audit writes do not influence the run *)

Lemma audit_equiv_refl p : audit_equiv p p.
Proof. unfold audit_equiv. repeat split. Qed.


Ltac use_equiv H :=
  let H' := fresh in
  pose proof H as H'; unfold audit_equiv in H'; decompose [and] H'; clear H';
  repeat match goal with
         | E : ?f (world ?a) = ?f (world ?b) |- _ => try rewrite E; clear E
         | E : ?f (db (world ?a)) = ?f (db (world ?b)) |- _ =>
             try rewrite E; clear E
         | E : processed_rows ?a = processed_rows ?b |- _ => try rewrite E; clear E
         | E : total_rows ?a = total_rows ?b |- _ => try rewrite E; clear E
         | E : batch_id ?a = batch_id ?b |- _ => try rewrite E; clear E
         | E : start_time ?a = start_time ?b |- _ => try rewrite E; clear E
         | E : end_time ?a = end_time ?b |- _ => try rewrite E; clear E
         end.

Ltac solve_equiv :=
  match goal with
  | H : audit_equiv _ _ |- _ =>
      try unfold audit_equiv; simpl; use_equiv H; repeat split; reflexivity
  end.

Lemma related_ret {A} (R : A -> A -> Prop) a b :
  R a b -> related R (ret a) (ret b).
Proof. intros H p q Hpq. simpl. auto. Qed.

Lemma related_raise {A} (R : A -> A -> Prop) e :
  related R (raise e) (raise e).
Proof. intros p q Hpq. simpl. auto. Qed.

Lemma related_bind {A B} (RA : A -> A -> Prop) (RB : B -> B -> Prop)
      (m1 m2 : M A) (k1 k2 : A -> M B) :
  related RA m1 m2 ->
  (forall a b, RA a b -> related RB (k1 a) (k2 b)) ->
  related RB (bind m1 k1) (bind m2 k2).
Proof.
  intros Hm Hk p q Hpq. unfold bind.
  specialize (Hm p q Hpq).
  destruct (m1 p) as [[a|e] p'], (m2 q) as [[b|f] q']; try contradiction.
  - destruct Hm as [Hab Hpq']. exact (Hk a b Hab p' q' Hpq').
  - exact Hm.
Qed.

Lemma related_try {A} (R : A -> A -> Prop) (m1 m2 : M A) (h1 h2 : exn -> M A) :
  related R m1 m2 ->
  (forall e, related R (h1 e) (h2 e)) ->
  related R (try_except m1 h1) (try_except m2 h2).
Proof.
  intros Hm Hh p q Hpq. unfold try_except.
  specialize (Hm p q Hpq).
  destruct (m1 p) as [[a|e] p'], (m2 q) as [[b|f] q']; try contradiction.
  - exact Hm.
  - destruct Hm as [<- Hpq']. exact (Hh e p' q' Hpq').
Qed.

Lemma related_get : related audit_equiv get get.
Proof. intros p q Hpq. simpl. auto. Qed.

Lemma related_modify f g :
  (forall p q, audit_equiv p q -> audit_equiv (f p) (g q)) ->
  related eq (modify f) (modify g).
Proof. intros H p q Hpq. simpl. auto. Qed.

Lemma related_emit e1 e2 : related eq (emit e1) (emit e2).
Proof. intros p q Hpq. simpl. split; [reflexivity | solve_equiv]. Qed.

Lemma related_now : related eq now now.
Proof.
  intros p q Hpq. unfold now. run_monad.
  split; solve_equiv.
Qed.


Create HintDb related_db.

Ltac rel_step :=
  lazymatch goal with
  | |- related _ (bind _ _) (bind _ _) => eapply related_bind; [| intros ? ? ?]
  | |- related _ (try_except _ _) (try_except _ _) =>
      apply related_try; [| intros ?]
  | |- related _ (ret _) (ret _) => apply related_ret; try reflexivity
  | |- related _ (raise _) (raise _) => apply related_raise
  | |- related _ (emit _) (emit _) => apply related_emit
  | |- related _ now now => apply related_now
  | |- related _ get get => apply related_get
  | |- related _ (modify _) (modify _) =>
      apply related_modify; intros ? ? ?; solve_equiv
  | |- related _ (modify_world _) (modify_world _) =>
      apply related_modify; intros ? ? ?; solve_equiv
  | |- related _ _ _ => solve [eauto with related_db]
  end.

Ltac rel := repeat first [rel_step | progress subst]; try reflexivity.

Lemma related_log_execution_time {A} (R : A -> A -> Prop) n (f g : M A) :
  related R f g ->
  related R (log_execution_time n f) (log_execution_time n g).
Proof.
  intros H. unfold log_execution_time. rel. assumption.
Qed.

Lemma related_path_exists x : related eq (path_exists x) (path_exists x).
Proof.
  unfold path_exists. rel. use_equiv H. reflexivity.
Qed.
#[local] Hint Resolve related_path_exists : related_db.

Lemma related_set_fs x c :
  related eq (modify_world (fun w => set_fs (fs_write x c (fs w)) w))
             (modify_world (fun w => set_fs (fs_write x c (fs w)) w)).
Proof.
  apply related_modify. intros p q H. solve_equiv.
Qed.
#[local] Hint Resolve related_set_fs : related_db.

Lemma related_make_each chain :
  related eq (make_each chain) (make_each chain).
Proof.
  induction chain as [|d rest IH]; cbn [make_each]; [rel|].
  apply (related_bind audit_equiv); [apply related_get|]. intros a b H.
  use_equiv H.
  destruct (fs (world b) d) as [[c|]|]; rel.
Qed.
#[local] Hint Resolve related_make_each : related_db.

Lemma related_makedirs x : related eq (makedirs x) (makedirs x).
Proof. unfold makedirs. destruct (String.eqb x ""); rel. Qed.
#[local] Hint Resolve related_makedirs : related_db.

Lemma related_open_wb x : related eq (open_wb x) (open_wb x).
Proof.
  unfold open_wb.
  apply (related_bind audit_equiv); [apply related_get|]. intros a b H.
  use_equiv H.
  destruct (names_directory x); [rel|].
  destruct (fs (world b) x) as [[c|]|]; rel.
Qed.
#[local] Hint Resolve related_open_wb : related_db.

Lemma related_download_file url x :
  related eq (download_file url x) (download_file url x).
Proof.
  unfold download_file, download_file_body.
  apply related_log_execution_time. rel.
  match goal with
  | H : audit_equiv ?a ?b |- related _ (match remote (world ?a) with _ => _ end) _ =>
      use_equiv H; destruct (remote (world b)); rel
  end.
Qed.
#[local] Hint Resolve related_download_file : related_db.

Lemma related__download_file : related eq _download_file _download_file.
Proof.
  unfold _download_file. rel.
  destruct b; rel.
  destruct b; rel.
Qed.
#[local] Hint Resolve related__download_file : related_db.

Lemma related_read_csv_in_chunks x n :
  related eq (read_csv_in_chunks x n) (read_csv_in_chunks x n).
Proof.
  unfold read_csv_in_chunks. apply related_try; [|intros e; rel].
  apply (related_bind audit_equiv); [apply related_get|]. intros a b H.
  apply (related_bind eq).
  - use_equiv H.
    destruct (fs (world b) x) as [[content|]|]; [destruct (content _)| |]; rel.
  - intros cs ? <-. destruct cs; rel.
Qed.
#[local] Hint Resolve related_read_csv_in_chunks : related_db.

Lemma related__read_and_process_data :
  related eq _read_and_process_data _read_and_process_data.
Proof.
  unfold _read_and_process_data.
  apply (related_bind eq); [apply related_path_exists|]. intros present ? <-.
  destruct present; simpl; rel.
  match goal with |- context [df_empty ?d] => destruct (df_empty d) end; rel.
Qed.
#[local] Hint Resolve related__read_and_process_data : related_db.

Lemma related_clean_data {pandas : PandasLib} df :
  related eq (clean_data df) (clean_data df).
Proof.
  unfold clean_data. destruct (df_empty df); rel.
  use_equiv H. reflexivity.
Qed.
#[local] Hint Resolve related_clean_data : related_db.

Lemma related_store_statement : related eq store_statement store_statement.
Proof.
  unfold store_statement.
  apply (related_bind audit_equiv); [apply related_get|]. intros a b H.
  use_equiv H.
  apply (related_bind eq); [rel|]. intros _ _ _.
  destruct (store_fails (world b) (store_ops (world b))); rel.
Qed.
#[local] Hint Resolve related_store_statement : related_db.

Lemma data_table_lookup_audit_blind a b :
  audit_equiv a b ->
  existsb (String.eqb "processed_data") (table_names (db (world a)))
  = existsb (String.eqb "processed_data") (table_names (db (world b))).
Proof.
  intros H. unfold table_names. rewrite !existsb_app. use_equiv H.
  f_equal.
  destruct (processing_log (db (world a))), (processing_log (db (world b))),
    (data_quality_metrics (db (world a))), (data_quality_metrics (db (world b)));
    reflexivity.
Qed.

Lemma related_table_exists :
  related eq (table_exists "processed_data") (table_exists "processed_data").
Proof.
  unfold table_exists. rel. now apply data_table_lookup_audit_blind.
Qed.
#[local] Hint Resolve related_table_exists : related_db.

Lemma create_table_audit_blind t d1 d2 :
  data_tables d1 = data_tables d2 ->
  data_tables (create_table t d1) = data_tables (create_table t d2).
Proof.
  intros H. unfold create_table.
  destruct (String.eqb t "processing_log"); [exact H|].
  destruct (String.eqb t "data_quality_metrics"); [exact H|].
  cbn [data_tables]. now rewrite H.
Qed.

Lemma related_execute sql : related eq (execute sql) (execute sql).
Proof.
  unfold execute. destruct sql as [t|i]; [|rel].
  apply (related_bind eq); [apply related_store_statement|]. intros _ _ _.
  apply related_modify. intros p q H.
  unfold audit_equiv in *. cbn.
  decompose [and] H. repeat split; try assumption.
  now apply create_table_audit_blind.
Qed.
#[local] Hint Resolve related_execute : related_db.

Lemma related_execute_each statements :
  related eq (execute_each statements) (execute_each statements).
Proof. induction statements as [|sql rest IH]; cbn [execute_each]; rel. Qed.
#[local] Hint Resolve related_execute_each : related_db.

Lemma related_create_tables : related eq create_tables create_tables.
Proof. unfold create_tables. rel. Qed.
#[local] Hint Resolve related_create_tables : related_db.

Lemma related_to_sql batch t : related eq (to_sql batch t) (to_sql batch t).
Proof. unfold to_sql. rel. Qed.
#[local] Hint Resolve related_to_sql : related_db.

Lemma related_insert_batches df t b starts :
  forall total,
    related eq (insert_batches df t b starts total)
               (insert_batches df t b starts total).
Proof.
  induction starts as [|i starts IH]; intros total; simpl; rel.
Qed.
#[local] Hint Resolve related_insert_batches : related_db.

Lemma related_insert_dataframe df t b :
  related eq (insert_dataframe df t b) (insert_dataframe df t b).
Proof. unfold insert_dataframe. rel. Qed.
#[local] Hint Resolve related_insert_dataframe : related_db.

(** Whatever the two entries, whatever becomes of the two writes. *)
Lemma related_log_processing_status e1 e2 :
  related eq (log_processing_status e1) (log_processing_status e2).
Proof.
  intros p q H. unfold log_processing_status, audit_statement. run_monad.
  destruct (audit_fails (world p) (audit_ops (world p)) || _),
           (audit_fails (world q) (audit_ops (world q)) || _);
    simpl; (split; [reflexivity | solve_equiv]).
Qed.
#[local] Hint Resolve related_log_processing_status : related_db.

Lemma related_log_data_quality_metrics e1 e2 :
  related eq (log_data_quality_metrics e1) (log_data_quality_metrics e2).
Proof.
  intros p q H. unfold log_data_quality_metrics, audit_statement. run_monad.
  destruct (audit_fails (world p) (audit_ops (world p)) || _),
           (audit_fails (world q) (audit_ops (world q)) || _);
    simpl; (split; [reflexivity | solve_equiv]).
Qed.
#[local] Hint Resolve related_log_data_quality_metrics : related_db.

Lemma related_elapsed a b : related eq (elapsed a b) (elapsed a b).
Proof. unfold elapsed. destruct a, b; rel. Qed.
#[local] Hint Resolve related_elapsed : related_db.

Section RunIsAuditBlind.
Context {pandas : PandasLib}.

Lemma related__validate_data_quality df :
  related eq (_validate_data_quality df) (_validate_data_quality df).
Proof. unfold _validate_data_quality. rel. Qed.

Lemma related__store_data_in_database df :
  related eq (_store_data_in_database df) (_store_data_in_database df).
Proof.
  unfold _store_data_in_database. rel.
  match goal with |- context [negb ?c] => destruct c end; simpl; rel.
Qed.

Lemma related__log_processing_results n m :
  related eq (_log_processing_results n m) (_log_processing_results n m).
Proof.
  unfold _log_processing_results.
  apply (related_bind audit_equiv); [apply related_get|]. intros a b H.
  use_equiv H. rel.
Qed.

Lemma related__log_error msg t : related eq (_log_error msg t) (_log_error msg t).
Proof. unfold _log_error. rel. Qed.

Lemma related__generate_summary n m t :
  related eq (_generate_summary n m t) (_generate_summary n m t).
Proof.
  unfold _generate_summary. rel. use_equiv H. reflexivity.
Qed.

Hint Resolve related__validate_data_quality related__store_data_in_database
  related__log_processing_results related__log_error
  related__generate_summary : related_db.

Lemma related_run_pipeline_try :
  related eq run_pipeline_try run_pipeline_try.
Proof.
  unfold run_pipeline_try, _clean_and_transform_data. rel.
  - match goal with |- context [negb ?c] => destruct c end; simpl; rel.
  - match goal with |- context [df_empty ?d] => destruct (df_empty d) end; rel.
  - match goal with H : audit_equiv _ _ |- _ => use_equiv H end. rel.
  - rel.
Qed.

Lemma related_run_pipeline_except e :
  related eq (run_pipeline_except e) (run_pipeline_except e).
Proof.
  unfold run_pipeline_except. rel.
  match goal with H : audit_equiv _ ?b |- _ =>
    use_equiv H; destruct (start_time b) end; rel.
  all: rel.
Qed.

Lemma related_run_pipeline : related eq run_pipeline run_pipeline.
Proof.
  unfold run_pipeline. apply related_log_execution_time.
  apply related_try; [apply related_run_pipeline_try|].
  intros e. apply related_run_pipeline_except.
Qed.

End RunIsAuditBlind.

Lemma related_same_outcome {A} (m : M A) p q :
  related eq m m -> audit_equiv p q ->
  fst (m p) = fst (m q) /\ audit_equiv (snd (m p)) (snd (m q)).
Proof.
  intros Hm Hpq. specialize (Hm p q Hpq).
  destruct (m p) as [[a|e] p'], (m q) as [[b|f] q']; simpl;
    try contradiction; destruct Hm as [-> Hq]; auto.
Qed.

(** C8 (as the code has it): the two recorder operations never raise, and a
    run ends the same way, with the same data table, whatever becomes of
    its audit writes.  When a step of the run raises, the orchestrator
    attempts to write a "failed" processing-log entry carrying the error
    message, which is stored exactly when that write is accepted, and then
    raises the same error to its caller. *)
Theorem audit_failures_swallowed_step_failures_reraised
        {pandas : PandasLib} (p q p1 : Pipeline) (e : exn)
        (entry : LogEntry) (snapshot : MetricsEntry) :
  audit_equiv p q ->
  run_pipeline_try (ticked p) = (Raise e, p1) ->
  (exists p', log_processing_status entry p = (Return tt, p')) /\
  (exists p', log_data_quality_metrics snapshot p = (Return tt, p')) /\
  fst (run_pipeline p) = fst (run_pipeline q) /\
  data_tables (db (world (snd (run_pipeline p))))
    = data_tables (db (world (snd (run_pipeline q)))) /\
  exists p3 rest,
    run_pipeline p = (Raise e, p3) /\
    le_status (failure_entry e p1) = "failed" /\
    le_error_message (failure_entry e p1) = Some (exn_message e) /\
    trace (world p3)
    = (trace (world p1)
       ++ LoggerError "Pipeline failed" :: WriteStatus (failure_entry e p1) :: rest)%list /\
    processing_log (db (world p3))
    = (if status_write_accepted p1
       then option_map (fun l => (l ++ [failure_entry e p1])%list)
                       (processing_log (db (world p1)))
       else processing_log (db (world p1))).
Proof.
  intros Hpq Htry.
  split; [apply log_processing_status_returns|].
  split; [apply log_data_quality_metrics_returns|].
  destruct (related_same_outcome run_pipeline p q related_run_pipeline Hpq)
    as [Hout Hst].
  split; [exact Hout|].
  split; [use_equiv Hst; reflexivity|].
  destruct (run_pipeline_reraises p e p1 Htry) as (p3 & rest & Hrun & Htr & Hlog).
  exists p3, rest. repeat split; assumption.
Qed.

Lemma audit_failures_swallowed_step_failures_reraised_witness :
  audit_equiv failing_run failing_run_audit_down /\
  fst (@run_pipeline_try pandas_inplace (ticked failing_run))
    = Raise (Exception "Failed to download CSV file") /\
  fst (@run_pipeline pandas_inplace failing_run)
    = fst (@run_pipeline pandas_inplace failing_run_audit_down) /\
  exists p3,
    @run_pipeline pandas_inplace failing_run
      = (Raise (Exception "Failed to download CSV file"), p3) /\
    processing_log (db (world p3))
      = Some [mkLogEntry "downloaded_data.csv.gz" 0 0 "failed"
                (Some "Failed to download CSV file") (Some 3)].
Proof.
  split; [repeat split|].
  split; [vm_compute; reflexivity|].
  destruct (@audit_failures_swallowed_step_failures_reraised pandas_inplace
              failing_run failing_run_audit_down
              (snd (@run_pipeline_try pandas_inplace (ticked failing_run)))
              (Exception "Failed to download CSV file")
              (mkLogEntry "" 0 0 "" None None)
              (mkMetricsEntry "" (mkMetrics 0 0 0 0))
              ltac:(repeat split) ltac:(vm_compute; reflexivity))
    as (_ & _ & Hout & _ & p3 & rest & Hrun & _ & _ & _ & Hlog).
  split; [exact Hout|].
  exists p3. split; [exact Hrun|].
  rewrite Hlog. vm_compute. reflexivity.
Defined.

(** C8 as stated fails: on a fresh installation, where the audit tables do
    not exist yet, a failed download ends the run with an error and no
    processing-log entry at all; and with the tables in place but refusing
    writes, the log stays empty as well. *)
Lemma step_failure_left_unrecorded :
  (exists p',
      @run_pipeline pandas_inplace (new_pipeline "run-1" (fresh_world unreachable))
        = (Raise (Exception "Failed to download CSV file"), p') /\
      processing_log (db (world p')) = None) /\
  (exists p',
      @run_pipeline pandas_inplace failing_run_audit_down
        = (Raise (Exception "Failed to download CSV file"), p') /\
      processing_log (db (world p')) = Some []).
Proof.
  split.
  - exists (snd (@run_pipeline pandas_inplace
                   (new_pipeline "run-1" (fresh_world unreachable)))).
    split; vm_compute; reflexivity.
  - exists (snd (@run_pipeline pandas_inplace failing_run_audit_down)).
    split; vm_compute; reflexivity.
Qed.

(** *** A first run on good data *)

(** On a freshly built pipeline object [end_time] is still [None] when the
    step that logs the results subtracts the start time from it: the run
    loads its rows, then ends with a [TypeError] and a "failed" log entry. *)
Lemma first_run_fails_after_loading :
  exists p',
    @run_pipeline pandas_inplace (new_pipeline "run-1" serving_world)
    = (Raise (TypeError
         "unsupported operand type(s) for -: 'NoneType' and 'datetime.datetime'"),
       p') /\
    option_map (@length _)
      (table_rows "processed_data" (data_tables (db (world p')))) = Some 2%nat /\
    option_map (map le_status) (processing_log (db (world p'))) = Some ["failed"].
Proof.
  exists (snd (@run_pipeline pandas_inplace (new_pipeline "run-1" serving_world))).
  split; [vm_compute; reflexivity|].
  split; vm_compute; reflexivity.
Qed.

(* ================================================================== *)
(** ** Further properties of the code *)

(** *** Deduplication, row by row *)

Lemma rows_of_rows_vals df :
  rows_of df = rows_vals (nrows df) (map values (columns df)).
Proof.
  unfold rows_of, rows_vals, row_at. apply map_ext. intros i.
  now rewrite map_map.
Qed.

Lemma rows_vals_S n vals :
  rows_vals (S n) vals
  = map (hd CNull) vals :: rows_vals n (map (@tl cell) vals).
Proof.
  unfold rows_vals. cbn [seq map]. f_equal.
  - apply map_ext. intros [|c v]; reflexivity.
  - rewrite <- seq_shift, map_map. apply map_ext. intros i.
    rewrite map_map. apply map_ext. intros [|c v]; [now destruct i | reflexivity].
Qed.

Lemma drop_masked_rows mask :
  forall vals,
    Forall (fun v => length v = length mask) vals ->
    rows_vals (length (filter negb mask)) (map (drop_masked mask) vals)
    = drop_masked mask (rows_vals (length mask) vals).
Proof.
  induction mask as [|m mask IH]; intros vals Hlen.
  - reflexivity.
  - cbn [length]. rewrite rows_vals_S.
    assert (Htl : Forall (fun v => length v = length mask) (map (@tl cell) vals)).
    { apply Forall_map. eapply Forall_impl; [|exact Hlen].
      intros [|c v] H; simpl in *; [discriminate | lia]. }
    destruct m; cbn [filter negb drop_masked].
    + rewrite <- (IH _ Htl). f_equal. rewrite map_map.
      apply map_ext_Forall. eapply Forall_impl; [|exact Hlen].
      intros [|c v] H; simpl in *; [discriminate | reflexivity].
    + cbn [length]. rewrite rows_vals_S. f_equal.
      * rewrite map_map. apply map_ext_Forall.
        eapply Forall_impl; [|exact Hlen].
        intros [|c v] H; simpl in *; [discriminate | reflexivity].
      * rewrite <- (IH _ Htl). f_equal. rewrite !map_map.
        apply map_ext_Forall. eapply Forall_impl; [|exact Hlen].
        intros [|c v] H; simpl in *; [discriminate | reflexivity].
Qed.

Lemma duplicated_length df : length (duplicated df) = nrows df.
Proof.
  unfold duplicated, rows_of.
  now rewrite duplicated_from_length, length_map, length_seq.
Qed.

Lemma rows_of_drop_duplicates df :
  wf_frame df ->
  rows_of (drop_duplicates df) = drop_masked (duplicated df) (rows_of df).
Proof.
  intros Hwf. rewrite !rows_of_rows_vals.
  unfold drop_duplicates. cbn [nrows columns].
  rewrite map_map. cbn [values].
  rewrite <- (map_map values (drop_masked (duplicated df))).
  rewrite drop_masked_rows.
  - now rewrite duplicated_length.
  - apply Forall_map. eapply Forall_impl; [|exact Hwf].
    intros s Hs. cbv beta. now rewrite duplicated_length.
Qed.

Lemma kept_rows_do_not_repeat rows :
  forall seen seen',
    (forall r, existsb (row_eqb r) seen' = true ->
               existsb (row_eqb r) seen = true) ->
    Forall (fun m => m = false)
           (duplicated_from seen' (drop_masked (duplicated_from seen rows) rows)).
Proof.
  induction rows as [|r rows IH]; intros seen seen' Hsub; simpl.
  - constructor.
  - destruct (existsb (row_eqb r) seen) eqn:E.
    + apply IH. intros x Hx. simpl. rewrite (Hsub x Hx). apply orb_true_r.
    + simpl. constructor.
      * destruct (existsb (row_eqb r) seen') eqn:E'; [|reflexivity].
        rewrite (Hsub r E') in E. discriminate.
      * apply IH. intros x Hx. simpl in *.
        apply orb_true_iff in Hx as [Hx|Hx]; [now rewrite Hx|].
        rewrite (Hsub x Hx). apply orb_true_r.
Qed.

Lemma filter_all_false l :
  Forall (fun m => m = false) l -> filter (fun b : bool => b) l = [].
Proof.
  induction 1 as [|m l Hm _ IH]; simpl; [reflexivity|]. now rewrite Hm.
Qed.

Lemma drop_masked_all_false {A} (mask : list bool) (xs : list A) :
  Forall (fun m => m = false) mask -> length xs = length mask ->
  drop_masked mask xs = xs.
Proof.
  intros H. revert xs. induction H as [|m mask Hm _ IH]; intros [|x xs] Hl;
    simpl in *; try discriminate; try reflexivity.
  rewrite Hm. f_equal. apply IH. lia.
Qed.

Lemma filter_negb_all_false l :
  Forall (fun m => m = false) l -> length (filter negb l) = length l.
Proof.
  induction 1 as [|m l Hm _ IH]; simpl; [reflexivity|].
  rewrite Hm. simpl. now rewrite IH.
Qed.

Lemma duplicated_of_deduplicated df :
  wf_frame df ->
  Forall (fun m => m = false) (duplicated (drop_duplicates df)).
Proof.
  intros Hwf. unfold duplicated at 1. rewrite rows_of_drop_duplicates by exact Hwf.
  unfold duplicated. apply kept_rows_do_not_repeat. auto.
Qed.

Lemma drop_masked_columns_all_false mask cols :
  Forall (fun m => m = false) mask ->
  Forall (fun s => length (values s) = length mask) cols ->
  map (fun s => mkSeries (name s) (dt s) (drop_masked mask (values s))) cols
  = cols.
Proof.
  intros Hm Hc. induction Hc as [|s cols Hs _ IH]; simpl; [reflexivity|].
  rewrite IH. f_equal. destruct s as [nm d vals]. cbn [name dt values] in *.
  f_equal. now apply drop_masked_all_false.
Qed.

(** X1: after deduplication no row repeats an earlier one: the rows kept
    are the unmarked rows of the input in their order, the validator counts
    no duplicate among them, and deduplicating again changes nothing. *)
Theorem drop_duplicates_leaves_no_repeat (df : DataFrame) :
  wf_frame df ->
  rows_of (_remove_duplicates df) = drop_masked (duplicated df) (rows_of df) /\
  count_repeated_rows (_remove_duplicates df) = 0%nat /\
  duplicate_records (validate_data (_remove_duplicates df)) = 0 /\
  _remove_duplicates (_remove_duplicates df) = _remove_duplicates df.
Proof.
  intros Hwf. unfold _remove_duplicates.
  pose proof (duplicated_of_deduplicated df Hwf) as Hnone.
  assert (Hcount : count_repeated_rows (drop_duplicates df) = 0%nat).
  { unfold count_repeated_rows.
    rewrite <- (filter_map_length (repeats_earlier (drop_duplicates df))
                                  (fun b : bool => b)).
    rewrite <- duplicated_spec. now rewrite filter_all_false. }
  split; [now apply rows_of_drop_duplicates|].
  split; [exact Hcount|].
  split; [rewrite validate_data_duplicates, Hcount; reflexivity|].
  pose proof (drop_duplicates_wf df Hwf) as Hwf'.
  set (d := drop_duplicates df) in *.
  unfold drop_duplicates at 1.
  rewrite (filter_negb_all_false _ Hnone), duplicated_length.
  rewrite drop_masked_columns_all_false.
  - now destruct d.
  - exact Hnone.
  - eapply Forall_impl; [|exact Hwf'].
    intros s Hs. cbv beta in *. now rewrite duplicated_length.
Qed.

Lemma drop_duplicates_leaves_no_repeat_witness :
  wf_frame sample /\
  rows_of (_remove_duplicates sample)
  = [[CInt 1; CNull]; [CInt 2; CStr "x"]] /\
  count_repeated_rows (_remove_duplicates sample) = 0%nat.
Proof.
  assert (Hwf : wf_frame sample) by (repeat constructor).
  split; [exact Hwf|].
  destruct (drop_duplicates_leaves_no_repeat sample Hwf)
    as (Hrows & Hcount & _).
  split; [rewrite Hrows; reflexivity | exact Hcount].
Defined.

(** *** The quality metrics as a whole *)

Lemma filter_length_le {A} (f : A -> bool) l :
  (length (filter f l) <= length l)%nat.
Proof. induction l as [|x l IH]; simpl; [lia|]. destruct (f x); simpl; lia. Qed.

Lemma filter_length_all {A} (f : A -> bool) l :
  length (filter f l) = length l -> forallb f l = true.
Proof.
  induction l as [|x l IH]; simpl; [reflexivity|].
  pose proof (filter_length_le f l) as Hle.
  destruct (f x); simpl; intros Hlen; [apply IH; lia | lia].
Qed.

Lemma filter_all_length {A} (f : A -> bool) l :
  forallb f l = true -> length (filter f l) = length l.
Proof.
  induction l as [|x l IH]; simpl; [reflexivity|].
  destruct (f x); simpl; [intros H; now rewrite IH | discriminate].
Qed.

Lemma rows_of_length df : length (rows_of df) = nrows df.
Proof. unfold rows_of. now rewrite length_map, length_seq. Qed.

Lemma first_row_is_kept df :
  (0 < nrows df)%nat -> (0 < nrows (drop_duplicates df))%nat.
Proof.
  intros H. unfold drop_duplicates, duplicated, rows_of. cbn [nrows].
  destruct (nrows df) as [|n]; [lia|]. simpl. lia.
Qed.

Lemma no_null_cell_no_null_row df :
  wf_frame df ->
  (null_cells df = 0%nat <->
   forallb (fun r => negb (existsb isnull r)) (rows_of df) = true).
Proof.
  intros Hwf. unfold wf_frame in Hwf. unfold null_cells, rows_of, row_at. split.
  - intros H. apply list_sum_zero in H. rewrite Forall_map in H.
    apply forallb_forall. intros r Hr.
    apply in_map_iff in Hr as (i & <- & Hi). apply in_seq in Hi.
    apply negb_true_iff.
    destruct (existsb isnull _) eqn:E; [|reflexivity].
    apply existsb_exists in E as (c & Hc & Hnull).
    apply in_map_iff in Hc as (s & <- & Hs).
    rewrite Forall_forall in H, Hwf.
    pose proof (filter_isnull_nil _ (H s Hs)) as Hnone.
    assert (Hin : In (nth i (values s) CNull) (values s)).
    { apply nth_In. rewrite (Hwf s Hs). lia. }
    assert (existsb isnull (values s) = true).
    { apply existsb_exists. eauto. }
    congruence.
  - intros H. rewrite forallb_forall in H.
    assert (Hz : Forall (fun n => n = 0%nat)
                   (map (fun s => length (filter isnull (values s))) (columns df))).
    { apply Forall_map. rewrite Forall_forall. intros s Hs.
      destruct (filter isnull (values s)) as [|c rest] eqn:E; [reflexivity|].
      exfalso.
      assert (Hc : In c (filter isnull (values s))) by (rewrite E; now left).
      apply filter_In in Hc as [Hc Hnull].
      destruct (In_nth _ _ CNull Hc) as (i & Hi & Hnth).
      rewrite Forall_forall in Hwf. rewrite (Hwf s Hs) in Hi.
      specialize (H (map (fun s0 => nth i (values s0) CNull) (columns df))).
      assert (Hrow : negb (existsb isnull
                     (map (fun s0 => nth i (values s0) CNull) (columns df))) = true).
      { apply H. apply in_map_iff. exists i. split; [reflexivity|].
        apply in_seq. lia. }
      apply negb_true_iff in Hrow.
      assert (existsb isnull
                (map (fun s0 => nth i (values s0) CNull) (columns df)) = true).
      { apply existsb_exists. exists c. split; [|exact Hnull].
        apply in_map_iff. exists s. split; assumption. }
      congruence. }
    clear H. induction Hz as [|n l Hn _ IH]; simpl; [reflexivity | lia].
Qed.

(** X2: in every metrics snapshot the counts fit together: valid rows and
    duplicates never exceed the total, a table with a row has fewer
    duplicates than rows, and there is no null cell exactly when every row
    is valid. *)
Theorem validate_data_counts_fit (df : DataFrame) :
  0 <= valid_records (validate_data df) <= total_records (validate_data df) /\
  0 <= null_records (validate_data df) /\
  0 <= duplicate_records (validate_data df) <= total_records (validate_data df) /\
  (0 < total_records (validate_data df) ->
   duplicate_records (validate_data df) < total_records (validate_data df)) /\
  (wf_frame df ->
   (null_records (validate_data df) = 0 <->
    valid_records (validate_data df) = total_records (validate_data df))).
Proof.
  unfold validate_data. cbn [valid_records total_records null_records
    duplicate_records].
  pose proof (drop_duplicates_count df) as Hd.
  assert (Hv : (complete_rows df <= nrows df)%nat).
  { unfold complete_rows.
    pose proof (filter_length_le (fun r => negb (existsb isnull r)) (rows_of df)) as Hle.
    now rewrite rows_of_length in Hle. }
  split; [lia|]. split; [lia|]. split; [lia|]. split.
  - intros Hpos. pose proof (first_row_is_kept df ltac:(lia)). lia.
  - intros Hwf. pose proof (no_null_cell_no_null_row df Hwf) as Hiff.
    unfold complete_rows. split; intros H.
    + rewrite filter_all_length, rows_of_length; [reflexivity|].
      apply Hiff. lia.
    + assert (Hall : forallb (fun r => negb (existsb isnull r)) (rows_of df) = true).
      { apply filter_length_all. rewrite rows_of_length. lia. }
      apply Hiff in Hall. lia.
Qed.

Lemma validate_data_counts_fit_witness :
  wf_frame sample /\
  (null_records (validate_data sample) = 0 <->
   valid_records (validate_data sample) = total_records (validate_data sample)).
Proof.
  split; [repeat constructor|].
  apply (validate_data_counts_fit sample). repeat constructor.
Defined.

(** *** What imputation does to a column *)

Lemma least_cell_in l :
  forall m c, least_cell m l = Some c -> c = m \/ In c l.
Proof.
  induction l as [|x l IH]; intros m c H; simpl in H.
  - injection H as <-. now left.
  - destruct (cell_ltb x m) as [[|]|]; [| |discriminate].
    + destruct (IH _ _ H) as [->|Hin]; right; [now left | now right].
    + destruct (IH _ _ H) as [->|Hin]; [now left | right; now right].
Qed.

Lemma unique_cells_in l :
  forall seen c, In c (unique_cells seen l) -> In c l.
Proof.
  induction l as [|x l IH]; intros seen c H; simpl in *; [contradiction|].
  destruct (existsb (cell_eqb x) seen).
  - right. eapply IH; eassumption.
  - destruct H as [->|H]; [now left | right; eapply IH; eassumption].
Qed.

Lemma mode_present s c : In c (mode s) -> isnull c = false.
Proof.
  unfold mode. intros H. apply filter_In in H as [H _].
  apply unique_cells_in in H. apply filter_In in H as [_ H].
  now apply negb_true_iff in H.
Qed.

Lemma mode_first_present s m : mode_first s = Some m -> isnull m = false.
Proof.
  unfold mode_first. destruct (mode s) as [|c t] eqn:E; [discriminate|].
  assert (Hall : forall x, In x (c :: t) -> isnull x = false).
  { intros x Hx. apply (mode_present s). now rewrite E. }
  destruct (least_cell c t) as [x|] eqn:L; intros H; injection H as <-.
  - apply least_cell_in in L as [->|Hin]; apply Hall; [now left | now right].
  - apply Hall. now left.
Qed.


Lemma fillna_leaves_no_null v s :
  isnull v = false -> existsb isnull (values (fillna v s)) = false.
Proof.
  intros Hv. unfold fillna. cbn [values].
  induction (values s) as [|c l IH]; simpl; [reflexivity|].
  rewrite IH, orb_false_r. destruct (isnull c) eqn:E; assumption.
Qed.

Lemma fillna_null_values s : values (fillna CNull s) = values s.
Proof.
  unfold fillna. cbn [values].
  induction (values s) as [|c l IH]; simpl; [reflexivity|].
  rewrite IH. now destruct c.
Qed.

Lemma fillna_keeps_present v s :
  Forall2 (fun c c' => isnull c = false -> c' = c)
          (values s) (values (fillna v s)).
Proof.
  unfold fillna. cbn [values].
  induction (values s) as [|c l IH]; simpl; constructor; [|exact IH].
  now intros ->.
Qed.

Lemma insert_sorted_length q l :
  length (insert_sorted q l) = S (length l).
Proof.
  induction l as [|h t IH]; simpl; [reflexivity|].
  destruct (Qle_bool q h); simpl; now rewrite ?IH.
Qed.

Lemma sort_numbers_length l : length (sort_numbers l) = length l.
Proof.
  induction l as [|q l IH]; simpl; [reflexivity|].
  now rewrite insert_sorted_length, IH.
Qed.

Lemma median_of_numbers s :
  numbers_of (values s) <> [] -> isnull (median s) = false.
Proof.
  intros H. unfold median.
  rewrite sort_numbers_length.
  destruct (numbers_of (values s)) as [|q l]; [congruence|]. simpl length.
  now destruct (Nat.even _).
Qed.

Lemma median_of_nothing s : numbers_of (values s) = [] -> median s = CNull.
Proof. intros H. unfold median. now rewrite H. Qed.

Section Imputation.
Context {pandas : PandasLib}.

Lemma impute_column_name s : name (impute_column s) = name s.
Proof.
  unfold impute_column, loc_setitem.
  destruct (dt s); try destruct (mode_first s);
    destruct (_ && _); reflexivity.
Qed.

Lemma impute_column_keeps_present s :
  Forall2 (fun c c' => isnull c = false -> c' = c)
          (values s) (values (impute_column s)).
Proof.
  unfold impute_column.
  destruct (dt s); try destruct (mode_first s);
    rewrite loc_setitem_values; apply fillna_keeps_present.
Qed.

Lemma impute_column_text s :
  median_filled (dt s) = false ->
  existsb isnull (values (impute_column s)) = false.
Proof.
  intros Hd. unfold impute_column.
  destruct (dt s); try discriminate;
    (destruct (mode_first s) as [m|] eqn:E;
     rewrite loc_setitem_values; apply fillna_leaves_no_null;
     [now apply (mode_first_present s) | reflexivity]).
Qed.

Lemma impute_column_numbers s :
  median_filled (dt s) = true ->
  numbers_of (values s) <> [] ->
  existsb isnull (values (impute_column s)) = false.
Proof.
  intros Hd Hn. unfold impute_column.
  destruct (dt s); try discriminate;
    rewrite loc_setitem_values; apply fillna_leaves_no_null;
    now apply median_of_numbers.
Qed.


Lemma impute_float_without_numbers s :
  dt s = DFloat64 -> numbers_of (values s) = [] -> impute_column s = s.
Proof.
  intros Hd Hn. unfold impute_column. rewrite Hd.
  rewrite (median_of_nothing s Hn).
  assert (E : fillna CNull s = s).
  { pose proof (fillna_null_values s) as Hv.
    unfold fillna in *. cbn [values] in Hv. rewrite Hv, Hd.
    cbn [can_hold negb]. rewrite andb_false_r.
    destruct s as [nm d vals]. cbn [dt name values] in *. now subst d. }
  rewrite E. apply loc_setitem_same.
Qed.

Lemma impute_column_idempotent s :
  (dt s = DInt64 -> existsb isnull (values s) = false) ->
  impute_column (impute_column s) = impute_column s.
Proof.
  intros Hcomplete.
  destruct (existsb isnull (values s)) eqn:Enull.
  - destruct (median_filled (dt s)) eqn:Em.
    + destruct (numbers_of (values s)) as [|q l] eqn:En.
      * destruct (dt s) eqn:Ed; try discriminate.
        -- specialize (Hcomplete eq_refl). discriminate.
        -- now rewrite (impute_float_without_numbers s Ed En),
             (impute_float_without_numbers s Ed En).
      * apply impute_column_no_null, impute_column_numbers; [exact Em|].
        rewrite En. discriminate.
    + apply impute_column_no_null, impute_column_text, Em.
  - now rewrite !(impute_column_no_null s Enull).
Qed.

End Imputation.

(** X3: imputation writes into missing cells only: every column keeps its
    name and its place, and every cell that held a value still holds it. *)
Theorem imputation_touches_only_missing_cells
        {pandas : PandasLib} (df : DataFrame) :
  nrows (_handle_missing_values df) = nrows df /\
  map name (columns (_handle_missing_values df)) = map name (columns df) /\
  Forall2 (fun s s' =>
             Forall2 (fun c c' => isnull c = false -> c' = c)
                     (values s) (values s'))
          (columns df) (columns (_handle_missing_values df)).
Proof.
  unfold _handle_missing_values. cbn [nrows columns].
  split; [reflexivity|]. split.
  - rewrite map_map. apply map_ext. intros s. apply impute_column_name.
  - induction (columns df) as [|s cols IH]; simpl; constructor;
      [apply impute_column_keeps_present | exact IH].
Qed.

Lemma imputation_touches_only_missing_cells_witness :
  map name (columns (@_handle_missing_values pandas_inplace sample))
  = ["a"; "b"] /\
  Forall2 (fun s s' =>
             Forall2 (fun c c' => isnull c = false -> c' = c)
                     (values s) (values s'))
          (columns sample)
          (columns (@_handle_missing_values pandas_inplace sample)).
Proof.
  destruct (@imputation_touches_only_missing_cells pandas_inplace sample)
    as (_ & Hnames & Hcells).
  split; [exact Hnames | exact Hcells].
Defined.



(** X5: imputation is idempotent on every table whose int64 columns hold
    no missing value: running it a second time changes nothing. *)
Theorem handle_missing_values_idempotent
        {pandas : PandasLib} (df : DataFrame) :
  int64_complete df ->
  _handle_missing_values (_handle_missing_values df)
  = _handle_missing_values df.
Proof.
  intros H. unfold _handle_missing_values. cbn [nrows columns]. f_equal.
  rewrite map_map. unfold int64_complete in H.
  induction H as [|s cols Hs _ IH]; simpl; [reflexivity|].
  now rewrite IH, (impute_column_idempotent s Hs).
Qed.

Lemma handle_missing_values_idempotent_witness :
  int64_complete sample /\
  @_handle_missing_values pandas_inplace
     (@_handle_missing_values pandas_inplace sample)
  = @_handle_missing_values pandas_inplace sample.
Proof.
  split.
  - repeat constructor; discriminate.
  - apply (@handle_missing_values_idempotent pandas_inplace sample).
    repeat constructor; discriminate.
Defined.

(** *** The columns of the cleaned batch *)

Section ColumnNames.
Context {pandas : PandasLib}.

Lemma convert_column_name s : name (convert_column s) = name s.
Proof.
  unfold convert_column. destruct (is_provenance (name s)); [reflexivity|].
  assert (Hf : forall x, name (downcast_float64 x) = name x).
  { intros x. unfold downcast_float64, loc_setitem.
    destruct (dt x); try reflexivity. now destruct (_ && _). }
  assert (Hi : forall x, name (downcast_int64 x) = name x).
  { intros x. unfold downcast_int64, loc_setitem.
    destruct (dt x); try reflexivity. now destruct (_ && _). }
  assert (Ho : forall x, name (coerce_object x) = name x).
  { intros x. unfold coerce_object, loc_setitem.
    destruct (dt x); try reflexivity.
    destruct (negb _); [|reflexivity]. now destruct (_ && _). }
  now rewrite Hf, Hi, Ho.
Qed.

Lemma cleaning_steps_keep_names df :
  map name (columns (_convert_data_types
                       (_handle_missing_values (_remove_duplicates df))))
  = map name (columns df).
Proof.
  unfold _convert_data_types, _handle_missing_values, _remove_duplicates,
    drop_duplicates. cbn [columns].
  rewrite !map_map. apply map_ext. intros s.
  now rewrite convert_column_name, impute_column_name.
Qed.

End ColumnNames.

Lemma set_scalar_names n d v len cols :
  map name (set_scalar n d v len cols)
  = (map name cols
     ++ (if existsb (String.eqb n) (map name cols) then [] else [n]))%list.
Proof.
  induction cols as [|s cols IH]; simpl; [reflexivity|].
  rewrite (String.eqb_sym n (name s)).
  destruct (String.eqb (name s) n) eqn:E; simpl.
  - apply String.eqb_eq in E. now rewrite E, app_nil_r.
  - now rewrite IH.
Qed.

Lemma stamp_provenance_names bid t1 t2 d :
  map name (columns (stamp_provenance bid t1 t2 d))
  = (map name (columns d) ++ missing_provenance (map name (columns d)))%list.
Proof.
  unfold stamp_provenance, setitem_scalar, missing_provenance,
    provenance_columns.
  cbn [columns nrows filter]. rewrite !set_scalar_names.
  rewrite !existsb_app.
  destruct (existsb (String.eqb "source_file") (map name (columns d)));
    destruct (existsb (String.eqb "processing_batch") (map name (columns d)));
    destruct (existsb (String.eqb "created_at") (map name (columns d)));
    destruct (existsb (String.eqb "updated_at") (map name (columns d)));
    cbn; rewrite <- ?app_assoc; reflexivity.
Qed.

(** X6: the columns of the cleaned batch are the columns of the source, in
    their order, followed by those of source_file, processing_batch,
    created_at and updated_at that the source does not have already; a
    source column of such a name is overwritten in its place, so cleaning
    a cleaned batch again adds no column. *)
Theorem clean_data_column_names
        {pandas : PandasLib} (df : DataFrame) (p : Pipeline) :
  df_empty df = false ->
  exists cleaned p',
    clean_data df p = (Return cleaned, p') /\
    map name (columns cleaned)
    = (map name (columns df)
       ++ missing_provenance (map name (columns df)))%list /\
    (forall q, exists again q',
        clean_data cleaned q = (Return again, q') /\
        map name (columns again) = map name (columns cleaned)).
Proof.
  intros Hne.
  assert (Hnames : forall d bid t1 t2,
             map name (columns (stamp_provenance bid t1 t2
                (_convert_data_types
                   (_handle_missing_values (_remove_duplicates d)))))
             = (map name (columns d)
                ++ missing_provenance (map name (columns d)))%list).
  { intros d bid t1 t2.
    now rewrite stamp_provenance_names, cleaning_steps_keep_names. }
  eexists; eexists.
  split; [apply clean_data_nonempty; exact Hne|].
  split; [apply Hnames|].
  intros q. eexists; eexists. split.
  - apply clean_data_nonempty.
    unfold df_empty in *. apply orb_false_iff in Hne as [Hrows Hcols].
    apply orb_false_iff. split.
    + cbn [nrows stamp_provenance setitem_scalar _convert_data_types
           _handle_missing_values].
      apply Nat.eqb_neq. apply Nat.eqb_neq in Hrows.
      pose proof (first_row_is_kept df ltac:(lia)).
      unfold _remove_duplicates. lia.
    + apply Nat.eqb_neq. apply Nat.eqb_neq in Hcols.
      rewrite <- (length_map name), Hnames, length_app, length_map. lia.
  - rewrite (Hnames _ (batch_id q)), !Hnames.
    rewrite <- app_nil_r. f_equal.
    unfold missing_provenance, provenance_columns. cbn [filter].
    rewrite !existsb_app.
    destruct (existsb (String.eqb "source_file") (map name (columns df)));
      destruct (existsb (String.eqb "processing_batch") (map name (columns df)));
      destruct (existsb (String.eqb "created_at") (map name (columns df)));
      destruct (existsb (String.eqb "updated_at") (map name (columns df)));
      reflexivity.
Qed.

Lemma clean_data_column_names_witness :
  df_empty sample = false /\
  exists cleaned p',
    @clean_data pandas_inplace sample
       (new_pipeline "run-1" (fresh_world unreachable)) = (Return cleaned, p') /\
    map name (columns cleaned)
    = ["a"; "b"; "source_file"; "processing_batch"; "created_at"; "updated_at"].
Proof.
  split; [reflexivity|].
  destruct (@clean_data_column_names pandas_inplace sample
              (new_pipeline "run-1" (fresh_world unreachable)) eq_refl)
    as (cleaned & p' & Hrun & Hnames & _).
  exists cleaned, p'. split; [exact Hrun | exact Hnames].
Defined.

(** *** Reading a file in chunks *)







(** *** What the loader leaves in the table *)

Lemma seq_from lo m : map (fun k => (lo + k)%nat) (seq 0 m) = seq lo m.
Proof.
  revert lo. induction m as [|m IH]; intros lo; simpl; [reflexivity|].
  f_equal; [lia|]. rewrite <- seq_shift, map_map.
  rewrite <- (IH (S lo)). apply map_ext. intros k. lia.
Qed.

Lemma row_at_iloc df i j k :
  (k < Z.to_nat j - Z.to_nat i)%nat ->
  row_at (iloc df i j) k = row_at df (Z.to_nat i + k).
Proof.
  intros Hk. unfold row_at, iloc. cbn [columns].
  rewrite map_map. apply map_ext. intros s. cbn [values].
  rewrite nth_firstn.
  destruct (k <? Z.to_nat j - Z.to_nat i)%nat eqn:E.
  - apply nth_skipn.
  - apply Nat.ltb_ge in E. lia.
Qed.

Lemma rows_of_iloc df i j :
  rows_of (iloc df i j)
  = map (row_at df)
        (seq (Z.to_nat i)
             (Nat.min (Z.to_nat j) (nrows df) - Nat.min (Z.to_nat i) (nrows df))).
Proof.
  unfold rows_of at 1.
  change (nrows (iloc df i j))
    with (Nat.min (Z.to_nat j) (nrows df) - Nat.min (Z.to_nat i) (nrows df))%nat.
  rewrite <- (seq_from (Z.to_nat i)), map_map. apply map_ext_in.
  intros k Hk. apply in_seq in Hk. apply row_at_iloc. lia.
Qed.

Lemma range_loop_rows df b :
  0 < b ->
  forall fuel i,
    0 <= i <= Z.of_nat (nrows df) ->
    (Z.to_nat (Z.of_nat (nrows df) - i) <= fuel)%nat ->
    List.concat (map (fun x => rows_of (iloc df x (x + b)))
                     (range_loop fuel i (Z.of_nat (nrows df)) b))
    = map (row_at df) (seq (Z.to_nat i) (nrows df - Z.to_nat i)).
Proof.
  intros Hb. induction fuel as [|fuel IH]; intros i Hi Hf.
  - simpl. replace (nrows df - Z.to_nat i)%nat with 0%nat by lia. reflexivity.
  - destruct (Z_lt_ge_dec i (Z.of_nat (nrows df))) as [Hlt|Hge].
    + cbn [range_loop].
      replace (0 <? b) with true by lia.
      replace (i <? Z.of_nat (nrows df)) with true by lia.
      cbn [andb orb map List.concat].
      rewrite rows_of_iloc.
      destruct (Z_le_gt_dec (i + b) (Z.of_nat (nrows df))) as [Hle|Hgt].
      * rewrite IH by lia. rewrite <- map_app. f_equal.
        replace (Nat.min (Z.to_nat (i + b)) (nrows df)
                 - Nat.min (Z.to_nat i) (nrows df))%nat
          with (Z.to_nat b) by lia.
        replace (Z.to_nat (i + b)) with (Z.to_nat i + Z.to_nat b)%nat by lia.
        rewrite <- seq_app. f_equal. lia.
      * rewrite range_loop_stop by lia. cbn [map List.concat].
        rewrite app_nil_r. f_equal. f_equal. lia.
    + rewrite range_loop_stop by lia.
      replace (nrows df - Z.to_nat i)%nat with 0%nat by lia. reflexivity.
Qed.

Lemma table_rows_append t rows data :
  table_rows t (table_append t rows data)
  = Some (match table_rows t data with Some l => l | None => [] end ++ rows)%list.
Proof.
  induction data as [|[n old] data IH]; simpl.
  - now rewrite String.eqb_refl.
  - destruct (String.eqb n t) eqn:E; simpl; now rewrite E.
Qed.

Lemma table_rows_append_other t t' rows data :
  String.eqb t' t = false ->
  table_rows t' (table_append t rows data) = table_rows t' data.
Proof.
  intros Hne. induction data as [|[n old] data IH]; simpl.
  - rewrite String.eqb_sym. now rewrite Hne.
  - destruct (String.eqb n t) eqn:E; simpl.
    + apply String.eqb_eq in E. subst n.
      rewrite (String.eqb_sym t t'). now rewrite Hne.
    + now rewrite IH.
Qed.

(** A view of what one accepted [to_sql] changes. *)
Lemma to_sql_accepted_rows batch t p :
  store_fails (world p) (store_ops (world p)) = false ->
  exists p',
    to_sql batch t p = (Return tt, p') /\
    stored_rows t p' = (stored_rows t p ++ rows_of batch)%list /\
    (forall t', String.eqb t' t = false -> stored_rows t' p' = stored_rows t' p) /\
    processing_log (db (world p')) = processing_log (db (world p)) /\
    data_quality_metrics (db (world p')) = data_quality_metrics (db (world p)) /\
    store_fails (world p') = store_fails (world p) /\
    store_ops (world p') = S (store_ops (world p)) /\
    trace (world p') = (trace (world p) ++ [ToSql t (nrows batch)])%list.
Proof.
  intros H. unfold to_sql, store_statement. run_monad. rewrite H. simpl.
  eexists. split; [reflexivity|]. unfold stored_rows. simpl.
  split; [now rewrite table_rows_append|].
  split; [intros t' Hne; now rewrite table_rows_append_other|].
  repeat split.
Qed.

Lemma to_sql_refused batch t p :
  store_fails (world p) (store_ops (world p)) = true ->
  exists p',
    to_sql batch t p = (Raise (LibraryError "SQLAlchemyError"), p') /\
    db (world p') = db (world p) /\
    trace (world p') = (trace (world p) ++ [ToSql t (nrows batch)])%list.
Proof.
  intros H. unfold to_sql, store_statement. run_monad. rewrite H. simpl.
  eexists. repeat split.
Qed.

Lemma insert_batches_rows df t b starts :
  forall total p,
    (forall k, store_fails (world p) k = false) ->
    exists p',
      insert_batches df t b starts total p
      = (Return (total + Z.of_nat (list_sum (map (batch_rows df b) starts))), p') /\
      stored_rows t p'
      = (stored_rows t p
         ++ List.concat (map (fun i => rows_of (iloc df i (i + b))) starts))%list /\
      (forall t', String.eqb t' t = false ->
                  stored_rows t' p' = stored_rows t' p) /\
      processing_log (db (world p')) = processing_log (db (world p)) /\
      data_quality_metrics (db (world p'))
      = data_quality_metrics (db (world p)).
Proof.
  induction starts as [|i starts IH]; intros total p Hok.
  - exists p. simpl. unfold ret. rewrite Z.add_0_r, app_nil_r. auto.
  - destruct (to_sql_accepted_rows (iloc df i (i + b)) t p (Hok _))
      as (p1 & Hrun & Hrows & Hother & Hlog & Hqm & Hsf & _ & _).
    destruct (IH (total + Z.of_nat (nrows (iloc df i (i + b)))) p1)
      as (p2 & Hrun2 & Hrows2 & Hother2 & Hlog2 & Hqm2).
    { intros k. rewrite Hsf. apply Hok. }
    exists p2. split; [|split; [|split; [|split]]].
    + cbn [insert_batches]. unfold bind at 1. rewrite Hrun. cbv beta iota.
      rewrite Hrun2. cbn [map list_sum]. f_equal. f_equal.
      change (list_sum (batch_rows df b i :: map (batch_rows df b) starts))
        with (nrows (iloc df i (i + b))
              + list_sum (map (batch_rows df b) starts))%nat.
      lia.
    + rewrite Hrows2, Hrows. cbn [map List.concat]. now rewrite <- app_assoc.
    + intros t' Hne. now rewrite Hother2, Hother.
    + congruence.
    + congruence.
Qed.

(** C6: with a positive batch size [b] and a store that accepts every
    statement, loading a table of [n] rows performs exactly ceil(n/b)
    inserts, whole batches of [b] rows followed by the remainder if there
    is one, and reports [n] rows; the inserts do write: the table then
    holds the rows it held followed by the [n] rows of the frame, so the
    reported total is the number of rows inserted.  2,500 rows in batches
    of 1,000 are three inserts of 1000, 1000 and 500 rows. *)
Theorem insert_dataframe_batches
        (df : DataFrame) (table_name : string) (b : Z) (p : Pipeline) :
  0 < b ->
  (forall k, store_fails (world p) k = false) ->
  exists p',
    insert_dataframe df table_name (Some b) p
    = (Return (Z.of_nat (nrows df)), p') /\
    trace (world p')
    = (trace (world p)
       ++ map (ToSql table_name) (expected_batches (Z.of_nat (nrows df)) b))%list /\
    Z.of_nat (length (expected_batches (Z.of_nat (nrows df)) b))
    = ceil_div (Z.of_nat (nrows df)) b /\
    (nrows df = 2500%nat -> b = 1000 ->
     trace (world p')
     = (trace (world p)
        ++ [ToSql table_name 1000; ToSql table_name 1000; ToSql table_name 500])%list) /\
    stored_rows table_name p' = (stored_rows table_name p ++ rows_of df)%list /\
    length (stored_rows table_name p')
    = (length (stored_rows table_name p) + nrows df)%nat.
Proof.
  intros Hb Hok.
  assert (Hor : py_or (Some b) Config.BATCH_SIZE = b)
    by (destruct b; simpl; [lia | reflexivity | reflexivity]).
  unfold insert_dataframe. rewrite Hor.
  destruct (insert_batches_accepted df table_name b
              (py_range 0 (Z.of_nat (nrows df)) b) 0 p Hok)
    as (p' & Hrun & Htr & _).
  destruct (insert_batches_rows df table_name b
              (py_range 0 (Z.of_nat (nrows df)) b) 0 p Hok)
    as (p'' & Hrun' & Hrows & _).
  rewrite Hrun in Hrun'. injection Hrun' as <-.
  assert (Hsizes : map (batch_rows df b) (py_range 0 (Z.of_nat (nrows df)) b)
                   = expected_batches (Z.of_nat (nrows df)) b).
  { unfold py_range.
    rewrite (range_loop_batches df b Hb) by lia.
    f_equal. lia. }
  assert (Hall : List.concat
                   (map (fun i => rows_of (iloc df i (i + b)))
                        (py_range 0 (Z.of_nat (nrows df)) b))
                 = rows_of df).
  { unfold py_range. rewrite (range_loop_rows df b Hb) by lia.
    unfold rows_of. f_equal. f_equal. lia. }
  rewrite Hsizes in Hrun, Htr. rewrite Hall in Hrows.
  rewrite expected_batches_sum in Hrun by lia.
  exists p'. split; [|split; [|split; [|split; [|split]]]].
  - unfold try_except. rewrite Hrun. f_equal. f_equal. lia.
  - exact Htr.
  - apply expected_batches_length; lia.
  - intros Hn ->. rewrite Htr, Hn. reflexivity.
  - exact Hrows.
  - now rewrite Hrows, length_app, rows_of_length.
Qed.

Lemma insert_dataframe_batches_witness :
  0 < 1000 /\
  (forall k, store_fails (prepared_world unreachable) k = false) /\
  exists p',
    insert_dataframe (frame_of_rows 2500) "processed_data" (Some 1000)
       (new_pipeline "run-1" (prepared_world unreachable))
    = (Return 2500, p') /\
    trace (world p')
    = [ToSql "processed_data" 1000; ToSql "processed_data" 1000;
       ToSql "processed_data" 500] /\
    length (stored_rows "processed_data" p') = 2500%nat.
Proof.
  split; [lia|]. split; [reflexivity|].
  destruct (insert_dataframe_batches (frame_of_rows 2500) "processed_data" 1000
              (new_pipeline "run-1" (prepared_world unreachable))
              ltac:(lia) (fun _ => eq_refl))
    as (p' & Hrun & _ & _ & Htr & _ & Hlen).
  exists p'. split; [exact Hrun|].
  split; [apply (Htr eq_refl eq_refl) | exact Hlen].
Defined.



Lemma firstn_seq_min m s n : firstn m (seq s n) = seq s (Nat.min m n).
Proof.
  revert s n. induction m as [|m IH]; intros s [|n]; simpl; try reflexivity.
  now rewrite IH.
Qed.

Lemma range_loop_prefix_rows df b :
  0 < b ->
  forall k fuel i,
    0 <= i ->
    i + Z.of_nat k * b <= Z.of_nat (nrows df) ->
    (Z.to_nat (Z.of_nat (nrows df) - i) <= fuel)%nat ->
    List.concat (map (fun x => rows_of (iloc df x (x + b)))
                     (firstn k (range_loop fuel i (Z.of_nat (nrows df)) b)))
    = map (row_at df) (seq (Z.to_nat i) (k * Z.to_nat b)).
Proof.
  intros Hb. induction k as [|k IH]; intros fuel i Hi Hk Hf.
  - reflexivity.
  - destruct fuel as [|fuel]; [lia|].
    cbn [range_loop].
    replace (0 <? b) with true by lia.
    replace (i <? Z.of_nat (nrows df)) with true by lia.
    cbn [andb orb firstn map List.concat].
    rewrite rows_of_iloc, IH by lia.
    rewrite <- map_app. f_equal.
    replace (Nat.min (Z.to_nat (i + b)) (nrows df)
             - Nat.min (Z.to_nat i) (nrows df))%nat
      with (Z.to_nat b) by lia.
    replace (Z.to_nat (i + b)) with (Z.to_nat i + Z.to_nat b)%nat by lia.
    rewrite <- seq_app. f_equal.
Qed.

Lemma range_loop_count df b k :
  0 < b ->
  Z.of_nat k * b < Z.of_nat (nrows df) ->
  (k < length (py_range 0 (Z.of_nat (nrows df)) b))%nat.
Proof.
  intros Hb Hk.
  assert (Hlen : length (py_range 0 (Z.of_nat (nrows df)) b)
                 = length (expected_batches (Z.of_nat (nrows df)) b)).
  { rewrite <- (length_map (batch_rows df b)). unfold py_range.
    rewrite (range_loop_batches df b Hb) by lia. f_equal. f_equal. lia. }
  pose proof (expected_batches_length (Z.of_nat (nrows df)) b ltac:(lia) Hb) as Hc.
  unfold ceil_div in Hc.
  assert (Z.of_nat k + 1 <= (Z.of_nat (nrows df) + b - 1) / b).
  { apply Z.div_le_lower_bound; lia. }
  lia.
Qed.

Lemma insert_batches_interrupted df t b :
  forall k starts total p,
    (k < length starts)%nat ->
    (forall j, (j < k)%nat ->
               store_fails (world p) (store_ops (world p) + j) = false) ->
    store_fails (world p) (store_ops (world p) + k) = true ->
    exists p',
      insert_batches df t b starts total p
      = (Raise (LibraryError "SQLAlchemyError"), p') /\
      stored_rows t p'
      = (stored_rows t p
         ++ List.concat (map (fun i => rows_of (iloc df i (i + b)))
                             (firstn k starts)))%list /\
      trace (world p')
      = (trace (world p)
         ++ map (ToSql t) (map (batch_rows df b) (firstn (S k) starts)))%list.
Proof.
  induction k as [|k IH]; intros [|i starts] total p Hlen Hok Hfail;
    simpl in Hlen; try lia.
  - rewrite Nat.add_0_r in Hfail.
    destruct (to_sql_refused (iloc df i (i + b)) t p Hfail)
      as (p1 & Hrun & Hdb & Htr).
    exists p1. split; [|split].
    + cbn [insert_batches]. now apply bind_raise.
    + unfold stored_rows. rewrite Hdb. simpl. now rewrite app_nil_r.
    + exact Htr.
  - assert (H0 : store_fails (world p) (store_ops (world p)) = false).
    { rewrite <- (Nat.add_0_r (store_ops (world p))). apply Hok. lia. }
    destruct (to_sql_accepted_rows (iloc df i (i + b)) t p H0)
      as (p1 & Hrun & Hrows & _ & _ & _ & Hsf & Hops & Htr).
    destruct (IH starts (total + Z.of_nat (nrows (iloc df i (i + b)))) p1)
      as (p2 & Hrun2 & Hrows2 & Htr2).
    { lia. }
    { intros j Hj. rewrite Hsf, Hops.
      replace (S (store_ops (world p)) + j)%nat
        with (store_ops (world p) + S j)%nat by lia.
      apply Hok. lia. }
    { rewrite Hsf, Hops.
      replace (S (store_ops (world p)) + k)%nat
        with (store_ops (world p) + S k)%nat by lia.
      exact Hfail. }
    exists p2. split; [|split].
    + cbn [insert_batches]. unfold bind at 1. rewrite Hrun. exact Hrun2.
    + rewrite Hrows2, Hrows. cbn [firstn map List.concat].
      now rewrite <- app_assoc.
    + rewrite Htr2, Htr. cbn [firstn map]. now rewrite <- app_assoc.
Qed.

(** X9: no rollback.  When the store accepts the first [k] batches and
    refuses the next one, the loader logs the failure and raises the
    store's error again; the [k] batches already written stay in the
    table: it holds its previous rows followed by the first [k * b] rows
    of the frame. *)
Theorem insert_dataframe_keeps_committed_batches
        (df : DataFrame) (table_name : string) (b : Z) (k : nat)
        (p : Pipeline) :
  0 < b ->
  Z.of_nat k * b < Z.of_nat (nrows df) ->
  (forall j, (j < k)%nat ->
             store_fails (world p) (store_ops (world p) + j) = false) ->
  store_fails (world p) (store_ops (world p) + k) = true ->
  exists p' attempts,
    insert_dataframe df table_name (Some b) p
    = (Raise (LibraryError "SQLAlchemyError"), p') /\
    stored_rows table_name p'
    = (stored_rows table_name p
       ++ firstn (k * Z.to_nat b) (rows_of df))%list /\
    length attempts = S k /\
    trace (world p')
    = (trace (world p) ++ map (ToSql table_name) attempts
       ++ [LoggerError "Failed to insert data"])%list.
Proof.
  intros Hb Hk Hok Hfail.
  assert (Hor : py_or (Some b) Config.BATCH_SIZE = b)
    by (destruct b; simpl; [lia | reflexivity | reflexivity]).
  unfold insert_dataframe. rewrite Hor.
  pose proof (range_loop_count df b k Hb Hk) as Hcount.
  destruct (insert_batches_interrupted df table_name b k
              (py_range 0 (Z.of_nat (nrows df)) b) 0 p Hcount Hok Hfail)
    as (p1 & Hrun & Hrows & Htr).
  eexists.
  exists (map (batch_rows df b)
              (firstn (S k) (py_range 0 (Z.of_nat (nrows df)) b))).
  split; [|split; [|split]].
  - unfold try_except. rewrite Hrun. run_monad. reflexivity.
  - simpl. unfold stored_rows in *. simpl. rewrite Hrows. f_equal.
    unfold py_range. rewrite (range_loop_prefix_rows df b Hb) by lia.
    unfold rows_of. rewrite firstn_map, firstn_seq_min. f_equal. f_equal.
    assert (Z.of_nat (k * Z.to_nat b) = Z.of_nat k * b) by lia. lia.
  - rewrite length_map, length_firstn. lia.
  - simpl. rewrite Htr. now rewrite <- app_assoc.
Qed.

Lemma insert_dataframe_keeps_committed_batches_witness :
  0 < 2 /\
  Z.of_nat 1 * 2 < Z.of_nat (nrows sample) /\
  exists p' (attempts : list nat),
    insert_dataframe sample "processed_data" (Some 2)
       (new_pipeline "run-1" flaky_store_world)
    = (Raise (LibraryError "SQLAlchemyError"), p') /\
    stored_rows "processed_data" p' = [[CInt 1; CNull]; [CInt 1; CNull]] /\
    length attempts = 2%nat.
Proof.
  split; [lia|]. split; [simpl; lia|].
  destruct (insert_dataframe_keeps_committed_batches sample "processed_data" 2 1
              (new_pipeline "run-1" flaky_store_world)
              ltac:(lia) ltac:(simpl; lia))
    as (p' & attempts & Hrun & Hrows & Hlen & _).
  - intros j Hj. destruct j; [reflexivity | lia].
  - reflexivity.
  - exists p', attempts. split; [exact Hrun|]. split; [exact Hrows | exact Hlen].
Defined.

(** X10: the batch size argument.  [None] and [0] both stand for the
    configured 1000 rows per batch; with a negative batch size the loader
    writes nothing, touches nothing and reports 0 rows. *)
Theorem insert_dataframe_batch_size_edge_cases
        (df : DataFrame) (table_name : string) (b : Z) (p : Pipeline) :
  insert_dataframe df table_name None p
    = insert_dataframe df table_name (Some Config.BATCH_SIZE) p /\
  insert_dataframe df table_name (Some 0) p
    = insert_dataframe df table_name (Some Config.BATCH_SIZE) p /\
  (b < 0 -> insert_dataframe df table_name (Some b) p = (Return 0, p)).
Proof.
  split; [reflexivity|]. split; [reflexivity|].
  intros Hb. unfold insert_dataframe.
  assert (Hor : py_or (Some b) Config.BATCH_SIZE = b)
    by (destruct b; simpl; [lia | lia | reflexivity]).
  rewrite Hor.
  assert (Hr : py_range 0 (Z.of_nat (nrows df)) b = []).
  { unfold py_range. destruct (Z.to_nat _); cbn [range_loop]; [reflexivity|].
    replace (0 <? b) with false by lia.
    assert (E : (Z.of_nat (nrows df) <? 0) = false) by (apply Z.ltb_ge; lia).
    rewrite E. now rewrite andb_false_r. }
  rewrite Hr. reflexivity.
Qed.

Lemma insert_dataframe_batch_size_edge_cases_witness :
  -5 < 0 /\
  insert_dataframe sample "processed_data" (Some (-5))
     (new_pipeline "run-1" (prepared_world unreachable))
  = (Return 0, new_pipeline "run-1" (prepared_world unreachable)).
Proof.
  split; [lia|].
  apply (proj2 (proj2 (insert_dataframe_batch_size_edge_cases sample
                         "processed_data" (-5)
                         (new_pipeline "run-1" (prepared_world unreachable))))).
  lia.
Defined.

(** *** Creating tables and asking for them *)

Lemma table_rows_some_in t data rows :
  table_rows t data = Some rows -> In t (map fst data).
Proof.
  induction data as [|[n old] data IH]; simpl; [discriminate|].
  destruct (String.eqb n t) eqn:E.
  - apply String.eqb_eq in E. intros _. now left.
  - intros H. right. now apply IH.
Qed.

Lemma table_rows_new_table t t' data :
  table_rows t data = None ->
  match table_rows t' (data ++ [(t, [])]) with Some l => l | None => [] end
  = match table_rows t' data with Some l => l | None => [] end.
Proof.
  intros Hnone. induction data as [|[n old] data IH]; simpl in *.
  - now destruct (String.eqb t t').
  - destruct (String.eqb n t) eqn:E; [discriminate|].
    destruct (String.eqb n t'); [reflexivity | now apply IH].
Qed.

Lemma table_rows_new_table_found t data :
  table_rows t data = None -> table_rows t (data ++ [(t, [])]) = Some [].
Proof.
  intros Hnone. induction data as [|[n old] data IH]; simpl in *.
  - now rewrite String.eqb_refl.
  - destruct (String.eqb n t); [discriminate | now apply IH].
Qed.

Lemma create_if_absent_idempotent d :
  create_if_absent (create_if_absent d) = create_if_absent d.
Proof.
  unfold create_if_absent. cbn [data_tables processing_log data_quality_metrics].
  f_equal.
  - destruct (table_rows "processed_data" (data_tables d)) eqn:E.
    + now rewrite E.
    + now rewrite (table_rows_new_table_found _ _ E).
  - now destruct (processing_log d).
  - now destruct (data_quality_metrics d).
Qed.

Lemma create_tables_effect d :
  create_table "data_quality_metrics"
    (create_table "processing_log" (create_table "processed_data" d))
  = create_if_absent d.
Proof. reflexivity. Qed.

Lemma create_table_rows t t' d :
  match table_rows t' (data_tables (create_table t d)) with
  | Some l => l | None => []
  end
  = match table_rows t' (data_tables d) with Some l => l | None => [] end.
Proof.
  unfold create_table.
  destruct (String.eqb t "processing_log"); [reflexivity|].
  destruct (String.eqb t "data_quality_metrics"); [reflexivity|].
  cbn [data_tables].
  destruct (table_rows t (data_tables d)) eqn:E;
    [reflexivity | now apply table_rows_new_table].
Qed.

Lemma create_table_keeps_entries t d :
  (forall l, processing_log d = Some l ->
             processing_log (create_table t d) = Some l) /\
  (forall l, data_quality_metrics d = Some l ->
             data_quality_metrics (create_table t d) = Some l).
Proof.
  unfold create_table.
  destruct (String.eqb t "processing_log");
    [|destruct (String.eqb t "data_quality_metrics")];
    cbn [processing_log data_quality_metrics];
    split; intros l Hl; try rewrite Hl; auto.
Qed.

Lemma tables_after_keeps k d :
  (forall t, match table_rows t (data_tables (tables_after k d)) with
             | Some l => l | None => []
             end
             = match table_rows t (data_tables d) with
               | Some l => l | None => []
               end) /\
  (forall l, processing_log d = Some l ->
             processing_log (tables_after k d) = Some l) /\
  (forall l, data_quality_metrics d = Some l ->
             data_quality_metrics (tables_after k d) = Some l).
Proof.
  unfold tables_after.
  generalize (firstn k ["processed_data"; "processing_log";
                        "data_quality_metrics"]).
  intros names. revert d.
  induction names as [|t names IH]; intros d; cbn [fold_left].
  - repeat split; auto.
  - destruct (IH (create_table t d)) as (Hrows & Hlog & Hqm).
    destruct (create_table_keeps_entries t d) as (Hlog1 & Hqm1).
    split; [intros t'; rewrite Hrows; apply create_table_rows|].
    split; intros l Hl; auto.
Qed.

(** The run of [create_tables], by the first statement the store refuses:
    the tables made before it stay. *)
Lemma create_tables_refused p k :
  (k < 10)%nat ->
  (forall j, (j < k)%nat ->
             store_fails (world p) (j + store_ops (world p)) = false) ->
  store_fails (world p) (k + store_ops (world p)) = true ->
  exists p',
    create_tables p = (Raise (LibraryError "SQLAlchemyError"), p') /\
    db (world p') = tables_after k (db (world p)) /\
    trace (world p')
    = (trace (world p)
       ++ [CreateTables; LoggerError "Failed to create tables"])%list /\
    store_fails (world p') = store_fails (world p).
Proof.
  intros Hk Hacc Hrej.
  pose proof (Hacc 0%nat) as A0. pose proof (Hacc 1%nat) as A1.
  pose proof (Hacc 2%nat) as A2. pose proof (Hacc 3%nat) as A3.
  pose proof (Hacc 4%nat) as A4. pose proof (Hacc 5%nat) as A5.
  pose proof (Hacc 6%nat) as A6. pose proof (Hacc 7%nat) as A7.
  pose proof (Hacc 8%nat) as A8.
  cbn [Nat.add] in A0, A1, A2, A3, A4, A5, A6, A7, A8.
  unfold create_tables, execute_each, indexes, execute, store_statement.
  do 10 (destruct k as [|k];
         [cbn [Nat.add] in Hrej; run_monad;
          repeat (first [ rewrite Hrej | rewrite A0 by lia | rewrite A1 by lia
                        | rewrite A2 by lia | rewrite A3 by lia
                        | rewrite A4 by lia | rewrite A5 by lia
                        | rewrite A6 by lia | rewrite A7 by lia
                        | rewrite A8 by lia ]; simpl);
          eexists; split; [reflexivity|]; simpl;
          split; [reflexivity|]; split; [|reflexivity];
          rewrite <- ?app_assoc; reflexivity
         |]).
  lia.
Qed.

Lemma create_tables_accepted p :
  (forall j, (j < 10)%nat ->
             store_fails (world p) (j + store_ops (world p)) = false) ->
  exists p',
    create_tables p = (Return tt, p') /\
    db (world p') = create_if_absent (db (world p)) /\
    trace (world p') = (trace (world p) ++ [CreateTables])%list /\
    store_fails (world p') = store_fails (world p).
Proof.
  intros Hacc.
  pose proof (Hacc 0%nat) as A0. pose proof (Hacc 1%nat) as A1.
  pose proof (Hacc 2%nat) as A2. pose proof (Hacc 3%nat) as A3.
  pose proof (Hacc 4%nat) as A4. pose proof (Hacc 5%nat) as A5.
  pose proof (Hacc 6%nat) as A6. pose proof (Hacc 7%nat) as A7.
  pose proof (Hacc 8%nat) as A8. pose proof (Hacc 9%nat) as A9.
  cbn [Nat.add] in A0, A1, A2, A3, A4, A5, A6, A7, A8, A9.
  unfold create_tables, execute_each, indexes, execute, store_statement.
  run_monad.
  repeat (first [ rewrite A0 by lia | rewrite A1 by lia | rewrite A2 by lia
                | rewrite A3 by lia | rewrite A4 by lia | rewrite A5 by lia
                | rewrite A6 by lia | rewrite A7 by lia | rewrite A8 by lia
                | rewrite A9 by lia ]; simpl).
  eexists. split; [reflexivity|]. simpl.
  split; [reflexivity|]. split; reflexivity.
Qed.

(** X11: creating the tables never loses anything, and it is not atomic.
    When the store accepts its ten statements (three tables, six indexes,
    the commit), every table holds the rows it held, both audit tables
    keep their entries, the three tables exist afterwards, and creating
    them once more would change nothing.  When the store refuses one of
    them, the error is logged and raised, and the tables created by the
    statements before it stay, again with every row and entry kept. *)
Theorem create_tables_keeps_what_exists (p : Pipeline) :
  ((forall j, (j < 10)%nat ->
              store_fails (world p) (store_ops (world p) + j) = false) ->
   exists p',
     create_tables p = (Return tt, p') /\
     db (world p') = create_if_absent (db (world p)) /\
     (forall t, stored_rows t p' = stored_rows t p) /\
     (forall l, processing_log (db (world p)) = Some l ->
                processing_log (db (world p')) = Some l) /\
     (forall l, data_quality_metrics (db (world p)) = Some l ->
                data_quality_metrics (db (world p')) = Some l) /\
     (forall t, In t ["processed_data"; "processing_log"; "data_quality_metrics"] ->
                In t (table_names (db (world p')))) /\
     create_if_absent (db (world p')) = db (world p')) /\
  (forall k,
     (k < 10)%nat ->
     (forall j, (j < k)%nat ->
                store_fails (world p) (store_ops (world p) + j) = false) ->
     store_fails (world p) (store_ops (world p) + k) = true ->
     exists p',
       create_tables p = (Raise (LibraryError "SQLAlchemyError"), p') /\
       db (world p') = tables_after k (db (world p)) /\
       (forall t, stored_rows t p' = stored_rows t p) /\
       (forall l, processing_log (db (world p)) = Some l ->
                  processing_log (db (world p')) = Some l) /\
       (forall l, data_quality_metrics (db (world p)) = Some l ->
                  data_quality_metrics (db (world p')) = Some l) /\
       trace (world p')
       = (trace (world p)
          ++ [CreateTables; LoggerError "Failed to create tables"])%list).
Proof.
  split.
  - intros Hacc.
    destruct (create_tables_accepted p) as (p' & Hrun & Hdb & _).
    { intros j Hj. rewrite Nat.add_comm. now apply Hacc. }
    exists p'. split; [exact Hrun|]. split; [exact Hdb|].
    destruct (tables_after_keeps 3 (db (world p))) as (Hrows & Hlog & Hqm).
    change (tables_after 3 (db (world p)))
      with (create_if_absent (db (world p))) in Hrows, Hlog, Hqm.
    split; [intros t; unfold stored_rows; rewrite Hdb; apply Hrows|].
    split; [intros l Hl; rewrite Hdb; now apply Hlog|].
    split; [intros l Hl; rewrite Hdb; now apply Hqm|].
    split; [|rewrite Hdb; apply create_if_absent_idempotent].
    intros t Ht. rewrite Hdb. unfold table_names, create_if_absent.
    cbn [data_tables processing_log data_quality_metrics].
    assert (Hpd : In "processed_data"
              (map fst (match table_rows "processed_data"
                                (data_tables (db (world p))) with
                        | Some _ => data_tables (db (world p))
                        | None => (data_tables (db (world p))
                                   ++ [("processed_data", [])])%list
                        end))).
    { destruct (table_rows "processed_data" (data_tables (db (world p)))) eqn:E.
      - eapply table_rows_some_in; eassumption.
      - rewrite map_app. apply in_or_app. right. now left. }
    rewrite !in_app_iff.
    destruct (processing_log (db (world p))),
             (data_quality_metrics (db (world p)));
      simpl in *; intuition (subst; auto).
  - intros k Hk Hacc Hrej.
    destruct (create_tables_refused p k Hk) as (p' & Hrun & Hdb & Htr & _).
    { intros j Hj. rewrite Nat.add_comm. now apply Hacc. }
    { now rewrite Nat.add_comm. }
    exists p'. split; [exact Hrun|]. split; [exact Hdb|].
    destruct (tables_after_keeps k (db (world p))) as (Hrows & Hlog & Hqm).
    split; [intros t; unfold stored_rows; rewrite Hdb; apply Hrows|].
    split; [intros l Hl; rewrite Hdb; now apply Hlog|].
    split; [intros l Hl; rewrite Hdb; now apply Hqm | exact Htr].
Qed.

Lemma create_tables_keeps_what_exists_witness :
  (forall j, (j < 3)%nat ->
             store_fails index_refusing_world
                         (store_ops index_refusing_world + j) = false) /\
  store_fails index_refusing_world (store_ops index_refusing_world + 3) = true /\
  exists p',
    create_tables (new_pipeline "run-1" index_refusing_world)
      = (Raise (LibraryError "SQLAlchemyError"), p') /\
    table_names (db (world p'))
    = ["processed_data"; "processing_log"; "data_quality_metrics"].
Proof.
  assert (Hacc : forall j, (j < 3)%nat ->
                   store_fails index_refusing_world
                     (store_ops index_refusing_world + j) = false).
  { intros j Hj. destruct j as [|[|[|j]]]; [reflexivity..|lia]. }
  split; [exact Hacc|]. split; [reflexivity|].
  destruct (proj2 (create_tables_keeps_what_exists
                     (new_pipeline "run-1" index_refusing_world))
                  3%nat ltac:(lia) Hacc eq_refl)
    as (p' & Hrun & Hdb & _).
  exists p'. split; [exact Hrun|]. rewrite Hdb. reflexivity.
Defined.

(** X12: asking whether a table exists never raises and changes no table:
    when the inspection is accepted the answer says whether the name is a
    table of the database, and when it is refused the answer is False, also
    for a table that exists. *)
Theorem table_exists_answer (table_name : string) (p : Pipeline) :
  exists answer p',
    table_exists table_name p = (Return answer, p') /\
    db (world p') = db (world p) /\
    (store_fails (world p) (store_ops (world p)) = false ->
     (answer = true <-> In table_name (table_names (db (world p))))) /\
    (store_fails (world p) (store_ops (world p)) = true -> answer = false).
Proof.
  unfold table_exists, store_statement. run_monad.
  destruct (store_fails (world p) (store_ops (world p))) eqn:E; simpl;
    eexists; eexists; (split; [reflexivity|]); simpl;
    (split; [reflexivity|]); split; intros H; try discriminate; try reflexivity.
  split.
  - intros Hex. apply existsb_exists in Hex as (x & Hx & Heq).
    apply String.eqb_eq in Heq. now subst.
  - intros Hin. apply existsb_exists. exists table_name.
    split; [exact Hin | apply String.eqb_refl].
Qed.

Lemma table_exists_answer_witness :
  store_fails (prepared_world unreachable)
              (store_ops (prepared_world unreachable)) = false /\
  exists p',
    table_exists "processed_data"
      (new_pipeline "run-1" (prepared_world unreachable)) = (Return true, p').
Proof.
  split; [reflexivity|].
  destruct (table_exists_answer "processed_data"
              (new_pipeline "run-1" (prepared_world unreachable)))
    as (answer & p' & Hrun & _ & Hyes & _).
  exists p'. rewrite Hrun. f_equal. f_equal.
  apply (Hyes eq_refl). simpl. auto.
Defined.

(** *** What an audit write leaves behind *)

(** X13: each of the two recorder operations returns normally and either
    appends exactly its entry to its own table, when the table exists and
    the write is accepted, or leaves the database as it was; it never
    touches the data tables or the other audit table. *)
Theorem audit_write_appends_or_skips
        (entry : LogEntry) (snapshot : MetricsEntry) (p : Pipeline) :
  (exists p',
      log_processing_status entry p = (Return tt, p') /\
      data_tables (db (world p')) = data_tables (db (world p)) /\
      data_quality_metrics (db (world p')) = data_quality_metrics (db (world p)) /\
      processing_log (db (world p'))
      = (if status_write_accepted p
         then option_map (fun l => (l ++ [entry])%list)
                         (processing_log (db (world p)))
         else processing_log (db (world p)))) /\
  (exists p',
      log_data_quality_metrics snapshot p = (Return tt, p') /\
      data_tables (db (world p')) = data_tables (db (world p)) /\
      processing_log (db (world p')) = processing_log (db (world p)) /\
      data_quality_metrics (db (world p'))
      = (if negb (audit_fails (world p) (audit_ops (world p)))
            && is_some (data_quality_metrics (db (world p)))
         then option_map (fun l => (l ++ [snapshot])%list)
                         (data_quality_metrics (db (world p)))
         else data_quality_metrics (db (world p)))).
Proof.
  unfold log_processing_status, log_data_quality_metrics, audit_statement,
    status_write_accepted.
  split; run_monad;
    destruct (audit_fails (world p) (audit_ops (world p))) eqn:Ea; simpl.
  - eexists. repeat split.
  - destruct (processing_log (db (world p))) eqn:El; simpl; rewrite ?El;
      eexists; (split; [reflexivity|]); simpl; rewrite ?El; repeat split.
  - eexists. repeat split.
  - destruct (data_quality_metrics (db (world p))) eqn:El; simpl; rewrite ?El;
      eexists; (split; [reflexivity|]); simpl; rewrite ?El; repeat split.
Qed.

(** *** Downloading *)

Lemma log_execution_time_returns {A} (fname : string) (f : M A) p a p1 :
  f (ticked p) = (Return a, p1) ->
  log_execution_time fname f p = (Return a, ticked p1).
Proof.
  intros H. unfold log_execution_time.
  erewrite bind_return by reflexivity.
  apply try_except_return.
  erewrite bind_return by exact H.
  reflexivity.
Qed.

Lemma download_file_body_no_directory url path p e p1 :
  makedirs (dirname path) p = (Raise e, p1) ->
  download_file_body url path p
  = (Return false, logged (LoggerError "Failed to download file") p1).
Proof.
  intros H. unfold download_file_body, try_except.
  rewrite (bind_raise _ _ _ _ _ H). reflexivity.
Qed.

Lemma download_file_body_request url path p p1 :
  makedirs (dirname path) p = (Return tt, p1) ->
  download_file_body url path p
  = match remote (world p1) with
    | TransportError _ =>
        (Return false,
         logged (LoggerError "Failed to download file")
                (logged (NetGet url) p1))
    | Body c =>
        if refuses_write path p1
        then (Return false,
              logged (LoggerError "Failed to download file")
                     (logged (NetGet url) p1))
        else (Return true, with_file path c (logged (NetGet url) p1))
    | BrokenStream c _ =>
        if refuses_write path p1
        then (Return false,
              logged (LoggerError "Failed to download file")
                     (logged (NetGet url) p1))
        else (Return false,
              logged (LoggerError "Failed to download file")
                     (with_file path c (logged (NetGet url) p1)))
    end.
Proof.
  intros H. unfold download_file_body, try_except.
  rewrite (bind_return _ _ _ _ _ H).
  unfold open_wb, refuses_write.
  unfold bind, ret, raise, get, modify, modify_world, emit.
  cbn -[names_directory].
  destruct (remote (world p1)); [reflexivity| |];
    (destruct (names_directory path); [reflexivity|]);
    cbn -[names_directory];
    destruct (fs (world p1) path) as [[c0|]|]; reflexivity.
Qed.

Lemma makedirs_download_dir p :
  makedirs (dirname Config.DOWNLOAD_PATH) p
  = match fs (world p) (dirname Config.DOWNLOAD_PATH) with
    | Some (File _) => (Raise (OSError "[Errno 17] File exists"), p)
    | Some Directory => (Return tt, p)
    | None =>
        (Return tt,
         set_world (set_fs (fs_mkdir (dirname Config.DOWNLOAD_PATH)
                                     (fs (world p))) (world p)) p)
    end.
Proof.
  change (dirname Config.DOWNLOAD_PATH) with "data".
  change (makedirs "data") with (make_each ["data"]).
  cbn [make_each]. unfold bind, get.
  destruct (fs (world p) "data") as [[c|]|]; reflexivity.
Qed.



(** X15: the fetch step and its cache.  With nothing at the download path
    and a regular file where the download directory should be, the step
    reports failure without any request and without writing anything.
    With the directory there or makeable, a complete download succeeds,
    and a later fetch finds the file and sends nothing; a stream that
    breaks reports failure but leaves its partial file behind, which a
    later fetch accepts as the source without any request; a transport
    error reports failure and leaves no file. *)
Theorem download_step_then_cached (p : Pipeline) :
  fs (world p) Config.DOWNLOAD_PATH = None ->
  ((exists c, fs (world p) (dirname Config.DOWNLOAD_PATH) = Some (File c)) ->
   exists p',
     _download_file p = (Return false, p') /\
     fs (world p') = fs (world p) /\
     trace (world p')
     = (trace (world p)
        ++ [LoggerError "Failed to download file";
            LoggerError "Failed to download CSV file"])%list) /\
  ((forall c, fs (world p) (dirname Config.DOWNLOAD_PATH) <> Some (File c)) ->
   (forall c, remote (world p) = Body c ->
      exists p',
        _download_file p = (Return true, p') /\
        fs (world p') Config.DOWNLOAD_PATH = Some (File c) /\
        fs (world p') (dirname Config.DOWNLOAD_PATH) = Some Directory /\
        _download_file p' = (Return true, p')) /\
   (forall c msg, remote (world p) = BrokenStream c msg ->
      exists p',
        _download_file p = (Return false, p') /\
        fs (world p') Config.DOWNLOAD_PATH = Some (File c) /\
        _download_file p' = (Return true, p')) /\
   (forall msg, remote (world p) = TransportError msg ->
      exists p',
        _download_file p = (Return false, p') /\
        fs (world p') Config.DOWNLOAD_PATH = None)).
Proof.
  intros Hnone.
  assert (Hex : path_exists Config.DOWNLOAD_PATH p = (Return false, p))
    by (unfold path_exists; run_monad; now rewrite Hnone).
  split.
  - intros (c0 & Hc0).
    assert (Hmk : makedirs (dirname Config.DOWNLOAD_PATH) (ticked p)
                  = (Raise (OSError "[Errno 17] File exists"), ticked p)).
    { rewrite makedirs_download_dir.
      cbn [ticked world set_world fs set_ticks]. now rewrite Hc0. }
    pose proof (log_execution_time_returns "download_file" _ p _ _
                  (download_file_body_no_directory
                     Config.CSV_URL _ _ _ _ Hmk)) as Hdl.
    eexists. split.
    { unfold _download_file. rewrite (bind_return _ _ _ _ _ Hex). cbv iota.
      unfold download_file. rewrite (bind_return _ _ _ _ _ Hdl).
      reflexivity. }
    cbn. split; [reflexivity|]. now rewrite <- app_assoc.
  - intros Hfree.
    assert (Hmk : exists p1,
               makedirs (dirname Config.DOWNLOAD_PATH) (ticked p)
               = (Return tt, p1) /\
               fs (world p1) Config.DOWNLOAD_PATH = None /\
               fs (world p1) (dirname Config.DOWNLOAD_PATH) = Some Directory /\
               remote (world p1) = remote (world p)).
    { rewrite makedirs_download_dir.
      cbn [ticked world set_world fs set_ticks].
      destruct (fs (world p) (dirname Config.DOWNLOAD_PATH))
        as [[c0|]|] eqn:E.
      - exfalso. now apply (Hfree c0).
      - eexists. split; [reflexivity|].
        cbn [ticked world set_world fs set_fs set_ticks remote]. auto.
      - eexists. split; [reflexivity|].
        cbn [ticked world set_world fs set_fs set_ticks remote].
        split; [rewrite fs_mkdir_other by reflexivity; exact Hnone|].
        split; [unfold fs_mkdir; now rewrite String.eqb_refl | reflexivity]. }
    destruct Hmk as (p1 & Hmk & Hnone1 & Hdir1 & Hremote1).
    pose proof (download_file_body_request Config.CSV_URL _ _ _ Hmk) as Hbody.
    unfold refuses_write in Hbody. rewrite Hnone1, Hremote1 in Hbody.
    change (names_directory Config.DOWNLOAD_PATH) with false in Hbody.
    cbn [orb] in Hbody.
    split; [|split].
    + intros c Hc. rewrite Hc in Hbody.
      pose proof (log_execution_time_returns "download_file" _ p _ _ Hbody)
        as Hdl.
      eexists. split.
      { unfold _download_file. rewrite (bind_return _ _ _ _ _ Hex). cbv iota.
        unfold download_file. rewrite (bind_return _ _ _ _ _ Hdl).
        reflexivity. }
      assert (Hfile : fs (world (ticked (with_file Config.DOWNLOAD_PATH c
                                  (logged (NetGet Config.CSV_URL) p1))))
                        Config.DOWNLOAD_PATH = Some (File c))
        by reflexivity.
      split; [exact Hfile|].
      split; [cbn; rewrite <- Hdir1; reflexivity|].
      apply (download_file_cached _ c). exact Hfile.
    + intros c msg Hc. rewrite Hc in Hbody.
      pose proof (log_execution_time_returns "download_file" _ p _ _ Hbody)
        as Hdl.
      eexists. split.
      { unfold _download_file. rewrite (bind_return _ _ _ _ _ Hex). cbv iota.
        unfold download_file. rewrite (bind_return _ _ _ _ _ Hdl).
        reflexivity. }
      assert (Hfile : fs (world (logged (LoggerError "Failed to download CSV file")
                           (ticked (logged (LoggerError "Failed to download file")
                              (with_file Config.DOWNLOAD_PATH c
                                 (logged (NetGet Config.CSV_URL) p1))))))
                        Config.DOWNLOAD_PATH = Some (File c))
        by reflexivity.
      split; [exact Hfile|].
      apply (download_file_cached _ c). exact Hfile.
    + intros msg Hc. rewrite Hc in Hbody.
      pose proof (log_execution_time_returns "download_file" _ p _ _ Hbody)
        as Hdl.
      eexists. split.
      { unfold _download_file. rewrite (bind_return _ _ _ _ _ Hex). cbv iota.
        unfold download_file. rewrite (bind_return _ _ _ _ _ Hdl).
        reflexivity. }
      cbn. exact Hnone1.
Qed.

Lemma download_step_then_cached_witness :
  fs blocked_world Config.DOWNLOAD_PATH = None /\
  (exists c, fs blocked_world (dirname Config.DOWNLOAD_PATH) = Some (File c)) /\
  fs (broken_world (fun _ => ParseFailure "unexpected end of data"))
     Config.DOWNLOAD_PATH = None /\
  (forall c, fs (broken_world (fun _ => ParseFailure "unexpected end of data"))
                (dirname Config.DOWNLOAD_PATH) <> Some (File c)) /\
  (exists p',
     _download_file (new_pipeline "run-1" blocked_world) = (Return false, p') /\
     trace (world p')
     = [LoggerError "Failed to download file";
        LoggerError "Failed to download CSV file"]) /\
  (exists p',
     _download_file
       (new_pipeline "run-1"
          (broken_world (fun _ => ParseFailure "unexpected end of data")))
     = (Return false, p') /\
     _download_file p' = (Return true, p')).
Proof.
  assert (Hblocked : exists c, fs blocked_world (dirname Config.DOWNLOAD_PATH)
                               = Some (File c))
    by (eexists; reflexivity).
  assert (Hfree : forall c,
             fs (broken_world (fun _ => ParseFailure "unexpected end of data"))
                (dirname Config.DOWNLOAD_PATH) <> Some (File c))
    by (intros c; discriminate).
  split; [reflexivity|]. split; [exact Hblocked|].
  split; [reflexivity|]. split; [exact Hfree|].
  split.
  - destruct (proj1 (download_step_then_cached
                       (new_pipeline "run-1" blocked_world) eq_refl) Hblocked)
      as (p' & Hrun & _ & Htrace).
    exists p'. split; [exact Hrun | exact Htrace].
  - destruct (proj1 (proj2 (proj2 (download_step_then_cached
                (new_pipeline "run-1"
                   (broken_world (fun _ => ParseFailure "unexpected end of data")))
                eq_refl) Hfree))
                (fun _ => ParseFailure "unexpected end of data")
                "connection reset" eq_refl)
      as (p' & Hrun & _ & Hagain).
    exists p'. split; [exact Hrun | exact Hagain].
Defined.

(** *** What a run leaves unchanged *)

Lemma keeps_ret {A B} (f : Pipeline -> B) (a : A) : keeps_field f (ret a).
Proof. intros p. reflexivity. Qed.

Lemma keeps_raise {A B} (f : Pipeline -> B) e : keeps_field f (@raise A e).
Proof. intros p. reflexivity. Qed.

Lemma keeps_get {B} (f : Pipeline -> B) : keeps_field f get.
Proof. intros p. reflexivity. Qed.

Lemma keeps_bind {A C B} (f : Pipeline -> B) (m : M A) (k : A -> M C) :
  keeps_field f m -> (forall a, keeps_field f (k a)) ->
  keeps_field f (bind m k).
Proof.
  intros Hm Hk p. unfold bind. specialize (Hm p).
  destruct (m p) as [[a|e] p1]; simpl in *; [|exact Hm].
  now rewrite (Hk a p1).
Qed.

Lemma keeps_try {A B} (f : Pipeline -> B) (m : M A) (h : exn -> M A) :
  keeps_field f m -> (forall e, keeps_field f (h e)) ->
  keeps_field f (try_except m h).
Proof.
  intros Hm Hh p. unfold try_except. specialize (Hm p).
  destruct (m p) as [[a|e] p1]; simpl in *; [exact Hm|].
  now rewrite (Hh e p1).
Qed.

Lemma keeps_modify {B} (f : Pipeline -> B) g :
  (forall p, f (g p) = f p) -> keeps_field f (modify g).
Proof. intros H p. apply H. Qed.

Create HintDb keeps_db.

Ltac kp_step :=
  lazymatch goal with
  | |- keeps_field _ (bind _ _) => apply keeps_bind; [| intros ?]
  | |- keeps_field _ (try_except _ _) => apply keeps_try; [| intros ?]
  | |- keeps_field _ (ret _) => apply keeps_ret
  | |- keeps_field _ (raise _) => apply keeps_raise
  | |- keeps_field _ get => apply keeps_get
  | |- keeps_field _ (match ?c with _ => _ end) => destruct c
  | |- keeps_field _ _ => solve [eauto with keeps_db]
  end.

Ltac kp := repeat kp_step.

Section ObjectFields.
Context {pandas : PandasLib}.
Context {B : Type} (f : Pipeline -> B).
Hypothesis f_world : forall w p, f (set_world w p) = f p.
Hypothesis f_total : forall n p, f (set_total_rows n p) = f p.
Hypothesis f_processed : forall n p, f (set_processed_rows n p) = f p.

Lemma keeps_modify_world g : keeps_field f (modify_world g).
Proof. apply keeps_modify. intros p. apply f_world. Qed.
Hint Resolve keeps_modify_world : keeps_db.

Lemma keeps_emit e : keeps_field f (emit e).
Proof. apply keeps_modify_world. Qed.
Hint Resolve keeps_emit : keeps_db.

Lemma keeps_now : keeps_field f now.
Proof. unfold now. kp. Qed.
Hint Resolve keeps_now : keeps_db.

Lemma keeps_log_execution_time {A} n (m : M A) :
  keeps_field f m -> keeps_field f (log_execution_time n m).
Proof. intros H. unfold log_execution_time. kp. Qed.

Lemma keeps_path_exists x : keeps_field f (path_exists x).
Proof. unfold path_exists. kp. Qed.
Hint Resolve keeps_path_exists : keeps_db.

Lemma keeps_make_each chain : keeps_field f (make_each chain).
Proof. induction chain as [|d rest IH]; cbn [make_each]; kp. Qed.
Hint Resolve keeps_make_each : keeps_db.

Lemma keeps_makedirs x : keeps_field f (makedirs x).
Proof. unfold makedirs. kp. Qed.
Hint Resolve keeps_makedirs : keeps_db.

Lemma keeps_open_wb x : keeps_field f (open_wb x).
Proof. unfold open_wb. kp. Qed.
Hint Resolve keeps_open_wb : keeps_db.

Lemma keeps_download_file url x : keeps_field f (download_file url x).
Proof.
  unfold download_file, download_file_body.
  apply keeps_log_execution_time. kp.
Qed.
Hint Resolve keeps_download_file : keeps_db.

Lemma keeps__download_file : keeps_field f _download_file.
Proof. unfold _download_file. kp. Qed.
Hint Resolve keeps__download_file : keeps_db.

Lemma keeps_read_csv_in_chunks x n : keeps_field f (read_csv_in_chunks x n).
Proof.
  unfold read_csv_in_chunks. kp.
  apply keeps_modify. intros p. apply f_total.
Qed.
Hint Resolve keeps_read_csv_in_chunks : keeps_db.

Lemma keeps__read_and_process_data : keeps_field f _read_and_process_data.
Proof. unfold _read_and_process_data. kp. Qed.
Hint Resolve keeps__read_and_process_data : keeps_db.

Lemma keeps_clean_data df : keeps_field f (clean_data df).
Proof.
  unfold clean_data. kp. apply keeps_modify. intros p. apply f_processed.
Qed.
Hint Resolve keeps_clean_data : keeps_db.

Lemma keeps_store_statement : keeps_field f store_statement.
Proof. unfold store_statement. kp. Qed.
Hint Resolve keeps_store_statement : keeps_db.

Lemma keeps_audit_statement b : keeps_field f (audit_statement b).
Proof. unfold audit_statement. kp. Qed.
Hint Resolve keeps_audit_statement : keeps_db.

Lemma keeps_table_exists t : keeps_field f (table_exists t).
Proof. unfold table_exists. kp. Qed.
Hint Resolve keeps_table_exists : keeps_db.

Lemma keeps_execute sql : keeps_field f (execute sql).
Proof. unfold execute. kp. Qed.
Hint Resolve keeps_execute : keeps_db.

Lemma keeps_execute_each statements : keeps_field f (execute_each statements).
Proof. induction statements as [|sql rest IH]; cbn [execute_each]; kp. Qed.
Hint Resolve keeps_execute_each : keeps_db.

Lemma keeps_create_tables : keeps_field f create_tables.
Proof. unfold create_tables. kp. Qed.
Hint Resolve keeps_create_tables : keeps_db.

Lemma keeps_to_sql batch t : keeps_field f (to_sql batch t).
Proof. unfold to_sql. kp. Qed.
Hint Resolve keeps_to_sql : keeps_db.

Lemma keeps_insert_batches df t b starts :
  forall total, keeps_field f (insert_batches df t b starts total).
Proof. induction starts as [|i starts IH]; intros total; simpl; kp. Qed.
Hint Resolve keeps_insert_batches : keeps_db.

Lemma keeps_insert_dataframe df t b : keeps_field f (insert_dataframe df t b).
Proof. unfold insert_dataframe. kp. Qed.
Hint Resolve keeps_insert_dataframe : keeps_db.

Lemma keeps_log_processing_status e : keeps_field f (log_processing_status e).
Proof. unfold log_processing_status. kp. Qed.
Hint Resolve keeps_log_processing_status : keeps_db.

Lemma keeps_log_data_quality_metrics e :
  keeps_field f (log_data_quality_metrics e).
Proof. unfold log_data_quality_metrics. kp. Qed.
Hint Resolve keeps_log_data_quality_metrics : keeps_db.

Lemma keeps__validate_data_quality df :
  keeps_field f (_validate_data_quality df).
Proof. unfold _validate_data_quality. kp. Qed.
Hint Resolve keeps__validate_data_quality : keeps_db.

Lemma keeps__store_data_in_database df :
  keeps_field f (_store_data_in_database df).
Proof. unfold _store_data_in_database. kp. Qed.
Hint Resolve keeps__store_data_in_database : keeps_db.

Lemma keeps_elapsed a b : keeps_field f (elapsed a b).
Proof. unfold elapsed. destruct a, b; kp. Qed.
Hint Resolve keeps_elapsed : keeps_db.

Lemma keeps__log_processing_results n m :
  keeps_field f (_log_processing_results n m).
Proof. unfold _log_processing_results. kp. Qed.
Hint Resolve keeps__log_processing_results : keeps_db.

Lemma keeps__log_error msg t : keeps_field f (_log_error msg t).
Proof. unfold _log_error. kp. Qed.
Hint Resolve keeps__log_error : keeps_db.

Lemma keeps__generate_summary n m t : keeps_field f (_generate_summary n m t).
Proof. unfold _generate_summary. kp. Qed.
Hint Resolve keeps__generate_summary : keeps_db.

Hypothesis f_start : forall t p, f (set_start_time t p) = f p.
Hypothesis f_end : forall t p, f (set_end_time t p) = f p.

Lemma keeps_run_pipeline : keeps_field f run_pipeline.
Proof.
  unfold run_pipeline. apply keeps_log_execution_time. apply keeps_try.
  - unfold run_pipeline_try, _clean_and_transform_data. kp;
      apply keeps_modify; intros p; auto.
  - intros e. unfold run_pipeline_except. kp.
    apply keeps_modify; intros p; auto.
Qed.

End ObjectFields.

(** X16: a run never changes the batch identifier of its pipeline object,
    whatever its outcome; a second run of the same object stamps its rows
    with the identifier of the first. *)
Theorem run_pipeline_keeps_batch_id {pandas : PandasLib} (p : Pipeline) :
  batch_id (snd (run_pipeline p)) = batch_id p /\
  batch_id (snd (run_pipeline (snd (run_pipeline p)))) = batch_id p.
Proof.
  assert (H : keeps_field batch_id run_pipeline)
    by (apply keeps_run_pipeline; reflexivity).
  split; [apply H|]. now rewrite !H.
Qed.

(** *** A pipeline object that has never finished a run *)

Lemma raises_bind_first {A C} (I : Pipeline -> Prop) (m : M A) (k : A -> M C) :
  raises_from I m -> raises_from I (bind m k).
Proof.
  intros Hm p Hp. destruct (Hm p Hp) as (e & p' & H).
  exists e, p'. now apply bind_raise.
Qed.

Lemma raises_bind_later {A C} (m : M A) (k : A -> M C) :
  keeps_field end_time m ->
  (forall a, raises_from (fun p => end_time p = None) (k a)) ->
  raises_from (fun p => end_time p = None) (bind m k).
Proof.
  intros Hm Hk p Hp. unfold bind. specialize (Hm p).
  destruct (m p) as [[a|e] p1]; simpl in *.
  - apply Hk. congruence.
  - eauto.
Qed.

Lemma log_processing_results_needs_end_time n m :
  raises_from (fun p => end_time p = None) (_log_processing_results n m).
Proof.
  intros p Hp. unfold _log_processing_results, elapsed. run_monad.
  rewrite Hp. destruct (start_time p); simpl; eauto.
Qed.

Section FreshPipeline.
Context {pandas : PandasLib}.

Lemma run_pipeline_try_needs_end_time :
  raises_from (fun p => end_time p = None) run_pipeline_try.
Proof.
  unfold run_pipeline_try, _clean_and_transform_data.
  apply raises_bind_later; [now apply keeps_now|]. intros t.
  apply raises_bind_later; [now apply keeps_modify|]. intros _.
  apply raises_bind_later; [now apply keeps__download_file|]. intros ok.
  apply raises_bind_later; [destruct (negb ok); [apply keeps_raise | apply keeps_ret]|].
  intros _.
  apply raises_bind_later; [now apply keeps__read_and_process_data|]. intros df.
  apply raises_bind_later;
    [destruct (df_empty df); [apply keeps_raise | apply keeps_ret]|].
  intros _.
  apply raises_bind_later; [now apply keeps_clean_data|]. intros cleaned.
  apply raises_bind_later; [now apply keeps__validate_data_quality|]. intros qm.
  apply raises_bind_later; [now apply keeps__store_data_in_database|]. intros n.
  apply raises_bind_first. apply log_processing_results_needs_end_time.
Qed.

Lemma run_pipeline_except_sets_end_time e p1 :
  end_time (snd (run_pipeline_except e p1))
  = Some (clock (world p1) (ticks (world p1))).
Proof.
  unfold run_pipeline_except, _log_error, log_processing_status,
    audit_statement, elapsed.
  run_monad.
  destruct (start_time p1); simpl;
    destruct (audit_fails (world p1) (audit_ops (world p1))); simpl;
    destruct (processing_log (db (world p1))); reflexivity.
Qed.

(** What [run_pipeline] makes of a failure of its [try] block. *)
Lemma run_pipeline_after_failure p e p1 :
  run_pipeline_try (ticked p) = (Raise e, p1) ->
  exists p3,
    run_pipeline p = (Raise e, p3) /\
    end_time p3 = Some (clock (world p1) (ticks (world p1))).
Proof.
  intros Htry.
  pose proof (run_pipeline_except_sets_end_time e p1) as Hend.
  destruct (run_pipeline_except_spec e p1) as (p2 & rest & Hex & _).
  rewrite Hex in Hend. simpl in Hend.
  unfold run_pipeline, log_execution_time.
  erewrite bind_return by (unfold now; run_monad; reflexivity).
  fold (ticked p).
  unfold try_except at 1. unfold bind at 1.
  unfold try_except at 1. rewrite Htry, Hex.
  run_monad. eexists. split; [reflexivity|]. exact Hend.
Qed.

End FreshPipeline.

(** X17: a pipeline object whose end time has never been set cannot finish
    a run: whatever the world does, the run ends with an exception (at the
    latest the step that logs the results fails on the missing end time,
    after the rows have been loaded), and the handler then sets the end
    time.  Every newly built pipeline object is in that state. *)
Theorem run_pipeline_fails_without_end_time
        {pandas : PandasLib} (p : Pipeline) :
  end_time p = None ->
  exists e p' t,
    run_pipeline p = (Raise e, p') /\
    end_time p' = Some t.
Proof.
  intros Hend.
  destruct (run_pipeline_try_needs_end_time (ticked p) Hend)
    as (e & p1 & Htry).
  destruct (run_pipeline_after_failure p e p1 Htry) as (p3 & Hrun & Ht).
  eauto.
Qed.

Lemma run_pipeline_fails_without_end_time_witness :
  end_time (new_pipeline "run-1" serving_world) = None /\
  exists e p' t,
    @run_pipeline pandas_inplace (new_pipeline "run-1" serving_world)
      = (Raise e, p') /\
    end_time p' = Some t.
Proof.
  split; [reflexivity|].
  apply (@run_pipeline_fails_without_end_time pandas_inplace
           (new_pipeline "run-1" serving_world)).
  reflexivity.
Defined.

(** X18: the command-line entry point builds a new pipeline object, so its
    run always raises and the process always exits with code 1. *)
Theorem main_always_exits_with_failure
        {pandas : PandasLib} (uuid : string) (w : World) :
  fst (main uuid w) = 1.
Proof.
  unfold main.
  destruct (run_pipeline_try_needs_end_time (ticked (new_pipeline uuid w))
              eq_refl) as (e & p1 & Htry).
  destruct (run_pipeline_after_failure (new_pipeline uuid w) e p1 Htry)
    as (p3 & Hrun & _).
  unfold try_except at 1. unfold bind at 1. rewrite Hrun.
  reflexivity.
Qed.

(** X19: the demo's [run_simple_pipeline] never reports success: a failed
    run makes it answer False, and a run that returns a summary makes it
    look up the key 'inserted_rows', which no summary has, so it answers
    False again. *)
Theorem run_simple_pipeline_never_succeeds
        {pandas : PandasLib} (p : Pipeline) :
  exists p', run_simple_pipeline p = (Return false, p').
Proof.
  unfold run_simple_pipeline, try_except, bind.
  destruct (run_pipeline p) as [[summary|e] p1].
  - unfold summary_getitem.
    change (existsb (String.eqb "inserted_rows") summary_keys) with false.
    cbv iota. run_monad. eexists; reflexivity.
  - run_monad. eexists; reflexivity.
Qed.

(** X20: the timing decorator is transparent: the decorated call ends as
    the call itself does when started after one clock reading, with the
    same result or the same exception, and differs from it only by a second
    clock reading (and a log line on failure). *)
Theorem log_execution_time_is_transparent
        {A : Type} (fname : string) (f : M A) (p : Pipeline) :
  fst (log_execution_time fname f p) = fst (f (ticked p)) /\
  ticks (world (snd (log_execution_time fname f p)))
  = S (ticks (world (snd (f (ticked p))))) /\
  db (world (snd (log_execution_time fname f p)))
  = db (world (snd (f (ticked p)))) /\
  fs (world (snd (log_execution_time fname f p)))
  = fs (world (snd (f (ticked p)))) /\
  batch_id (snd (log_execution_time fname f p))
  = batch_id (snd (f (ticked p))).
Proof.
  unfold log_execution_time. run_monad. fold (ticked p).
  destruct (f (ticked p)) as [[a|e] p1]; simpl; repeat split.
Qed.

(** *** The processing summary *)

Lemma success_rate_bounds a b :
  0 <= a <= b -> 0 < b ->
  (0 <= inject_Z a / inject_Z b * 100 <= 100)%Q.
Proof.
  intros Ha Hb. destruct b as [|pb|pb]; try lia.
  unfold Qle, Qdiv, Qmult, Qinv, inject_Z. simpl. split; nia.
Qed.

Lemma read_csv_in_chunks_counts x n p df p1 :
  read_csv_in_chunks x n p = (Return df, p1) ->
  df_empty df = false ->
  total_rows p1 = Z.of_nat (nrows df).
Proof.
  unfold read_csv_in_chunks. run_monad.
  destruct (fs (world p) x) as [[content|]|]; simpl; try discriminate.
  destruct (content (py_or n Config.CHUNK_SIZE)) as [[|first rest]|msg];
    simpl; try discriminate.
  - intros H Hne. injection H as <- _. discriminate.
  - intros H _. injection H as <- <-. reflexivity.
Qed.

(** X21: the processor's summary after reading and cleaning.  The success
    rate is guarded against an empty count (it is 0 while total_rows is not
    positive); after a table has been read and cleaned, the summary reports
    the rows read and the rows kept, and the success rate lies between 0
    and 100. *)
Theorem processing_summary_after_cleaning
        {pandas : PandasLib} (file_path : string) (chunk_size : option Z)
        (p p1 p2 : Pipeline) (df cleaned : DataFrame) :
  (total_rows p <= 0 ->
   exists s p', get_processing_summary p = (Return s, p') /\
                ps_success_rate s = 0%Q) /\
  (read_csv_in_chunks file_path chunk_size p = (Return df, p1) ->
   df_empty df = false ->
   clean_data df p1 = (Return cleaned, p2) ->
   exists s p3,
     get_processing_summary p2 = (Return s, p3) /\
     ps_total_rows s = Z.of_nat (nrows df) /\
     ps_processed_rows s = Z.of_nat (nrows cleaned) /\
     ps_processed_rows s <= ps_total_rows s /\
     (0 <= ps_success_rate s <= 100)%Q).
Proof.
  split.
  - intros Hz. unfold get_processing_summary. run_monad.
    eexists; eexists. split; [reflexivity|]. simpl.
    destruct (0 <? total_rows p) eqn:E; [|reflexivity].
    apply Z.ltb_lt in E. lia.
  - intros Hread Hne Hclean.
    pose proof (read_csv_in_chunks_counts _ _ _ _ _ Hread Hne) as Htotal.
    rewrite (clean_data_nonempty df p1 Hne) in Hclean.
    injection Hclean as <- <-.
    pose proof (drop_duplicates_count df) as Hd.
    assert (Hpos : (0 < nrows df)%nat).
    { unfold df_empty in Hne. apply orb_false_iff in Hne as [Hn _].
      apply Nat.eqb_neq in Hn. lia. }
    unfold get_processing_summary. run_monad.
    eexists; eexists. split; [reflexivity|]. simpl.
    rewrite Htotal. unfold drop_duplicates in Hd. simpl in Hd.
    split; [reflexivity|]. split; [reflexivity|]. split; [lia|].
    destruct (0 <? Z.of_nat (nrows df)) eqn:E; [|apply Z.ltb_ge in E; lia].
    apply success_rate_bounds; lia.
Qed.

Lemma processing_summary_after_cleaning_witness :
  exists s p3,
    get_processing_summary
      (snd (@clean_data pandas_inplace sample
              (snd (read_csv_in_chunks Config.DOWNLOAD_PATH None
                      (new_pipeline "run-1"
                         (cached_world (fun _ => Chunks [sample])))))))
    = (Return s, p3) /\
    ps_total_rows s = 3 /\
    ps_processed_rows s = 2.
Proof.
  destruct (proj2 (@processing_summary_after_cleaning pandas_inplace
              Config.DOWNLOAD_PATH None
              (new_pipeline "run-1" (cached_world (fun _ => Chunks [sample])))
              (snd (read_csv_in_chunks Config.DOWNLOAD_PATH None
                      (new_pipeline "run-1"
                         (cached_world (fun _ => Chunks [sample])))))
              (snd (@clean_data pandas_inplace sample
                      (snd (read_csv_in_chunks Config.DOWNLOAD_PATH None
                              (new_pipeline "run-1"
                                 (cached_world (fun _ => Chunks [sample])))))))
              sample
              (match fst (@clean_data pandas_inplace sample
                      (snd (read_csv_in_chunks Config.DOWNLOAD_PATH None
                              (new_pipeline "run-1"
                                 (cached_world (fun _ => Chunks [sample]))))))
               with Return c => c | Raise _ => sample end))
              eq_refl eq_refl eq_refl)
    as (s & p3 & Hrun & Ht & Hp & _).
  exists s, p3. split; [exact Hrun|]. split; [exact Ht | exact Hp].
Defined.

(** *** The store step as a whole *)

Lemma table_exists_accepted t p :
  store_fails (world p) (store_ops (world p)) = false ->
  exists p',
    table_exists t p
    = (Return (existsb (String.eqb t) (table_names (db (world p)))), p') /\
    db (world p') = db (world p) /\
    store_fails (world p') = store_fails (world p).
Proof.
  intros H. unfold table_exists, store_statement. run_monad. rewrite H. simpl.
  eexists. repeat split.
Qed.

Lemma create_if_absent_rows d t :
  match table_rows t (data_tables (create_if_absent d)) with
  | Some l => l | None => []
  end
  = match table_rows t (data_tables d) with Some l => l | None => [] end.
Proof.
  unfold create_if_absent. cbn [data_tables].
  destruct (table_rows "processed_data" (data_tables d)) eqn:E;
    [reflexivity | now apply table_rows_new_table].
Qed.

(** X22: the store step on any database.  With a store that accepts every
    statement it returns the number of rows of the frame and leaves the
    data table holding its previous rows followed by the frame's rows;
    when the data table did not exist before, both audit tables exist
    afterwards, with the entries they had. *)
Theorem store_step_loads_and_prepares_audit_tables
        (df : DataFrame) (p : Pipeline) :
  (forall k, store_fails (world p) k = false) ->
  exists p',
    _store_data_in_database df p = (Return (Z.of_nat (nrows df)), p') /\
    stored_rows "processed_data" p'
    = (stored_rows "processed_data" p ++ rows_of df)%list /\
    (~ In "processed_data" (table_names (db (world p))) ->
     processing_log (db (world p'))
     = Some (match processing_log (db (world p)) with
             | Some l => l | None => [] end) /\
     data_quality_metrics (db (world p'))
     = Some (match data_quality_metrics (db (world p)) with
             | Some l => l | None => [] end)).
Proof.
  intros Hok. unfold _store_data_in_database.
  destruct (table_exists_accepted "processed_data" p (Hok _))
    as (p1 & Hex & Hdb1 & Hsf1).
  erewrite bind_return by exact Hex.
  set (present := existsb (String.eqb "processed_data")
                          (table_names (db (world p)))) in *.
  assert (Hok1 : forall k, store_fails (world p1) k = false)
    by (intros k; rewrite Hsf1; apply Hok).
  assert (Hcreate : exists p2,
             (if negb present then create_tables else ret tt) p1
             = (Return tt, p2) /\
             (forall k, store_fails (world p2) k = false) /\
             stored_rows "processed_data" p2 = stored_rows "processed_data" p /\
             (present = false ->
              db (world p2) = create_if_absent (db (world p)))).
  { destruct present; simpl.
    - exists p1. split; [reflexivity|]. split; [exact Hok1|].
      split; [unfold stored_rows; now rewrite Hdb1 | discriminate].
    - destruct (create_tables_accepted p1 (fun j _ => Hok1 _))
        as (p2 & Hc & Hdb2 & _ & Hsf2).
      exists p2. split; [exact Hc|].
      split; [intros k; rewrite Hsf2; apply Hok1|].
      split; [|intros _; now rewrite Hdb2, Hdb1].
      unfold stored_rows. rewrite Hdb2, Hdb1. apply create_if_absent_rows. }
  destruct Hcreate as (p2 & Hc & Hok2 & Hrows2 & Hdb2).
  erewrite bind_return by exact Hc.
  unfold insert_dataframe.
  change (py_or (Some Config.BATCH_SIZE) Config.BATCH_SIZE) with 1000.
  destruct (insert_batches_rows df "processed_data" 1000
              (py_range 0 (Z.of_nat (nrows df)) 1000) 0 p2 Hok2)
    as (p3 & Hrun & Hrows & _ & Hlog & Hqm).
  exists p3. split; [|split].
  - unfold try_except. rewrite Hrun. f_equal. f_equal.
    unfold py_range. rewrite (range_loop_batches df 1000) by lia.
    rewrite expected_batches_sum by lia. lia.
  - rewrite Hrows, Hrows2. f_equal. unfold py_range.
    rewrite (range_loop_rows df 1000) by lia.
    unfold rows_of. f_equal. f_equal. lia.
  - intros Habsent.
    assert (Hp : present = false).
    { destruct present eqn:E; [|reflexivity]. exfalso. apply Habsent.
      unfold present in E. apply existsb_exists in E as (x & Hx & Heq).
      apply String.eqb_eq in Heq. now subst. }
    rewrite Hlog, Hqm, (Hdb2 Hp). unfold create_if_absent.
    cbn [processing_log data_quality_metrics].
    split; [now destruct (processing_log (db (world p)))
           | now destruct (data_quality_metrics (db (world p)))].
Qed.

Lemma store_step_loads_and_prepares_audit_tables_witness :
  (forall k, store_fails (fresh_world unreachable) k = false) /\
  exists p',
    _store_data_in_database sample
      (new_pipeline "run-1" (fresh_world unreachable)) = (Return 3, p') /\
    stored_rows "processed_data" p'
    = [[CInt 1; CNull]; [CInt 1; CNull]; [CInt 2; CStr "x"]] /\
    processing_log (db (world p')) = Some [].
Proof.
  split; [reflexivity|].
  destruct (store_step_loads_and_prepares_audit_tables sample
              (new_pipeline "run-1" (fresh_world unreachable))
              (fun _ => eq_refl))
    as (p' & Hrun & Hrows & Haudit).
  exists p'. split; [exact Hrun|]. split; [exact Hrows|].
  apply Haudit. simpl. tauto.
Defined.

(** *** A run that completes *)




Section CompletedRun.
Context {pandas : PandasLib}.




End CompletedRun.


